(** * Fingerprint capture and archival: [persons.service.ts]

    A shallow embedding of the fingerprint part of [PersonsService]
    ([createPersonFingerPrint], [showFingerprintRegistered],
    [getFingerprintComparison], [findOnePerson]) and the properties of the
    retention pipeline that are checked against it.

    The service is asynchronous, stateful code that talks to three
    repositories and to an FTP archive, and that signals failure by throwing.
    It is modelled in a state-and-exception monad over a [World] holding the
    tables, the remote files and a log of every collaborator call.  A thrown
    exception keeps the effects performed before it, as in the source. *)

From Stdlib Require Import ZArith String Ascii DecimalString DecimalZ DecimalPos.
From stdpp Require Import gmap strings list fin_maps.

Open Scope Z_scope.

(** ** JavaScript string primitives used by the service *)

Module Js.

(** [Number.MAX_SAFE_INTEGER]: up to it, in absolute value, every integer is
    a number of its own. *)
Definition MAX_SAFE_INTEGER : Z := 9007199254740991.

(** Template-literal rendering of an integer: [`${n}`].  The numbers of the
    service are modelled by the integers; the rendering is the one of
    JavaScript for the safe integers, which are written with all their
    digits.  Beyond [MAX_SAFE_INTEGER] a number is written with the digits
    that identify it only, and from 1e21 on with an exponent: what depends
    on the digits of a number is stated for safe integers. *)
Definition dec (z : Z) : string := NilZero.string_of_int (Z.to_int z).

(** [\d] without the unicode flag: the ten ASCII digits. *)
Definition is_digit (c : ascii) : bool :=
  let n := nat_of_ascii c in ((48 <=? n)%nat && (n <=? 57)%nat)%bool.

Definition digit_val (c : ascii) : Z := Z.of_nat (nat_of_ascii c) - 48.

(** The longest run of digits at the head of [s]. *)
Fixpoint take_digits (s : string) : string :=
  match s with
  | String c s' => if is_digit c then String c (take_digits s') else EmptyString
  | EmptyString => EmptyString
  end.

(** [s.match(/\d+/)]: the first maximal run of digits, [None] for [null].
    Only [match[0]] is used by the service. *)
Fixpoint match_digits (s : string) : option string :=
  match s with
  | EmptyString => None
  | String c s' =>
      if is_digit c then Some (String c (take_digits s')) else match_digits s'
  end.

Fixpoint parse_digits (acc : Z) (s : string) : Z :=
  match s with
  | EmptyString => acc
  | String c s' => parse_digits (10 * acc + digit_val c) s'
  end.

(** [parseInt(s, 10)] on a run of digits.  The result is exact; JavaScript
    rounds runs beyond 2^53. *)
Definition parseInt (s : string) : Z := parse_digits 0 s.

(** [s.includes(sub)]. *)
Fixpoint includes (s sub : string) : bool :=
  String.prefix sub s
  || match s with
     | EmptyString => false
     | String _ s' => includes s' sub
     end.

(** [+term] on the canonical numerals the service passes ([`${personId}`]);
    [None] stands for [NaN]. *)
Definition to_number (term : string) : option Z :=
  Z.of_int <$> NilZero.int_of_string term.

(** [l.join(sep)]. *)
Fixpoint join (sep : string) (l : list string) : string :=
  match l with
  | [] => EmptyString
  | [x] => x
  | x :: l' => x +:+ sep +:+ join sep l'
  end.

(** [Boolean(n)] for [n] a number or [null]: [null] and [0] are falsy. *)
Definition truthy (n : option Z) : bool :=
  match n with
  | Some v => negb (v =? 0)
  | None => false
  end.

(** [s.startsWith(p)] returning the remainder. *)
Fixpoint strip_prefix (p s : string) : option string :=
  match p, s with
  | EmptyString, _ => Some s
  | String a p', String b s' => if Ascii.eqb a b then strip_prefix p' s' else None
  | String _ _, EmptyString => None
  end.

(** Every character of [s] satisfies [p]. *)
Fixpoint all_chars (p : ascii -> bool) (s : string) : bool :=
  match s with
  | EmptyString => true
  | String c s' => p c && all_chars p s'
  end.

Definition digit_free (s : string) : bool := all_chars (fun c => negb (is_digit c)) s.

Definition slash_free (s : string) : bool :=
  all_chars (fun c => negb (Ascii.eqb c "/")) s.

End Js.

(** ** Entities *)

Definition Buffer := list Byte.byte.

(** [FingerprintType]: reference data, read only. *)
Record FingerprintType := {
  ft_id : Z;
  name : string;
  short_name : string;
}.

(** [PersonFingerprint], with its [fingerprintType] relation loaded.  [pf_id]
    is [None] until the row is first saved. *)
Record PersonFingerprint := {
  pf_id : option Z;
  quality : Z;
  attempts : Z;
  path : string;
  fingerprintType : FingerprintType;
  updatedAt : Z;
}.

(** A row of the person table, and the entity [findOnePerson] returns, with
    its [personFingerprints] relation loaded. *)
Record PersonRow := {
  row_id : Z;
  identityCard : string;
}.

Record Person := {
  person_row : PersonRow;
  personFingerprints : list PersonFingerprint;
}.

(** One item of [CreatePersonFingerprintDto.fingerprints]. *)
Record FingerprintDto := {
  wsq : string;
  dto_quality : Z;
  fingerprintTypeId : Z;
}.

Record CreatePersonFingerprintDto := {
  personId : Z;
  fingerprints : list FingerprintDto;
}.

(** The accumulator of the reduce, returned as [registros]. *)
Record UploadResults := {
  success : list string;
  error : list string;
}.

Record Response := {
  message : string;
  registros : UploadResults;
}.

Record ComparisonItem := {
  ci_id : option Z;
  ci_quality : Z;
  ci_fingerprintType : FingerprintType;
  wsqBase64 : string;
}.

(** ** Collaborator calls and exceptions *)

Inductive op :=
| PersonQuery (term : string)
| PersonFindOne (id : Z)
| FingerprintFindOne (person type : Z)
| TypeFindOne (type : Z)
| FingerprintSave (person type : Z)
| FtpConnect
| FtpList (dir : string)
| FtpUpload (file : string)
| FtpRemove (file : string)
| FtpDownload (file : string)
| FtpDestroy.

Inductive exn :=
| RpcException (code : option Z) (msg : string)
| JsError (msg : string)
| TypeError (msg : string)
| Rejected (o : op).

Inductive outcome (A : Type) :=
| Returned (a : A)
| Thrown (e : exn).
Arguments Returned {A} a.
Arguments Thrown {A} e.

(** ** The world

    The tables, the files of the archive (by full path), the collaborator
    calls made so far (the most recent first), the next id of the
    fingerprint table and the reading of [new Date()]. *)

Record World := {
  persons : list PersonRow;
  fingerprintTypes : list FingerprintType;
  fingerprintTable : gmap (Z * Z) PersonFingerprint;
  fingerprintSeq : Z;
  ftpFiles : gmap string Buffer;
  log : list op;
  clock : Z;
}.

Definition logged (o : op) (w : World) : World :=
  {| persons := persons w; fingerprintTypes := fingerprintTypes w;
     fingerprintTable := fingerprintTable w; fingerprintSeq := fingerprintSeq w;
     ftpFiles := ftpFiles w; log := o :: log w; clock := clock w |}.

Definition with_files (f : gmap string Buffer) (w : World) : World :=
  {| persons := persons w; fingerprintTypes := fingerprintTypes w;
     fingerprintTable := fingerprintTable w; fingerprintSeq := fingerprintSeq w;
     ftpFiles := f; log := log w; clock := clock w |}.

Definition with_table (t : gmap (Z * Z) PersonFingerprint) (seq : Z) (w : World) : World :=
  {| persons := persons w; fingerprintTypes := fingerprintTypes w;
     fingerprintTable := t; fingerprintSeq := seq;
     ftpFiles := ftpFiles w; log := log w; clock := clock w |}.

(** ** The monad of the service: state, and exceptions that keep the state *)

Definition M (A : Type) : Type := World -> World * outcome A.

Definition ret {A} (a : A) : M A := fun w => (w, Returned a).

Definition throw {A} (e : exn) : M A := fun w => (w, Thrown e).

Definition bind {A B} (m : M A) (k : A -> M B) : M B :=
  fun w =>
    match m w with
    | (w', Returned a) => k a w'
    | (w', Thrown e) => (w', Thrown e)
    end.

Notation "'await' x '<-' m ';' k" := (bind m (fun x => k))
  (at level 10, x name, m at level 100, k at level 200).

(** [try { body } catch (error) { handler }]. *)
Definition try_catch {A} (body : M A) (handler : exn -> M A) : M A :=
  fun w =>
    match body w with
    | (w', Returned a) => (w', Returned a)
    | (w', Thrown e) => handler e w'
    end.

(** [try { body } finally { cleanup }]: the cleanup runs on both exits, and
    an exception of the cleanup replaces the outcome of the body. *)
Definition try_finally {A} (body : M A) (cleanup : M unit) : M A :=
  fun w =>
    match body w with
    | (w', r) =>
        match cleanup w' with
        | (w'', Returned _) => (w'', r)
        | (w'', Thrown e) => (w'', Thrown e)
        end
    end.

(** [Promise.all([a, b])]: both promises are started, in the order of the
    array, and both run to completion; the result rejects when either does,
    with the rejection that comes first.  When both reject, which one comes
    first is a matter of timing: [second_first] tells it, for the world in
    which [Promise.all] is called. *)
Definition promise_all {A B} (second_first : World -> bool) (a : M A) (b : M B)
    : M (A * B) :=
  fun w =>
    match a w with
    | (w1, ra) =>
        match b w1 with
        | (w2, rb) =>
            (w2, match ra, rb with
                 | Returned x, Returned y => Returned (x, y)
                 | Thrown e, Returned _ => Thrown e
                 | Returned _, Thrown e => Thrown e
                 | Thrown e1, Thrown e2 => Thrown (if second_first w then e2 else e1)
                 end)
        end
    end.

(** [l.reduce(async (accPromise, x) => { const acc = await accPromise; ... },
    Promise.resolve(init))]: every callback first awaits the previous one, so
    the bodies run one after the other, and a rejection skips all later
    bodies. *)
Fixpoint reduce_async {A B} (f : B -> A -> M B) (l : list A) (acc : B) : M B :=
  match l with
  | [] => ret acc
  | x :: l' => await acc' <- f acc x; reduce_async f l' acc'
  end.

(** [for (const x of l) { body }] over a local accumulator. *)
Fixpoint for_of {A B} (body : B -> A -> M B) (l : list A) (acc : B) : M B :=
  match l with
  | [] => ret acc
  | x :: l' => await acc' <- body acc x; for_of body l' acc'
  end.

(** [new Date()]. *)
Definition new_Date : M Z := fun w => (w, Returned (clock w)).

(** ** Setters of the entity *)

Definition set_quality (q now : Z) (pf : PersonFingerprint) : PersonFingerprint :=
  {| pf_id := pf_id pf; quality := q; attempts := attempts pf; path := path pf;
     fingerprintType := fingerprintType pf; updatedAt := now |}.

Definition incr_attempts (pf : PersonFingerprint) : PersonFingerprint :=
  {| pf_id := pf_id pf; quality := quality pf; attempts := attempts pf + 1;
     path := path pf; fingerprintType := fingerprintType pf;
     updatedAt := updatedAt pf |}.

Definition set_id (i : Z) (pf : PersonFingerprint) : PersonFingerprint :=
  {| pf_id := Some i; quality := quality pf; attempts := attempts pf;
     path := path pf; fingerprintType := fingerprintType pf;
     updatedAt := updatedAt pf |}.

(** Modelled from the spec: the [PersonFingerprint] entity declaration is not
    part of the service file; a record is created with [attempts = 1], the
    value the column takes when [create] leaves it out. *)
Definition initial_attempts : Z := 1.

(** [personFingerprintRepository.create({ person, quality, fingerprintType,
    path })]; [now] is the timestamp the row gets when it is inserted. *)
Definition create (q : Z) (ft : FingerprintType) (p : string) (now : Z) : PersonFingerprint :=
  {| pf_id := None; quality := q; attempts := initial_attempts; path := p;
     fingerprintType := ft; updatedAt := now |}.

(** ** The remote directory *)

Record FileInfo := { file_name : string }.

(** The entries directly inside [dir]. *)
Definition entry_of (dir : string) (full : string) : option FileInfo :=
  match Js.strip_prefix dir full with
  | Some n => if Js.includes n "/" then None else Some {| file_name := n |}
  | None => None
  end.

Definition list_dir (dir : string) (files : gmap string Buffer) : list FileInfo :=
  omap (fun kv => entry_of dir kv.1) (map_to_list files).

(** ** The retention decision (lines 286-299) *)

(** A number or [Infinity], the type of [smallestNumber]. *)
Inductive jsnum :=
| Num (z : Z)
| Infinity.

Definition num_lt (a b : jsnum) : bool :=
  match a, b with
  | Num x, Num y => x <? y
  | Num _, Infinity => true
  | Infinity, _ => false
  end.

(** [files.filter((file) => file.name.includes(short_name))]. *)
Definition candidates (short : string) (files : list FileInfo) : list FileInfo :=
  List.filter (fun file => Js.includes (file_name file) short) files.

(** The body of the [.map]: [match ? parseInt(match[0], 10) : null]. *)
Definition parsed_number (file : FileInfo) : option Z :=
  match Js.match_digits (file_name file) with
  | Some m => Some (Js.parseInt m)
  | None => None
  end.

(** [number === quality] for [number] a number or [null]. *)
Definition strict_eq (number : option Z) (q : Z) : bool :=
  match number with
  | Some n => n =? q
  | None => false
  end.

(** The flag the [.map] callback raises as a side effect. *)
Definition quality_exist (short : string) (q : Z) (files : list FileInfo) : bool :=
  existsb (fun file => strict_eq (parsed_number file) q) (candidates short files).

(** [.filter(Boolean)]: drops [null] and also [0]. *)
Definition filter_Boolean (l : list (option Z)) : list Z :=
  omap (fun n => if Js.truthy n then n else None) l.

(** [.reduce((min, num) => (num < min ? num : min), Infinity)]. *)
Definition reduce_min (l : list Z) : jsnum :=
  fold_left (fun min num => if num_lt (Num num) min then Num num else min) l Infinity.

Definition smallestNumber (short : string) (files : list FileInfo) : jsnum :=
  reduce_min (filter_Boolean (map parsed_number (candidates short files))).

(** [`${smallestNumber}`]. *)
Definition jsnum_to_string (n : jsnum) : string :=
  match n with
  | Num z => Js.dec z
  | Infinity => "Infinity"
  end.

(** ** Paths (lines 258, 273, 282, 300) *)

Definition initialPath (person : Z) : string :=
  "Person/Fingerprints/" +:+ Js.dec person +:+ "/".

Definition record_path (person : Z) (short : string) : string :=
  initialPath person +:+ short +:+ ".wsq".

Definition upload_path (person : Z) (short : string) (q : Z) : string :=
  initialPath person +:+ short +:+ "_" +:+ Js.dec q +:+ ".wsq".

Definition remove_path (person : Z) (short : string) (n : jsnum) : string :=
  initialPath person +:+ short +:+ "_" +:+ jsnum_to_string n +:+ ".wsq".

Definition push_success (acc : UploadResults) (n : string) : UploadResults :=
  {| success := success acc ++ [n]; error := error acc |}.

Definition push_error (acc : UploadResults) (n : string) : UploadResults :=
  {| success := success acc; error := error acc ++ [n] |}.

Definition related_to (person : Z) (t : gmap (Z * Z) PersonFingerprint) : list PersonFingerprint :=
  omap (fun kv => if kv.1.1 =? person then Some kv.2 else None) (map_to_list t).

Definition load_person (w : World) (r : PersonRow) : Person :=
  {| person_row := r; personFingerprints := related_to (row_id r) (fingerprintTable w) |}.

(** ** Scenarios

    The data of the examples: a person with id 1, the thumb (short name
    [TH]) and the left thumb ([LTH]), and worlds in which the thumb of the
    person has been submitted a number of times. *)

Module Scenario.

(** No call rejects. *)
Definition reliable : op -> World -> bool := fun _ _ => false.

(** Every upload rejects. *)
Definition uploads_reject : op -> World -> bool :=
  fun o _ => match o with FtpUpload _ => true | _ => false end.


(** Removing a file that is not there rejects. *)
Definition missing_remove_rejects : op -> World -> bool :=
  fun o w =>
    match o with
    | FtpRemove file => bool_decide (ftpFiles w !! file = None)
    | _ => false
    end.

(** When the person query and the connection both reject, the rejection of
    the query comes first; or that of the connection. *)
Definition query_first : World -> bool := fun _ => false.
Definition connect_first : World -> bool := fun _ => true.

(** The archive cannot be reached. *)
Definition connect_rejects : op -> World -> bool :=
  fun o _ => match o with FtpConnect => true | _ => false end.

(** The examples carry the payload as it is; no property depends on the
    codec. *)
Definition raw : string -> Buffer := list_byte_of_string.
Definition unraw : Buffer -> string := string_of_list_byte.

Definition TH : FingerprintType :=
  {| ft_id := 1; name := "thumb"; short_name := "TH" |}.

Definition LTH : FingerprintType :=
  {| ft_id := 2; name := "left thumb"; short_name := "LTH" |}.

Definition person1 : PersonRow := {| row_id := 1; identityCard := "4815162" |}.

Definition thumb_record (q n : Z) : PersonFingerprint :=
  {| pf_id := Some 1; quality := q; attempts := n;
     path := "Person/Fingerprints/1/TH.wsq"; fingerprintType := TH; updatedAt := 0 |}.

Definition world (table : gmap (Z * Z) PersonFingerprint) (files : gmap string Buffer)
    : World :=
  {| persons := [person1]; fingerprintTypes := [TH; LTH];
     fingerprintTable := table; fingerprintSeq := 2;
     ftpFiles := files; log := []; clock := 100 |}.

(** Nothing submitted yet. *)
Definition fresh : World := world ∅ ∅.

(** The thumb submitted [n] times, best quality [q], with the given files. *)
Definition submitted (q n : Z) (files : gmap string Buffer) : World :=
  world {[ (1, 1) := thumb_record q n ]} files.

Definition scan (tid q : Z) : FingerprintDto :=
  {| wsq := "scan"; dto_quality := q; fingerprintTypeId := tid |}.

Definition empty_results : UploadResults := {| success := []; error := [] |}.

Definition the_person (w : World) : Person := load_person w person1.

(** The directory of the person holds a file of the left thumb whose name
    contains [TH]. *)
Definition overlapping_files : gmap string Buffer :=
  {[ "Person/Fingerprints/1/LTH_10.wsq" := raw "a";
     "Person/Fingerprints/1/TH_50.wsq" := raw "b";
     "Person/Fingerprints/1/TH_55.wsq" := raw "c";
     "Person/Fingerprints/1/TH_60.wsq" := raw "d" ]}.

Definition thumb_files : gmap string Buffer :=
  {[ "Person/Fingerprints/1/TH_55.wsq" := raw "a";
     "Person/Fingerprints/1/TH_58.wsq" := raw "b";
     "Person/Fingerprints/1/TH_60.wsq" := raw "c";
     "Person/Fingerprints/1/TH_62.wsq" := raw "d" ]}.

Definition one_good_file : gmap string Buffer :=
  {[ "Person/Fingerprints/1/TH_80.wsq" := raw "a" ]}.

End Scenario.

(** ** The person operations (lines 34-42, 48-74, 96-120, 379-383)

    [create], [findAll], [update], [remove] and [handleDBException] talk to
    the person repository only.  The repository is an interface here: the
    operations are modelled over any implementation of it, with the state of
    the database abstract. *)

Module Persons.

(** What a [catch] block reads of a database error. *)
Record DbError := {
  code : option string;
  detail : string;
}.

Inductive exception :=
| BadRequestException (message : string)
| NotFoundException (message : string)
| InternalServerErrorException (message : string)
| Rejection (error : DbError).

Inductive result (A : Type) :=
| Ok (a : A)
| Throw (e : exception).
Arguments Ok {A} a.
Arguments Throw {A} e.

(** [Repository<Person>], as far as the service uses it.  [P] is the entity,
    [Dto] what [create] and [preload] are given besides the id.  [repo_save]
    gives the entity as the save leaves it: the service returns the object
    it passed, which [save] updates in place.  The reads leave the database
    as it is.  [repo_matching] stands for the rows the
    where clause of [findAll] selects for a value of its [:filter] parameter
    ([None]: no where clause), in the order the database returns them. *)
Class Repository (Db P Dto : Type) := {
  repo_create : Dto -> P;
  repo_save : P -> Db -> Db * (DbError + P);
  repo_preload : Z -> Dto -> Db -> DbError + option P;
  repo_findOneBy : Z -> Db -> DbError + option P;
  repo_softDelete : Z -> Db -> Db * (DbError + unit);
  repo_matching : option string -> Db -> list P;
  repo_getManyAndCount : option string -> Z -> Z -> Db -> DbError + (list P * nat);
}.

(** [skip(offset).take(limit)] followed by [getManyAndCount()], for an offset
    that is not negative and a positive limit: when the query succeeds it
    returns the rows of the page and the number of all the rows selected. *)
Definition paginates {Db P Dto} {repository : Repository Db P Dto} : Prop :=
  forall param offset limit db persons total,
    0 <= offset -> 1 <= limit ->
    repo_getManyAndCount param offset limit db = inr (persons, total) ->
    persons = take (Z.to_nat limit) (drop (Z.to_nat offset) (repo_matching param db))
    /\ total = length (repo_matching param db).

(** A promise that nobody awaits: an object, whatever it will resolve to. *)
Inductive promise (A : Type) :=
| Pending (run : A).
Arguments Pending {A} run.

(** [if (x)] on an object: always taken. *)
Definition object_truthy {A} (x : promise A) : bool := true.

(** [FilteredPaginationDto]. *)
Record FilteredPaginationDto := {
  limit : option Z;
  page : option Z;
  filter : option string;
}.

Record Page (P : Type) := {
  persons : list P;
  total : nat;
}.
Arguments persons {P} _.
Arguments total {P} _.

(** [\s] on an ASCII string: tab, line feed, vertical tab, form feed,
    carriage return and space.  JavaScript has more white space beyond
    ASCII. *)
Definition is_space (c : ascii) : bool :=
  let n := nat_of_ascii c in ((9 <=? n)%nat && (n <=? 13)%nat || (n =? 32)%nat)%bool.

(** [s.replace(/\s+/g, '')]. *)
Fixpoint remove_spaces (s : string) : string :=
  match s with
  | EmptyString => EmptyString
  | String c s' => if is_space c then remove_spaces s' else String c (remove_spaces s')
  end.

Fixpoint trim_start (s : string) : string :=
  match s with
  | EmptyString => EmptyString
  | String c s' => if is_space c then trim_start s' else s
  end.

(** The string without its trailing white space. *)
Fixpoint trim_end (s : string) : string :=
  match s with
  | EmptyString => EmptyString
  | String c s' =>
      match trim_end s' with
      | EmptyString => if is_space c then EmptyString else String c EmptyString
      | rest => String c rest
      end
  end.

(** [s.trim()]. *)
Definition trim (s : string) : string := trim_end (trim_start s).

(** Line 53. *)
Definition formattedFilter (filter : string) : string := trim (remove_spaces filter).

(** The [:filter] parameter of the where clause (lines 52-66): none for a
    filter that is absent or empty. *)
Definition filter_parameter (filter : option string) : option string :=
  match filter with
  | Some f =>
      if String.eqb f EmptyString then None
      else Some ("%" +:+ formattedFilter f +:+ "%")
  | None => None
  end.

(** Lines 379-383; the exception it throws. *)
Definition handleDBException (error : DbError) : exception :=
  if bool_decide (code error = Some "23505")
  then BadRequestException (detail error)
  else InternalServerErrorException "Unexecpected Error".

Section Operations.

Context {Db P Dto : Type} {repository : Repository Db P Dto}.

(** Lines 34-42. *)
Definition create (createPersonDto : Dto) (db : Db) : Db * result P :=
  let person := repo_create createPersonDto in
  match repo_save person db with
  | (db', inr saved) => (db', Ok saved)
  | (db', inl error) => (db', Throw (handleDBException error))
  end.

(** Lines 48-74. *)
Definition findAll (dto : FilteredPaginationDto) (db : Db) : Db * result (Page P) :=
  let limit := default 10 (limit dto) in
  let page := default 1 (page dto) in
  let offset := (page - 1) * limit in
  match repo_getManyAndCount (filter_parameter (filter dto)) offset limit db with
  | inr (persons, total) => (db, Ok {| persons := persons; total := total |})
  | inl error => (db, Throw (Rejection error))
  end.

(** Lines 96-110. *)
Definition update (id : Z) (updatePersonDto : Dto) (db : Db) : Db * result P :=
  match repo_preload id updatePersonDto db with
  | inl error => (db, Throw (Rejection error))
  | inr None =>
      (db, Throw (NotFoundException ("Person with: " +:+ Js.dec id +:+ " not found")))
  | inr (Some person) =>
      match repo_save person db with
      | (db', inr saved) => (db', Ok saved)
      | (db', inl error) => (db', Throw (handleDBException error))
      end
  end.

(** Lines 112-120.  [findOneBy] is not awaited: [person] is the promise. *)
Definition remove (id : Z) (db : Db) : Db * result string :=
  let person := Pending (repo_findOneBy id db) in
  if object_truthy person then
    match repo_softDelete id db with
    | (db', inr _) => (db', Ok ("This action removes a #" +:+ Js.dec id +:+ " person"))
    | (db', inl error) => (db', Throw (Rejection error))
    end
  else (db, Throw (NotFoundException ("Person with: " +:+ Js.dec id +:+ " not found"))).

End Operations.

End Persons.

(** A person table in memory, with a unique identity card. *)
Module Registry.
Import Persons.

Definition unique_violation : DbError :=
  {| code := Some "23505"; detail := "Key (identity_card) already exists." |}.

Definition connection_lost : DbError :=
  {| code := Some "08006"; detail := "connection failure" |}.

Definition by_id (id : Z) (r : PersonRow) : bool := row_id r =? id.

Definition taken (p : PersonRow) (db : list PersonRow) : bool :=
  existsb (fun r => String.eqb (identityCard r) (identityCard p)
                    && negb (by_id (row_id p) r)) db.

Definition next_id (db : list PersonRow) : Z := 1 + foldr Z.max 0 (map row_id db).

(** [%body%] to [body]. *)
Definition pattern_body (p : string) : string :=
  String.substring 1 (String.length p - 2) p.

Definition matching (param : option string) (db : list PersonRow) : list PersonRow :=
  match param with
  | None => db
  | Some p => List.filter (fun r => Js.includes (identityCard r) (pattern_body p)) db
  end.

#[export] Instance table : Repository (list PersonRow) PersonRow string := {|
  repo_create card := {| row_id := 0; identityCard := card |};
  repo_save p db :=
    if taken p db then (db, inl unique_violation)
    else
      let p' := if row_id p =? 0
                then {| row_id := next_id db; identityCard := identityCard p |}
                else p in
      (List.filter (fun r => negb (by_id (row_id p') r)) db ++ [p'], inr p');
  repo_preload id card db :=
    inr (option_map (fun _ => {| row_id := id; identityCard := card |})
           (List.find (by_id id) db));
  repo_findOneBy id db := inr (List.find (by_id id) db);
  repo_softDelete id db := (List.filter (fun r => negb (by_id id r)) db, inr tt);
  repo_matching := matching;
  repo_getManyAndCount param offset limit db :=
    inr (take (Z.to_nat limit) (drop (Z.to_nat offset) (matching param db)),
         length (matching param db));
|}.

(** The same table behind a connection that is down: every call rejects. *)
Definition offline : Repository (list PersonRow) PersonRow string := {|
  repo_create card := {| row_id := 0; identityCard := card |};
  repo_save p db := (db, inl connection_lost);
  repo_preload id card db := inl connection_lost;
  repo_findOneBy id db := inl connection_lost;
  repo_softDelete id db := (db, inl connection_lost);
  repo_matching := matching;
  repo_getManyAndCount param offset limit db := inl connection_lost;
|}.

Definition three_persons : list PersonRow :=
  [ {| row_id := 1; identityCard := "4501" |};
    {| row_id := 2; identityCard := "4502" |};
    {| row_id := 3; identityCard := "7003" |} ].

End Registry.

(** ** The related rows of a person (lines 187-195, 385-413)

    [findAndVerifyPersonWithRelations] reads the entity by property names it
    is given.  An entity is modelled by its columns and its loaded
    relations, each an array of rows, both by property name; a row by its
    columns.  A property that is [null] or [undefined] is absent. *)

Module Relations.

(** The value of a column: a string, a number, or an object such as a
    [Date]. *)
Inductive scalar :=
| Str (s : string)
| Number (n : Z)
| Object.

#[export] Instance scalar_eq_dec : EqDecision scalar.
Proof. solve_decision. Defined.

(** [Boolean(v)]. *)
Definition scalar_truthy (v : option scalar) : bool :=
  match v with
  | Some (Str s) => negb (String.eqb s EmptyString)
  | Some (Number n) => negb (n =? 0)
  | Some Object => true
  | None => false
  end.

Definition Related := gmap string scalar.

Record PersonEntity := {
  columns : gmap string scalar;
  arrays : gmap string (list Related);
}.

(** [related[field] === registration]. *)
Definition registered_as (field registration : string) (related : Related) : bool :=
  bool_decide (related !! field = Some (Str registration)).

Section Operations.

Variable Db : Type.

(** [personRepository.findOne({ where: { id }, relations })]: the entity,
    nothing, or a rejection, of which the service reads the message. *)
Variable findOne : Z -> list string -> Db -> string + option PersonEntity.

(** Lines 385-413.  [person[relation]] is a loaded relation, a column or
    undefined; a column that is truthy passes the test of line 403 and has
    no [filter]. *)
Definition findAndVerifyPersonWithRelations (id : Z) (relation registration field : string)
    (db : Db) : outcome PersonEntity :=
  match findOne id [relation] db with
  | inl message => Thrown (RpcException (Some 400) message)
  | inr None =>
      Thrown (RpcException (Some 404) ("Affiliate with ID: " +:+ Js.dec id +:+ " not found"))
  | inr (Some person) =>
      match arrays person !! relation with
      | Some rows =>
          let filteredRelatedData := List.filter (registered_as field registration) rows in
          Returned {| columns := columns person;
                      arrays := <["personAffiliates" := filteredRelatedData]> (arrays person) |}
      | None =>
          if scalar_truthy (columns person !! relation)
          then Thrown (TypeError "person[relation].filter is not a function")
          else Thrown (RpcException (Some 404)
                         ("campo " +:+ relation +:+ " no existe en person"))
      end
  end.

(** Lines 187-195. *)
Definition findAffiliteRelatedWithPerson (id : Z) (db : Db) : outcome PersonEntity :=
  findAndVerifyPersonWithRelations id "personAffiliates" "persons" "type" db.

End Operations.

End Relations.

(** Persons with their relations, in memory. *)
Module Household.
Import Relations.

Definition relation_row (n : Z) (type : string) : Related :=
  {[ "id" := Number n; "type" := Str type ]}.

Definition holder : PersonEntity :=
  {| columns := {[ "id" := Number 1; "firstName" := Str "Ana" ]};
     arrays := {[ "personAffiliates" :=
                    [relation_row 10 "affiliates"; relation_row 11 "persons";
                     relation_row 12 "persons"; relation_row 13 "spouses"] ]} |}.

(** The entity with the relations asked for and no other. *)
Definition findOne (id : Z) (relations : list string) (db : list PersonEntity)
    : string + option PersonEntity :=
  inr ((fun p => {| columns := columns p;
                    arrays := filter (fun kv => kv.1 ∈ relations) (arrays p) |})
       <$> List.find (fun p => bool_decide (columns p !! "id" = Some (Number id))) db).

Definition disconnected (id : Z) (relations : list string) (db : list PersonEntity)
    : string + option PersonEntity :=
  inl "Connection terminated".

End Household.

(** ** The person of a dependent (lines 214-226)

    Of [showPersonsRelatedToAffiliate] the part that builds [personInfo]
    from the person loaded with a dependent; a name that is [null] is
    [None]. *)

Module Dependents.

Record PersonNames := {
  firstName : option string;
  secondName : option string;
  lastName : option string;
  mothersLastName : option string;
  identityCard : option string;
}.

Record PersonInfo := {
  full_name : string;
  info_identityCard : option string;
}.

(** [Boolean(s)] for a string or [null]. *)
Definition name_truthy (s : option string) : bool :=
  match s with
  | Some s => negb (String.eqb s EmptyString)
  | None => false
  end.

(** [names.filter(Boolean)]: the names that are given. *)
Definition given_names (names : list (option string)) : list string :=
  omap (fun s => if name_truthy s then s else None) names.

Definition personInfo (person : option PersonNames) : option PersonInfo :=
  match person with
  | Some person =>
      Some {| full_name :=
                Js.join " " (given_names [firstName person; secondName person;
                                             lastName person; mothersLastName person]);
              info_identityCard := identityCard person |}
  | None => None
  end.

(** The length of the names, with one separator between two of them. *)
Fixpoint separated_length (names : list string) : nat :=
  match names with
  | [] => 0
  | [x] => String.length x
  | x :: rest => String.length x + 1 + separated_length rest
  end.

End Dependents.

Section Service.

(** Which collaborator calls reject, as a function of the call and of the
    world it is made in (the log included, so a call may reject at one time
    and not at another). *)
Variable faulty : op -> World -> bool.

(** [Buffer.from(s, 'base64')] and [buffer.toString('base64')]. *)
Variable from_base64 : string -> Buffer.
Variable to_base64 : Buffer -> string.

(** The timing of line 243: whether, when the person query and the
    connection to the archive both reject, the rejection of the connection
    comes first.  The service has no hold on it. *)
Variable connect_rejects_first : World -> bool.

(** A call to a collaborator: it is logged, and it rejects when the fault
    model says so, before having had any effect. *)
Definition collaborator {A} (o : op) (run : World -> World * outcome A) : M A :=
  fun w => if faulty o w then (logged o w, Thrown (Rejected o)) else run (logged o w).

(** *** The collaborators

    The repositories and [FtpService] live outside the service file; they
    are modelled from section 6 of the specification, which gives their
    interfaces. *)

(** Modelled from the spec: the person query of [findOnePerson],
    [where person.id = :id or person.identityCard = :identityCard]. *)
Definition person_getOne (term : string) : M (option Person) :=
  collaborator (PersonQuery term) (fun w =>
    (w, Returned (load_person w <$>
           List.find (fun r => bool_decide (Js.to_number term = Some (row_id r))
                               || String.eqb (identityCard r) term)
                     (persons w)))).

(** Modelled from the spec: [personRepository.findOne({ where: { id } })]. *)
Definition person_findOne (id : Z) : M (option Person) :=
  collaborator (PersonFindOne id) (fun w =>
    (w, Returned (load_person w <$> List.find (fun r => row_id r =? id) (persons w)))).

(** Modelled from the spec: [findByPersonAndType]. *)
Definition fingerprint_findOne (person type : Z) : M (option PersonFingerprint) :=
  collaborator (FingerprintFindOne person type) (fun w =>
    (w, Returned (fingerprintTable w !! (person, type)))).

(** Modelled from the spec: [findById] on the fingerprint types. *)
Definition type_findOne (type : Z) : M (option FingerprintType) :=
  collaborator (TypeFindOne type) (fun w =>
    (w, Returned (List.find (fun t => ft_id t =? type) (fingerprintTypes w)))).

(** Modelled from the spec: [save]; a new row gets its id, and the saved
    entity is the one the caller goes on with. *)
Definition save (key : Z * Z) (pf : PersonFingerprint) : M PersonFingerprint :=
  collaborator (FingerprintSave key.1 key.2) (fun w =>
    match pf_id pf with
    | Some _ => (with_table (<[key := pf]> (fingerprintTable w)) (fingerprintSeq w) w,
                 Returned pf)
    | None =>
        let pf' := set_id (fingerprintSeq w) pf in
        (with_table (<[key := pf']> (fingerprintTable w)) (fingerprintSeq w + 1) w,
         Returned pf')
    end).

(** Modelled from the spec: [connect] of the archive client. *)
Definition connectToFtp : M unit :=
  collaborator FtpConnect (fun w => (w, Returned tt)).

(** Modelled from the spec: [listFiles], the entries of the directory. *)
Definition listFiles (dir : string) : M (list FileInfo) :=
  collaborator (FtpList dir) (fun w => (w, Returned (list_dir dir (ftpFiles w)))).

(** Modelled from the spec: [upload], which stores or overwrites the file. *)
Definition uploadFile (buffer : Buffer) (dir file : string) : M unit :=
  collaborator (FtpUpload file) (fun w =>
    (with_files (<[file := buffer]> (ftpFiles w)) w, Returned tt)).

(** Modelled from the spec: [remove].  Whether removing a file that is not
    there rejects is left to the fault model. *)
Definition removeFile (file : string) : M unit :=
  collaborator (FtpRemove file) (fun w =>
    (with_files (delete file (ftpFiles w)) w, Returned tt)).

(** Modelled from the spec: [download]; a file that is not there cannot be
    downloaded, and the call rejects. *)
Definition downloadFile (file : string) : M Buffer :=
  collaborator (FtpDownload file) (fun w =>
    match ftpFiles w !! file with
    | Some b => (w, Returned b)
    | None => (w, Thrown (Rejected (FtpDownload file)))
    end).

(** Modelled from the spec: [disconnect], which does not reject. *)
Definition onDestroy : M unit := fun w => (logged FtpDestroy w, Returned tt).

(** *** [findOnePerson] (lines 76-94) *)
Definition findOnePerson (term : string) : M Person :=
  await person <- person_getOne term;
  match person with
  | None => throw (RpcException (Some 404) ("Persona con " +:+ term +:+ " no encontrada"))
  | Some p => ret p
  end.

(** *** [createPersonFingerPrint] (lines 238-332) *)

(** Lines 259-280: the entity to save, the key of its row and the
    fingerprint type whose name is reported.  The key carries the person and
    the type of the row: the ones of the lookup for a record that was found,
    the [person] given to [create] and the type looked up for a new one. *)
Definition prepare (pid : Z) (person : Person) (q tid : Z)
    (found : option PersonFingerprint) : M (Z * Z * PersonFingerprint * FingerprintType) :=
  match found with
  | Some personFingerprint =>
      await now <- new_Date;
      let improved :=
        if q >? quality personFingerprint
        then set_quality q now personFingerprint
        else personFingerprint in
      ret ((pid, tid), incr_attempts improved, fingerprintType personFingerprint)
  | None =>
      await fingerprintType <- type_findOne tid;
      match fingerprintType with
      | None =>
          throw (RpcException None
                   ("Tipo de huella con ID " +:+ Js.dec tid +:+ " no encontrado"))
      | Some ft =>
          await now <- new_Date;
          ret ((row_id (person_row person), ft_id ft),
               create q ft (record_path pid (short_name ft)) now, ft)
      end
  end.

(** Lines 284-306: the body of the [try]. *)
Definition archive (pid : Z) (buffer : Buffer) (q : Z)
    (personFingerprint : PersonFingerprint) : M unit :=
  let short := short_name (fingerprintType personFingerprint) in
  let path := upload_path pid short q in
  if attempts personFingerprint >? 3 then
    await files <- listFiles (initialPath pid);
    let smallest := smallestNumber short files in
    if num_lt smallest (Num q) && negb (quality_exist short q files) then
      await _ <- removeFile (remove_path pid short smallest);
      uploadFile buffer (initialPath pid) path
    else ret tt
  else uploadFile buffer (initialPath pid) path.

(** Lines 249-313: the callback of the reduce. *)
Definition upload_step (pid : Z) (person : Person)
    (acc : UploadResults) (fingerprint : FingerprintDto) : M UploadResults :=
  let q := dto_quality fingerprint in
  let tid := fingerprintTypeId fingerprint in
  let buffer := from_base64 (wsq fingerprint) in
  await found <- fingerprint_findOne pid tid;
  await prepared <- prepare pid person q tid found;
  let '(key, draft, fingerprintType) := prepared in
  await personFingerprint <- save key draft;
  try_catch
    (await _ <- archive pid buffer q personFingerprint;
     ret (push_success acc (name fingerprintType)))
    (fun _ => ret (push_error acc (name fingerprintType))).

(** Lines 316-331: the message and the returned object. *)
Definition response (uploadResults : UploadResults) : Response :=
  let successMessage := Js.join ", " (success uploadResults) in
  {| message :=
       if (0 <? length (success uploadResults))%nat
       then "Las huellas: " +:+ successMessage +:+ " se han registrado correctamente."
       else "No se registró ninguna huella correctamente.";
     registros := uploadResults |}.

Definition createPersonFingerPrint (dto : CreatePersonFingerprintDto) : M Response :=
  let pid := personId dto in
  await both <-
    promise_all connect_rejects_first (findOnePerson (Js.dec pid)) connectToFtp;
  let person := both.1 in
  await uploadResults <-
    reduce_async (upload_step pid person) (fingerprints dto)
      {| success := []; error := [] |};
  await _ <- onDestroy;
  ret (response uploadResults).

(** *** [showFingerprintRegistered] (lines 334-344) *)
Definition showFingerprintRegistered (pid : Z) : M (list (Z * string)) :=
  await person <- person_findOne pid;
  match person with
  | None =>
      throw (TypeError "Cannot read properties of null (reading 'personFingerprints')")
  | Some p =>
      ret (map (fun fingerprint =>
                  (ft_id (fingerprintType fingerprint),
                   name (fingerprintType fingerprint)))
               (personFingerprints p))
  end.

(** *** [getFingerprintComparison] (lines 346-377) *)
Definition download_one (data : list ComparisonItem) (fingerprint : PersonFingerprint)
    : M (list ComparisonItem) :=
  try_catch
    (await fileBuffer <- downloadFile (path fingerprint);
     ret (data ++ [{| ci_id := pf_id fingerprint;
                      ci_quality := quality fingerprint;
                      ci_fingerprintType := fingerprintType fingerprint;
                      wsqBase64 := to_base64 fileBuffer |}]))
    (fun _ => throw (JsError ("Failed to download file at path: " +:+ path fingerprint))).

Definition getFingerprintComparison (pid : Z) : M (list ComparisonItem) :=
  await person <- findOnePerson (Js.dec pid);
  if (length (personFingerprints person) =? 0)%nat then
    throw (RpcException (Some 404) ("Person with ID: " +:+ Js.dec pid +:+ " not found"))
  else
    try_finally
      (await _ <- connectToFtp;
       for_of download_one (personFingerprints person) [])
      onDestroy.

(** ** Assumptions on the environment and notions of the specification *)

(** No repository call rejects. *)
Definition database_up : Prop :=
  forall o w,
    match o with
    | PersonQuery _ | PersonFindOne _ | FingerprintFindOne _ _
    | TypeFindOne _ | FingerprintSave _ _ => faulty o w = false
    | _ => True
    end.

(** No call to the archive rejects. *)
Definition archive_up : Prop :=
  forall o w,
    match o with
    | FtpConnect | FtpList _ | FtpUpload _ | FtpRemove _ | FtpDownload _ =>
        faulty o w = false
    | _ => True
    end.

(** What [save] stores and returns for an entity: a row without an id gets
    the next one. *)
Definition saved (w : World) (pf : PersonFingerprint) : PersonFingerprint :=
  match pf_id pf with
  | Some _ => pf
  | None => set_id (fingerprintSeq w) pf
  end.

Definition next_seq (w : World) (pf : PersonFingerprint) : Z :=
  match pf_id pf with
  | Some _ => fingerprintSeq w
  | None => fingerprintSeq w + 1
  end.

(** The entity a scan saves when it found [pf] under its key (lines
    261-265). *)
Definition bumped (q now : Z) (pf : PersonFingerprint) : PersonFingerprint :=
  incr_attempts (if q >? quality pf then set_quality q now pf else pf).

(** The world in which the [try] block of a scan starts when the scan found
    a record under [key] and saved [pf] there: the lookup and the save are
    logged and the entity is stored. *)
Definition stored (key : Z * Z) (pf : PersonFingerprint) (w : World) : World :=
  with_table (<[key := saved w pf]> (fingerprintTable w)) (next_seq w pf)
    (logged (FingerprintSave key.1 key.2) (logged (FingerprintFindOne key.1 key.2) w)).

(** The world in which the [try] block of a scan starts when the scan found
    no record, looked the fingerprint type up and saved the new entity. *)
Definition inserted (pid tid : Z) (key : Z * Z) (pf : PersonFingerprint) (w : World)
    : World :=
  with_table (<[key := saved w pf]> (fingerprintTable w)) (next_seq w pf)
    (logged (FingerprintSave key.1 key.2)
       (logged (TypeFindOne tid) (logged (FingerprintFindOne pid tid) w))).

(** The outcome of the [try]/[catch] around the archive body. *)
Definition reported (acc : UploadResults) (n : string) (r : World * outcome unit)
    : World * outcome UploadResults :=
  (r.1, Returned match r.2 with
                 | Returned _ => push_success acc n
                 | Thrown _ => push_error acc n
                 end).

(** The qualities parsed from the listed files that contain the short
    name, and their minimum ([None] when there is none). *)
Definition parsed_qualities (short : string) (files : list FileInfo) : list Z :=
  omap parsed_number (candidates short files).

Definition minimum (l : list Z) : option Z :=
  match l with
  | [] => None
  | x :: l' => Some (fold_left Z.min l' x)
  end.

Definition min_parsed_quality (short : string) (files : list FileInfo) : option Z :=
  minimum (parsed_qualities short files).

(** One table extends another: every record is still there, with a counter
    and a quality that are not smaller, and the same path and type. *)
Definition grows (t t' : gmap (Z * Z) PersonFingerprint) : Prop :=
  forall key pf,
    t !! key = Some pf ->
    exists pf',
      t' !! key = Some pf'
      /\ attempts pf <= attempts pf' /\ quality pf <= quality pf'
      /\ path pf' = path pf /\ fingerprintType pf' = fingerprintType pf.

(** The number of scans of a batch for a fingerprint type. *)
Definition scans_of (tid : Z) (scans : list FingerprintDto) : Z :=
  Z.of_nat (length (List.filter (fun fp => fingerprintTypeId fp =? tid) scans)).

(** The counter of a key, 0 when it has no record. *)
Definition attempts_at (w : World) (key : Z * Z) : Z :=
  from_option attempts 0 (fingerprintTable w !! key).

(** How often [connectToFtp] and [onDestroy] were called so far.  The log
    keeps the calls, also those that rejected: a call of [connectToFtp]
    opened a connection when it did not reject. *)
Definition is_connect (o : op) : bool :=
  match o with FtpConnect => true | _ => false end.

Definition is_destroy (o : op) : bool :=
  match o with FtpDestroy => true | _ => false end.

Definition opens (w : World) : nat := length (List.filter is_connect (log w)).

Definition closes (w : World) : nat := length (List.filter is_destroy (log w)).



(** The names whose flag is [b], in order. *)
Fixpoint picked (b : bool) (names : list string) (flags : list bool) : list string :=
  match names, flags with
  | n :: names', f :: flags' =>
      if Bool.eqb f b then n :: picked b names' flags' else picked b names' flags'
  | _, _ => []
  end.

(** *** The processing of a batch, scan by scan

    What the service makes of a scan, told from the calls that reject: the
    lookup of the record, the lookup of the type and the save come before
    the [try] block, the remote operations are inside it. *)









(** The complete comparison list of a person's records. *)
Definition item_of (files : gmap string Buffer) (fingerprint : PersonFingerprint)
    : ComparisonItem :=
  {| ci_id := pf_id fingerprint;
     ci_quality := quality fingerprint;
     ci_fingerprintType := fingerprintType fingerprint;
     wsqBase64 := to_base64 (default [] (files !! path fingerprint)) |}.

(** ** Facts on the string primitives *)

Lemma all_chars_app p s t :
  Js.all_chars p (s +:+ t) = Js.all_chars p s && Js.all_chars p t.
Proof. induction s as [|c s IH]; simpl; [done|]. by rewrite IH, andb_assoc. Qed.

Lemma prefix_app s t : String.prefix s (s +:+ t) = true.
Proof.
  induction s as [|c s IH]; simpl; [by destruct t|].
  by destruct (ascii_dec c c).
Qed.

Lemma includes_prefix s sub : String.prefix sub s = true -> Js.includes s sub = true.
Proof. intros H. destruct s; cbn -[String.prefix]; by rewrite H. Qed.

Lemma includes_no_char c s :
  Js.all_chars (fun a => negb (Ascii.eqb a c)) s = true ->
  Js.includes s (String c EmptyString) = false.
Proof.
  induction s as [|a s IH]; simpl; [done|].
  intros [Ha Hs]%andb_true_iff. rewrite (IH Hs).
  destruct (ascii_dec c a) as [->|_]; [|done].
  by rewrite Ascii.eqb_refl in Ha.
Qed.

Lemma strip_prefix_app p s : Js.strip_prefix p (p +:+ s) = Some s.
Proof.
  induction p as [|c p IH]; simpl; [done|]. by rewrite Ascii.eqb_refl.
Qed.

Lemma match_digits_skip s t :
  Js.digit_free s = true -> Js.match_digits (s +:+ t) = Js.match_digits t.
Proof.
  unfold Js.digit_free. induction s as [|c s IH]; simpl; [done|].
  intros [Hc Hs]%andb_true_iff. apply negb_true_iff in Hc. rewrite Hc. by apply IH.
Qed.

Lemma take_digits_app d t :
  Js.all_chars Js.is_digit d = true ->
  Js.take_digits t = EmptyString ->
  Js.take_digits (d +:+ t) = d.
Proof.
  induction d as [|c d IH]; simpl; [done|].
  intros [Hc Hd]%andb_true_iff Ht. rewrite Hc. f_equal. by apply IH.
Qed.

Lemma match_digits_run d t :
  d <> EmptyString ->
  Js.all_chars Js.is_digit d = true ->
  Js.take_digits t = EmptyString ->
  Js.match_digits (d +:+ t) = Some d.
Proof.
  destruct d as [|c d]; [done|]. simpl. intros _ [Hc Hd]%andb_true_iff Ht.
  rewrite Hc. f_equal. f_equal. by apply take_digits_app.
Qed.

Lemma uint_digits d : Js.all_chars Js.is_digit (NilEmpty.string_of_uint d) = true.
Proof. induction d; simpl; done. Qed.

Lemma parse_digits_acc d : forall acc,
  Js.parse_digits (Z.pos acc) (NilEmpty.string_of_uint d) = Z.pos (Pos.of_uint_acc d acc).
Proof.
  induction d; intros acc; cbn [NilEmpty.string_of_uint Js.parse_digits Pos.of_uint_acc];
    [done|..]; rewrite <- IHd; f_equal; vm_compute (Js.digit_val _); lia.
Qed.

Lemma parse_digits_uint d :
  Js.parse_digits 0 (NilEmpty.string_of_uint d) = Z.of_uint d.
Proof.
  unfold Z.of_uint. induction d; simpl; [done|exact IHd|..];
    apply (parse_digits_acc d).
Qed.

Lemma parseInt_dec q : 0 <= q -> Js.parseInt (Js.dec q) = q.
Proof.
  intros Hq. unfold Js.parseInt, Js.dec.
  rewrite <- (DecimalZ.of_to q) at 2.
  destruct q as [|p|p]; [done| |lia]. simpl.
  unfold NilZero.string_of_uint.
  destruct (Pos.to_uint p) eqn:E; try apply parse_digits_uint.
  by destruct (Unsigned.to_uint_nonnil p).
Qed.

Lemma dec_digits q :
  0 <= q -> Js.dec q <> EmptyString /\ Js.all_chars Js.is_digit (Js.dec q) = true.
Proof.
  intros Hq. unfold Js.dec. destruct q as [|p|p]; [done| |lia]. simpl.
  unfold NilZero.string_of_uint.
  destruct (Pos.to_uint p) as [|d|d|d|d|d|d|d|d|d|d] eqn:E;
    [by destruct (Unsigned.to_uint_nonnil p)|..];
    (split; [done|exact (uint_digits d)]).
Qed.

Lemma no_digit_no_slash c : Js.is_digit c = true -> negb (Ascii.eqb c "/") = true.
Proof.
  intros H. destruct (Ascii.eqb_spec c "/") as [->|]; [|done]. by vm_compute in H.
Qed.

Lemma all_chars_impl (p q : ascii -> bool) s :
  (forall c, p c = true -> q c = true) ->
  Js.all_chars p s = true -> Js.all_chars q s = true.
Proof.
  intros Himp. induction s as [|c s IH]; simpl; [done|].
  intros [Hc Hs]%andb_true_iff. by rewrite (Himp c Hc), IH.
Qed.

(** The name the service gives a file parses back to its quality. *)
Lemma conventional_name_parses short q :
  Js.digit_free short = true -> 0 <= q ->
  parsed_number {| file_name := short +:+ "_" +:+ Js.dec q +:+ ".wsq" |} = Some q.
Proof.
  intros Hs Hq. unfold parsed_number. simpl.
  destruct (dec_digits q Hq) as [Hne Hd].
  rewrite match_digits_skip by done.
  change ("_" +:+ Js.dec q +:+ ".wsq") with (String "_" (Js.dec q +:+ ".wsq")).
  cbn [Js.match_digits]. change (Js.is_digit "_") with false. cbv iota.
  rewrite match_digits_run by done. by rewrite parseInt_dec.
Qed.

Lemma conventional_name_listed pid short q files b :
  Js.slash_free short = true -> 0 <= q ->
  files !! upload_path pid short q = Some b ->
  {| file_name := short +:+ "_" +:+ Js.dec q +:+ ".wsq" |}
    ∈ list_dir (initialPath pid) files.
Proof.
  intros Hs Hq Hf. unfold list_dir. apply list_elem_of_omap.
  exists (upload_path pid short q, b). split; [by apply elem_of_map_to_list|].
  unfold entry_of, upload_path. simpl fst. rewrite strip_prefix_app.
  rewrite includes_no_char; [done|].
  fold Js.slash_free. unfold Js.slash_free in *.
  rewrite !all_chars_app, Hs. simpl.
  rewrite (all_chars_impl Js.is_digit); [done|apply no_digit_no_slash|].
  by apply dec_digits.
Qed.

Lemma append_cancel_l a b c : a +:+ b = a +:+ c -> b = c.
Proof. induction a as [|x a IH]; simpl; [done|]. intros [= H]. by apply IH. Qed.

(** The path stored in a new record is never the path its file is uploaded
    to. *)
Lemma record_path_differs pid short q : record_path pid short <> upload_path pid short q.
Proof.
  unfold record_path, upload_path. intros H.
  apply append_cancel_l, append_cancel_l in H. discriminate.
Qed.

(** A file stored under the name the service gives to quality [q] makes [q]
    one of the parsed qualities. *)
Lemma conventional_quality_parsed pid short q files b :
  Js.digit_free short = true -> Js.slash_free short = true -> 0 <= q ->
  files !! upload_path pid short q = Some b ->
  q ∈ parsed_qualities short (list_dir (initialPath pid) files).
Proof.
  intros Hd Hs Hq Hf. unfold parsed_qualities. apply list_elem_of_omap.
  exists {| file_name := short +:+ "_" +:+ Js.dec q +:+ ".wsq" |}.
  split; [|by apply conventional_name_parses].
  unfold candidates. apply list_elem_of_In, filter_In. split.
  - apply list_elem_of_In. by eapply conventional_name_listed.
  - apply includes_prefix, prefix_app.
Qed.

(** ** Stepping lemmas *)

Lemma collaborator_ok {A} (o : op) (run : World -> World * outcome A) (w : World) :
  faulty o w = false -> collaborator o run w = run (logged o w).
Proof. intros H. unfold collaborator. by rewrite H. Qed.

(** The archive never touches the tables. *)
Lemma save_cases key pf w :
  save key pf w
  = if faulty (FingerprintSave key.1 key.2) w
    then (logged (FingerprintSave key.1 key.2) w,
          Thrown (Rejected (FingerprintSave key.1 key.2)))
    else (with_table (<[key := saved w pf]> (fingerprintTable w)) (next_seq w pf)
            (logged (FingerprintSave key.1 key.2) w),
          Returned (saved w pf)).
Proof.
  unfold save, collaborator, saved, next_seq.
  destruct (faulty _ w); [done|]. simpl. by destruct (pf_id pf).
Qed.

Lemma save_ok key pf w :
  faulty (FingerprintSave key.1 key.2) w = false ->
  save key pf w
  = (with_table (<[key := saved w pf]> (fingerprintTable w)) (next_seq w pf)
       (logged (FingerprintSave key.1 key.2) w),
     Returned (saved w pf)).
Proof.
  intros H. unfold save. rewrite collaborator_ok by done.
  unfold saved, next_seq. simpl. by destruct (pf_id pf).
Qed.

(** The archive never touches the tables. *)
Lemma archive_tables pid buffer q pf w :
  fingerprintTable (archive pid buffer q pf w).1 = fingerprintTable w
  /\ fingerprintSeq (archive pid buffer q pf w).1 = fingerprintSeq w
  /\ fingerprintTypes (archive pid buffer q pf w).1 = fingerprintTypes w
  /\ persons (archive pid buffer q pf w).1 = persons w.
Proof.
  unfold archive, listFiles, removeFile, uploadFile, collaborator, bind, ret.
  repeat (case_match; simplify_eq/=; try done).
Qed.

(** The [try]/[catch] of a scan always completes, with the name in one of
    the two lists: in [success] exactly when the archive body returned. *)
Lemma guarded_archive pid buffer q pf acc n w :
  try_catch
    (await _ <- archive pid buffer q pf; ret (push_success acc n))
    (fun _ => ret (push_error acc n)) w
  = ((archive pid buffer q pf w).1,
     Returned match (archive pid buffer q pf w).2 with
              | Returned _ => push_success acc n
              | Thrown _ => push_error acc n
              end).
Proof.
  unfold try_catch, bind, ret.
  destruct (archive pid buffer q pf w) as [w' [[]|e]]; done.
Qed.

(** A scan that finds a record under its key: the updated entity is saved
    and the archive body runs in the world [stored]. *)
Lemma upload_step_existing pid person acc fp w pf :
  fingerprintTable w !! (pid, fingerprintTypeId fp) = Some pf ->
  faulty (FingerprintFindOne pid (fingerprintTypeId fp)) w = false ->
  faulty (FingerprintSave pid (fingerprintTypeId fp))
         (logged (FingerprintFindOne pid (fingerprintTypeId fp)) w) = false ->
  let pf' := bumped (dto_quality fp) (clock w) pf in
  let w1 := stored (pid, fingerprintTypeId fp) pf' w in
  let r := archive pid (from_base64 (wsq fp)) (dto_quality fp) (saved w pf') w1 in
  upload_step pid person acc fp w
  = (r.1, Returned match r.2 with
                   | Returned _ => push_success acc (name (fingerprintType pf))
                   | Thrown _ => push_error acc (name (fingerprintType pf))
                   end).
Proof.
  intros Hpf Hfind Hsave pf' w1 r.
  unfold upload_step.
  unfold bind at 1. unfold fingerprint_findOne. rewrite collaborator_ok by done.
  simpl. rewrite Hpf.
  unfold bind at 1. unfold prepare, new_Date, bind at 1, ret. simpl.
  unfold bind at 1. rewrite save_ok by done.
  apply guarded_archive.
Qed.

(** All the ways a scan can go. *)
Lemma upload_step_cases pid person acc fp w :
  let q := dto_quality fp in
  let tid := fingerprintTypeId fp in
  let buffer := from_base64 (wsq fp) in
  let w0 := logged (FingerprintFindOne pid tid) w in
  upload_step pid person acc fp w
  = if faulty (FingerprintFindOne pid tid) w
    then (w0, Thrown (Rejected (FingerprintFindOne pid tid)))
    else
      match fingerprintTable w !! (pid, tid) with
      | Some pf =>
          let pf' := bumped q (clock w) pf in
          if faulty (FingerprintSave pid tid) w0
          then (logged (FingerprintSave pid tid) w0,
                Thrown (Rejected (FingerprintSave pid tid)))
          else reported acc (name (fingerprintType pf))
                 (archive pid buffer q (saved w pf') (stored (pid, tid) pf' w))
      | None =>
          let w1 := logged (TypeFindOne tid) w0 in
          if faulty (TypeFindOne tid) w0
          then (w1, Thrown (Rejected (TypeFindOne tid)))
          else
            match List.find (fun t => ft_id t =? tid) (fingerprintTypes w) with
            | None =>
                (w1, Thrown (RpcException None
                       ("Tipo de huella con ID " +:+ Js.dec tid +:+ " no encontrado")))
            | Some ft =>
                let key := (row_id (person_row person), ft_id ft) in
                let pf' := create q ft (record_path pid (short_name ft)) (clock w) in
                if faulty (FingerprintSave key.1 key.2) w1
                then (logged (FingerprintSave key.1 key.2) w1,
                      Thrown (Rejected (FingerprintSave key.1 key.2)))
                else reported acc (name ft)
                       (archive pid buffer q (saved w pf') (inserted pid tid key pf' w))
            end
      end.
Proof.
  intros q tid buffer w0.
  unfold upload_step. unfold bind at 1. unfold fingerprint_findOne, collaborator at 1.
  fold tid w0.
  destruct (faulty (FingerprintFindOne pid tid) w); [done|]. cbv beta iota.
  change (fingerprintTable w0) with (fingerprintTable w).
  destruct (fingerprintTable w !! (pid, tid)) as [pf|].
  - unfold bind at 1.
    change (prepare pid person (dto_quality fp) tid (Some pf) w0)
      with (w0, Returned (A := Z * Z * PersonFingerprint * FingerprintType)
                  ((pid, tid), bumped q (clock w) pf, fingerprintType pf)).
    cbv beta iota. unfold bind at 1. rewrite save_cases.
    change ((pid, tid).1) with pid. change ((pid, tid).2) with tid.
    destruct (faulty (FingerprintSave pid tid) w0); [done|].
    cbv beta iota. apply guarded_archive.
  - unfold bind at 1. unfold prepare. unfold bind at 1.
    unfold type_findOne, collaborator at 1.
    destruct (faulty (TypeFindOne tid) w0); [done|]. cbv beta iota.
    change (fingerprintTypes (logged (TypeFindOne tid) w0)) with (fingerprintTypes w).
    destruct (List.find _ (fingerprintTypes w)) as [ft|]; [|done].
    unfold bind at 1. unfold new_Date. cbv beta iota. unfold ret at 1.
    cbv beta iota zeta. unfold bind at 1. rewrite save_cases.
    destruct (faulty (FingerprintSave _ _) _); [done|].
    cbv beta iota. apply guarded_archive.
Qed.

(** Below the threshold the [try] block is the upload alone. *)
Lemma archive_below pid buffer q pf w :
  attempts pf <= 3 ->
  archive pid buffer q pf w
  = uploadFile buffer (initialPath pid)
      (upload_path pid (short_name (fingerprintType pf)) q) w.
Proof.
  intros H. unfold archive.
  rewrite Z.gtb_ltb. by destruct (Z.ltb_spec 3 (attempts pf)); [lia|].
Qed.

(** Above it, the directory is listed and the decision of line 299 is
    taken on the listing. *)
Lemma archive_above pid buffer q pf w :
  3 < attempts pf ->
  faulty (FtpList (initialPath pid)) w = false ->
  let short := short_name (fingerprintType pf) in
  let files := list_dir (initialPath pid) (ftpFiles w) in
  let w1 := logged (FtpList (initialPath pid)) w in
  archive pid buffer q pf w
  = if num_lt (smallestNumber short files) (Num q) && negb (quality_exist short q files)
    then (await _ <- removeFile (remove_path pid short (smallestNumber short files));
          uploadFile buffer (initialPath pid) (upload_path pid short q)) w1
    else (w1, Returned tt).
Proof.
  intros H Hlist short files w1. unfold archive.
  rewrite Z.gtb_ltb. destruct (Z.ltb_spec 3 (attempts pf)); [|lia].
  unfold bind at 1. unfold listFiles. rewrite collaborator_ok by done. simpl.
  fold short files w1. by destruct (_ && _).
Qed.

Lemma upload_ok buffer dir file w :
  faulty (FtpUpload file) w = false ->
  uploadFile buffer dir file w
  = (with_files (<[file := buffer]> (ftpFiles w)) (logged (FtpUpload file) w), Returned tt).
Proof. intros H. unfold uploadFile. by rewrite collaborator_ok. Qed.

Lemma remove_ok file w :
  faulty (FtpRemove file) w = false ->
  removeFile file w
  = (with_files (delete file (ftpFiles w)) (logged (FtpRemove file) w), Returned tt).
Proof. intros H. unfold removeFile. by rewrite collaborator_ok. Qed.

Lemma attempts_bumped q now pf : attempts (bumped q now pf) = attempts pf + 1.
Proof. unfold bumped. by destruct (q >? quality pf). Qed.

Lemma quality_bumped q now pf : quality (bumped q now pf) = Z.max (quality pf) q.
Proof.
  unfold bumped. destruct (q >? quality pf) eqn:E; simpl.
  - rewrite Z.gtb_ltb in E. apply Z.ltb_lt in E. lia.
  - rewrite Z.gtb_ltb in E. apply Z.ltb_ge in E. lia.
Qed.

Lemma saved_fields w pf :
  quality (saved w pf) = quality pf /\ attempts (saved w pf) = attempts pf
  /\ path (saved w pf) = path pf /\ updatedAt (saved w pf) = updatedAt pf
  /\ fingerprintType (saved w pf) = fingerprintType pf.
Proof. unfold saved. by destruct (pf_id pf). Qed.

Lemma saved_type w pf : fingerprintType (saved w pf) = fingerprintType pf.
Proof. apply saved_fields. Qed.

Lemma bumped_type q now pf : fingerprintType (bumped q now pf) = fingerprintType pf.
Proof. unfold bumped. by destruct (q >? quality pf). Qed.

(** ** Existing record: counter and quality *)

(** C4: a submission against an existing record whose [attempts] is at most 3
    is processed when the lookup and the save do not reject, and then the
    stored record has [attempts] increased by exactly 1 and [quality] equal
    to the maximum of the old and the new quality: it is raised, with
    [updatedAt] refreshed, only when the new quality is strictly greater, and
    it is left as it was otherwise. *)
Theorem accept_improved_counts pid person acc fp w pf :
  fingerprintTable w !! (pid, fingerprintTypeId fp) = Some pf ->
  attempts pf <= 3 ->
  faulty (FingerprintFindOne pid (fingerprintTypeId fp)) w = false ->
  faulty (FingerprintSave pid (fingerprintTypeId fp))
         (logged (FingerprintFindOne pid (fingerprintTypeId fp)) w) = false ->
  exists w' acc' pf',
    upload_step pid person acc fp w = (w', Returned acc')
    /\ fingerprintTable w' !! (pid, fingerprintTypeId fp) = Some pf'
    /\ attempts pf' = attempts pf + 1
    /\ quality pf' = Z.max (quality pf) (dto_quality fp)
    /\ (quality pf < dto_quality fp ->
        quality pf' = dto_quality fp /\ updatedAt pf' = clock w)
    /\ (dto_quality fp <= quality pf ->
        quality pf' = quality pf /\ updatedAt pf' = updatedAt pf)
    /\ path pf' = path pf.
Proof.
  intros Hpf _ Hfind Hsave.
  rewrite (upload_step_existing pid person acc fp w pf Hpf Hfind Hsave).
  set (pf1 := bumped (dto_quality fp) (clock w) pf).
  set (w1 := stored (pid, fingerprintTypeId fp) pf1 w).
  set (r := archive _ _ _ _ w1).
  exists r.1, (match r.2 with
               | Returned _ => push_success acc (name (fingerprintType pf))
               | Thrown _ => push_error acc (name (fingerprintType pf))
               end), (saved w pf1).
  destruct (saved_fields w pf1) as (Hq & Ha & Hp & Hu & _).
  split; [done|]. split.
  { subst r. destruct (archive_tables pid (from_base64 (wsq fp)) (dto_quality fp)
                         (saved w pf1) w1) as [-> _].
    subst w1. unfold stored. simpl. by rewrite lookup_insert_eq. }
  rewrite Ha, Hq, Hu, Hp. subst pf1.
  rewrite attempts_bumped, quality_bumped.
  split; [done|]. split; [done|].
  unfold bumped. rewrite Z.gtb_ltb.
  destruct (Z.ltb_spec (quality pf) (dto_quality fp)); simpl; repeat split; lia || done.
Qed.

(** ** The threshold of the eviction branch *)

(** C2, as the code has it: the threshold is tested on the counter after its
    increment.  With the lookup and the save not rejecting, a submission
    against an existing record whose [attempts] before the call is at most 2
    makes one archive call, the upload of the new file, whatever the
    directory holds (and the file is stored when that call does not
    reject); when [attempts] before the call is 3 or more, the first archive
    call is the listing of the directory, that is the eviction branch. *)
Theorem eviction_threshold pid person acc fp w pf :
  fingerprintTable w !! (pid, fingerprintTypeId fp) = Some pf ->
  faulty (FingerprintFindOne pid (fingerprintTypeId fp)) w = false ->
  faulty (FingerprintSave pid (fingerprintTypeId fp))
         (logged (FingerprintFindOne pid (fingerprintTypeId fp)) w) = false ->
  let w1 := stored (pid, fingerprintTypeId fp)
              (bumped (dto_quality fp) (clock w) pf) w in
  let file := upload_path pid (short_name (fingerprintType pf)) (dto_quality fp) in
  let r := upload_step pid person acc fp w in
  (attempts pf <= 2 ->
     log r.1 = FtpUpload file :: log w1
     /\ (faulty (FtpUpload file) w1 = false ->
         ftpFiles r.1 = <[file := from_base64 (wsq fp)]> (ftpFiles w)
         /\ r.2 = Returned (push_success acc (name (fingerprintType pf)))))
  /\ (3 <= attempts pf ->
     exists later, log r.1 = later ++ FtpList (initialPath pid) :: log w1).
Proof.
  intros Hpf Hfind Hsave w1 file r. subst r.
  rewrite (upload_step_existing pid person acc fp w pf Hpf Hfind Hsave).
  fold w1.
  set (pf1 := bumped (dto_quality fp) (clock w) pf).
  destruct (saved_fields w pf1) as (_ & Ha & _ & _ & Hft).
  assert (Hatt : attempts (saved w pf1) = attempts pf + 1)
    by (rewrite Ha; apply attempts_bumped).
  assert (Hty : fingerprintType (saved w pf1) = fingerprintType pf)
    by (rewrite Hft; unfold pf1, bumped; by destruct (_ >? _)).
  split.
  - intros Hle. rewrite archive_below by lia. rewrite Hty. fold file.
    split.
    + unfold uploadFile, collaborator. by destruct (faulty (FtpUpload file) w1).
    + intros Hup. by rewrite upload_ok.
  - intros Hge. unfold archive.
    rewrite Hatt, Z.gtb_ltb. destruct (Z.ltb_spec 3 (attempts pf + 1)); [|lia].
    unfold bind at 1. unfold listFiles, collaborator at 1.
    destruct (faulty (FtpList _) w1); simpl; [by exists []|].
    destruct (_ && _).
    + unfold bind, removeFile, uploadFile, collaborator, ret; simpl.
      repeat (case_match; simplify_eq/=);
        first [by eexists [_; _] | by eexists [_]].
    + by exists [].
Qed.

(** ** The decision of the eviction branch *)

Lemma reduce_min_from l m :
  fold_left (fun min num => if num_lt (Num num) min then Num num else min) l (Num m)
  = Num (fold_left Z.min l m).
Proof.
  revert m. induction l as [|x l IH]; intros m; simpl; [done|].
  destruct (Z.ltb_spec x m).
  - rewrite IH. f_equal. f_equal. lia.
  - rewrite IH. f_equal. f_equal. lia.
Qed.

Lemma reduce_min_minimum l :
  reduce_min l = from_option Num Infinity (minimum l).
Proof. destruct l as [|x l]; [done|]. apply reduce_min_from. Qed.

Lemma filter_Boolean_no_zero (l : list (option Z)) :
  0 ∉ omap id l -> filter_Boolean l = omap id l.
Proof.
  unfold filter_Boolean. induction l as [|[v|] l IH]; simpl; intros H; [done| |by apply IH].
  destruct (Z.eqb_spec v 0) as [->|Hv]; simpl.
  - exfalso. apply H. constructor.
  - f_equal. apply IH. intros Hin. apply H. by constructor.
Qed.

Lemma omap_id_map {A B} (f : A -> option B) (l : list A) :
  omap id (map f l) = omap f l.
Proof.
  induction l as [|x l IH]; [done|].
  cbn [map omap list_omap]. unfold id at 1. destruct (f x); [f_equal|]; apply IH.
Qed.

(** Without a file parsed as [0], [smallestNumber] is the minimum of the
    parsed qualities. *)
Lemma smallestNumber_min short files :
  0 ∉ parsed_qualities short files ->
  smallestNumber short files
  = from_option Num Infinity (min_parsed_quality short files).
Proof.
  intros H. unfold smallestNumber, min_parsed_quality, parsed_qualities in *.
  rewrite filter_Boolean_no_zero, omap_id_map by (by rewrite omap_id_map).
  apply reduce_min_minimum.
Qed.

(** The flag is raised exactly when some candidate carries the quality. *)
Lemma quality_exist_elem short q files :
  quality_exist short q files = bool_decide (q ∈ parsed_qualities short files).
Proof.
  unfold quality_exist, parsed_qualities.
  induction (candidates short files) as [|f c IH]; simpl; [done|].
  rewrite IH. unfold strict_eq. destruct (parsed_number f) as [n|]; simpl; [|done].
  destruct (Z.eqb_spec n q) as [->|Hn]; simpl.
  - symmetry. apply bool_decide_eq_true. constructor.
  - apply bool_decide_ext. split; [by constructor|].
    intros Hin. apply elem_of_cons in Hin as [?|?]; [congruence|done].
Qed.

(** The eviction branch as the code runs it.  In the eviction branch
    (existing record, incremented counter above 3), when no collaborator call
    rejects and no listed file that contains the short name is parsed as 0:
    the path
    [{shortName}_{m}.wsq], for [m] the minimum parsed quality among the
    listed files containing the short name, is removed and the new file is
    uploaded if and only if [m] is strictly less than the new quality and no
    such file carries exactly the new quality; in every other case no remote
    file is removed or uploaded and the remote files are unchanged.  In both
    cases the scan is reported as a success and [attempts] is incremented. *)
Theorem eviction_decision pid person acc fp w pf :
  database_up -> archive_up ->
  fingerprintTable w !! (pid, fingerprintTypeId fp) = Some pf ->
  3 < attempts pf + 1 ->
  let q := dto_quality fp in
  let short := short_name (fingerprintType pf) in
  let dir := initialPath pid in
  let files := list_dir dir (ftpFiles w) in
  let w1 := stored (pid, fingerprintTypeId fp) (bumped q (clock w) pf) w in
  let r := upload_step pid person acc fp w in
  0 ∉ parsed_qualities short files ->
  r.2 = Returned (push_success acc (name (fingerprintType pf)))
  /\ (exists pf', fingerprintTable r.1 !! (pid, fingerprintTypeId fp) = Some pf'
                 /\ attempts pf' = attempts pf + 1)
  /\ match min_parsed_quality short files with
     | Some m =>
         if (m <? q) && negb (bool_decide (q ∈ parsed_qualities short files))
         then
           ftpFiles r.1
           = <[upload_path pid short q := from_base64 (wsq fp)]>
               (delete (remove_path pid short (Num m)) (ftpFiles w))
           /\ log r.1
              = FtpUpload (upload_path pid short q)
                  :: FtpRemove (remove_path pid short (Num m))
                  :: FtpList dir :: log w1
         else ftpFiles r.1 = ftpFiles w /\ log r.1 = FtpList dir :: log w1
     | None => ftpFiles r.1 = ftpFiles w /\ log r.1 = FtpList dir :: log w1
     end.
Proof.
  intros Hdb Hftp Hpf Hatt q short dir files w1 r Hzero. subst r.
  rewrite (upload_step_existing pid person acc fp w pf Hpf
             (Hdb (FingerprintFindOne _ _) _) (Hdb (FingerprintSave _ _) _)).
  fold q w1.
  set (pf1 := bumped q (clock w) pf).
  destruct (saved_fields w pf1) as (_ & Ha & _ & _ & Hft).
  assert (Hty : fingerprintType (saved w pf1) = fingerprintType pf)
    by (rewrite Hft; unfold pf1, bumped; by destruct (_ >? _)).
  assert (Htab : forall w2, fingerprintTable w2 = fingerprintTable w1 ->
            exists pf', fingerprintTable w2 !! (pid, fingerprintTypeId fp) = Some pf'
                        /\ attempts pf' = attempts pf + 1).
  { intros w2 ->. exists (saved w pf1). split.
    - unfold w1, stored. simpl. by rewrite lookup_insert_eq.
    - rewrite Ha. apply attempts_bumped. }
  rewrite archive_above;
    [|rewrite Ha; unfold pf1; rewrite attempts_bumped; lia
     |apply (Hftp (FtpList _))].
  rewrite Hty. fold short dir.
  change (ftpFiles w1) with (ftpFiles w). fold files.
  rewrite smallestNumber_min, quality_exist_elem by done.
  destruct (min_parsed_quality short files) as [m|]; simpl.
  - destruct ((m <? q) && negb (bool_decide (q ∈ parsed_qualities short files))).
    + unfold bind. rewrite remove_ok by apply (Hftp (FtpRemove _)).
      rewrite upload_ok by apply (Hftp (FtpUpload _)). simpl.
      split; [done|]. split; [exact (Htab w1 eq_refl)|done].
    + simpl. split; [done|]. split; [exact (Htab w1 eq_refl)|done].
  - split; [done|]. split; [exact (Htab w1 eq_refl)|done].
Qed.

(** Whatever the archive does, a submission whose quality is already carried
    by a listed file containing the short name removes no remote file. *)
Lemma duplicate_quality_never_evicts pid person acc fp w pf :
  fingerprintTable w !! (pid, fingerprintTypeId fp) = Some pf ->
  3 < attempts pf + 1 ->
  faulty (FingerprintFindOne pid (fingerprintTypeId fp)) w = false ->
  faulty (FingerprintSave pid (fingerprintTypeId fp))
         (logged (FingerprintFindOne pid (fingerprintTypeId fp)) w) = false ->
  dto_quality fp ∈ parsed_qualities (short_name (fingerprintType pf))
                     (list_dir (initialPath pid) (ftpFiles w)) ->
  let r := upload_step pid person acc fp w in
  ftpFiles r.1 = ftpFiles w
  /\ exists pf', fingerprintTable r.1 !! (pid, fingerprintTypeId fp) = Some pf'
                 /\ attempts pf' = attempts pf + 1.
Proof.
  intros Hpf Hatt Hfind Hsave Hdup r. subst r.
  rewrite (upload_step_existing pid person acc fp w pf Hpf Hfind Hsave).
  set (pf1 := bumped (dto_quality fp) (clock w) pf).
  set (w1 := stored _ pf1 w).
  destruct (saved_fields w pf1) as (_ & Ha & _ & _ & Hft).
  assert (Hty : fingerprintType (saved w pf1) = fingerprintType pf)
    by (rewrite Hft; unfold pf1, bumped; by destruct (_ >? _)).
  split.
  - unfold archive. rewrite Ha. unfold pf1 at 1. rewrite attempts_bumped, Z.gtb_ltb.
    destruct (Z.ltb_spec 3 (attempts pf + 1)); [|lia].
    unfold bind at 1. unfold listFiles, collaborator.
    destruct (faulty (FtpList _) w1); [done|]. simpl.
    rewrite Hty, quality_exist_elem.
    change (ftpFiles w1) with (ftpFiles w).
    rewrite (bool_decide_eq_true_2 _ Hdup). by rewrite andb_false_r.
  - exists (saved w pf1).
    destruct (archive_tables pid (from_base64 (wsq fp)) (dto_quality fp)
                (saved w pf1) w1) as [Ht _].
    simpl. rewrite Ht. split.
    + unfold w1, stored. simpl. by rewrite lookup_insert_eq.
    + rewrite Ha. apply attempts_bumped.
Qed.

(** X3: in particular, when the file the service would write for the new
    quality, a safe integer, is already in the directory, nothing is removed
    or uploaded, whatever the archive calls do, and [attempts] is
    incremented. *)
Lemma resubmission_never_evicts pid person acc fp w pf b :
  fingerprintTable w !! (pid, fingerprintTypeId fp) = Some pf ->
  3 < attempts pf + 1 ->
  faulty (FingerprintFindOne pid (fingerprintTypeId fp)) w = false ->
  faulty (FingerprintSave pid (fingerprintTypeId fp))
         (logged (FingerprintFindOne pid (fingerprintTypeId fp)) w) = false ->
  Js.digit_free (short_name (fingerprintType pf)) = true ->
  Js.slash_free (short_name (fingerprintType pf)) = true ->
  0 <= dto_quality fp <= Js.MAX_SAFE_INTEGER ->
  ftpFiles w !! upload_path pid (short_name (fingerprintType pf)) (dto_quality fp)
  = Some b ->
  let r := upload_step pid person acc fp w in
  ftpFiles r.1 = ftpFiles w
  /\ exists pf', fingerprintTable r.1 !! (pid, fingerprintTypeId fp) = Some pf'
                 /\ attempts pf' = attempts pf + 1.
Proof.
  intros Hpf Hatt Hfind Hsave Hd Hs [Hq _] Hfile.
  apply duplicate_quality_never_evicts; try done.
  by eapply conventional_quality_parsed.
Qed.

(** The archive body touches two paths at most: the one it uploads to and
    the one it removes. *)
Lemma archive_spares pid buffer q pf w f :
  let short := short_name (fingerprintType pf) in
  f <> upload_path pid short q ->
  f <> remove_path pid short
         (smallestNumber short (list_dir (initialPath pid) (ftpFiles w))) ->
  ftpFiles (archive pid buffer q pf w).1 !! f = ftpFiles w !! f.
Proof.
  intros short Hup Hrm.
  unfold archive, listFiles, removeFile, uploadFile, collaborator, bind, ret.
  fold short.
  repeat (case_match; simplify_eq/=; try done);
    rewrite ?lookup_insert_ne, ?lookup_delete_ne by done; done.
Qed.

Lemma upload_step_spares pid person acc fp w pf f :
  fingerprintTable w !! (pid, fingerprintTypeId fp) = Some pf ->
  let short := short_name (fingerprintType pf) in
  f <> upload_path pid short (dto_quality fp) ->
  f <> remove_path pid short
         (smallestNumber short (list_dir (initialPath pid) (ftpFiles w))) ->
  ftpFiles (upload_step pid person acc fp w).1 !! f = ftpFiles w !! f.
Proof.
  intros Hpf short Hup Hrm. rewrite upload_step_cases. cbv zeta. rewrite Hpf.
  destruct (faulty (FingerprintFindOne _ _) w); [done|].
  destruct (faulty (FingerprintSave _ _) _); [done|].
  unfold reported. cbn [fst].
  rewrite archive_spares; [done|by rewrite saved_type, bumped_type..].
Qed.

(** ** The first submission *)

(** With no record under the key, the entity is created with the no-suffix
    path and [attempts = 1], and the file goes to the suffixed path: the
    recorded path is left as it was in the archive. *)
Lemma new_record_file_location pid person acc fp w ft :
  database_up ->
  fingerprintTable w !! (pid, fingerprintTypeId fp) = None ->
  List.find (fun t => ft_id t =? fingerprintTypeId fp) (fingerprintTypes w) = Some ft ->
  let q := dto_quality fp in
  let key := (row_id (person_row person), ft_id ft) in
  let pf := create q ft (record_path pid (short_name ft)) (clock w) in
  faulty (FtpUpload (upload_path pid (short_name ft) q))
         (inserted pid (fingerprintTypeId fp) key pf w) = false ->
  let r := upload_step pid person acc fp w in
  r.2 = Returned (push_success acc (name ft))
  /\ ftpFiles r.1
     = <[upload_path pid (short_name ft) q := from_base64 (wsq fp)]> (ftpFiles w)
  /\ (exists pf', fingerprintTable r.1 !! key = Some pf'
                  /\ path pf' = record_path pid (short_name ft)
                  /\ attempts pf' = 1)
  /\ ftpFiles r.1 !! record_path pid (short_name ft)
     = ftpFiles w !! record_path pid (short_name ft).
Proof.
  intros Hdb Hnone Hft q key pf Hup r.
  set (file := upload_path pid (short_name ft) q) in *.
  set (w1 := inserted pid (fingerprintTypeId fp) key pf w) in *.
  assert (E : r = (with_files (<[file := from_base64 (wsq fp)]> (ftpFiles w1))
                     (logged (FtpUpload file) w1),
                   Returned (push_success acc (name ft)))).
  { subst r. rewrite upload_step_cases. cbv zeta.
    rewrite (Hdb (FingerprintFindOne _ _)), Hnone, (Hdb (TypeFindOne _)), Hft.
    rewrite (Hdb (FingerprintSave _ _)). fold q key pf w1.
    rewrite archive_below by (by rewrite (proj1 (proj2 (saved_fields w pf)))).
    rewrite saved_type. change (fingerprintType pf) with ft. fold file.
    by rewrite upload_ok. }
  rewrite E. cbn [fst snd].
  split; [done|]. split; [done|]. split.
  - exists (saved w pf). split; [apply lookup_insert_eq|].
    by destruct (saved_fields w pf) as (_ & -> & -> & _).
  - apply lookup_insert_ne.
    intros H. by apply (record_path_differs pid (short_name ft) q).
Qed.

(** ** Success without a write *)

(** C9: when the eviction branch takes no remote action, because the
    smallest number is not strictly below the new quality, or a listed file
    already carries the new quality, or no candidate file has a usable
    number, the name of the fingerprint type is still pushed onto the success
    list, and the remote files are as they were: being in the success list
    does not mean that the image was written. *)
Theorem declined_eviction_is_success pid person acc fp w pf :
  fingerprintTable w !! (pid, fingerprintTypeId fp) = Some pf ->
  3 < attempts pf + 1 ->
  faulty (FingerprintFindOne pid (fingerprintTypeId fp)) w = false ->
  faulty (FingerprintSave pid (fingerprintTypeId fp))
         (logged (FingerprintFindOne pid (fingerprintTypeId fp)) w) = false ->
  let q := dto_quality fp in
  let short := short_name (fingerprintType pf) in
  let files := list_dir (initialPath pid) (ftpFiles w) in
  let w1 := stored (pid, fingerprintTypeId fp) (bumped q (clock w) pf) w in
  faulty (FtpList (initialPath pid)) w1 = false ->
  (exists m, smallestNumber short files = Num m /\ q <= m)
  \/ quality_exist short q files = true
  \/ filter_Boolean (map parsed_number (candidates short files)) = [] ->
  upload_step pid person acc fp w
  = (logged (FtpList (initialPath pid)) w1,
     Returned {| success := success acc ++ [name (fingerprintType pf)];
                 error := error acc |})
  /\ name (fingerprintType pf)
     ∈ match (upload_step pid person acc fp w).2 with
       | Returned acc' => success acc'
       | Thrown _ => []
       end
  /\ ftpFiles (upload_step pid person acc fp w).1 = ftpFiles w
  /\ ftpFiles w !! upload_path pid short q
     = ftpFiles (upload_step pid person acc fp w).1 !! upload_path pid short q.
Proof.
  intros Hpf Hatt Hfind Hsave q short files w1 Hlist Hwhy.
  rewrite (upload_step_existing pid person acc fp w pf Hpf Hfind Hsave).
  fold q w1.
  set (pf1 := bumped q (clock w) pf).
  destruct (saved_fields w pf1) as (_ & Ha & _ & _ & Hft).
  assert (Hty : fingerprintType (saved w pf1) = fingerprintType pf)
    by (rewrite Hft; unfold pf1, bumped; by destruct (_ >? _)).
  rewrite archive_above;
    [|rewrite Ha; unfold pf1; rewrite attempts_bumped; lia|done].
  rewrite Hty. fold short. change (ftpFiles w1) with (ftpFiles w). fold files.
  assert (Hno : num_lt (smallestNumber short files) (Num q)
                && negb (quality_exist short q files) = false).
  { destruct Hwhy as [(m & -> & Hm)|[->|Hnone]].
    - simpl. destruct (Z.ltb_spec m q); [lia|done].
    - apply andb_false_r.
    - unfold smallestNumber. by rewrite Hnone. }
  rewrite Hno. cbn [fst snd]. split; [done|]. split; [|done].
  cbn [success]. apply elem_of_app. right. apply list_elem_of_singleton. done.
Qed.

(** ** The record is saved before the archive is touched *)

(** C8: for every processed scan, whichever list its name ends in, the
    quality record has been saved: an existing record is stored with its
    counter incremented and its quality raised if improved, a new one is
    stored as created.  Nothing is assumed of the archive: its calls may
    reject, and the eviction branch may decline to write. *)
Theorem record_saved_whatever_the_archive pid person acc fp w w' acc' :
  upload_step pid person acc fp w = (w', Returned acc') ->
  match fingerprintTable w !! (pid, fingerprintTypeId fp) with
  | Some pf =>
      fingerprintTable w' !! (pid, fingerprintTypeId fp)
      = Some (saved w (bumped (dto_quality fp) (clock w) pf))
      /\ (acc' = push_success acc (name (fingerprintType pf))
          \/ acc' = push_error acc (name (fingerprintType pf)))
  | None =>
      exists ft,
        List.find (fun t => ft_id t =? fingerprintTypeId fp) (fingerprintTypes w) = Some ft
        /\ fingerprintTable w' !! (row_id (person_row person), ft_id ft)
           = Some (set_id (fingerprintSeq w)
                     (create (dto_quality fp) ft
                        (record_path pid (short_name ft)) (clock w)))
        /\ (acc' = push_success acc (name ft) \/ acc' = push_error acc (name ft))
  end.
Proof.
  rewrite upload_step_cases.
  destruct (faulty (FingerprintFindOne _ _) w); [done|].
  destruct (fingerprintTable w !! (pid, fingerprintTypeId fp)) as [pf|] eqn:Hpf.
  - cbv zeta. destruct (faulty (FingerprintSave _ _) _); [done|].
    unfold reported. intros [= <- <-].
    match goal with |- context [archive ?a ?b ?c ?d ?e] =>
      destruct (archive_tables a b c d e) as [-> _];
      destruct (archive a b c d e).2 end;
      (split; [simpl; by rewrite lookup_insert_eq|by auto]).
  - cbv zeta. destruct (faulty (TypeFindOne _) _); [done|].
    destruct (List.find _ (fingerprintTypes w)) as [ft|] eqn:Hft; [|done].
    destruct (faulty (FingerprintSave _ _) _); [done|].
    unfold reported. intros [= <- <-].
    exists ft. split; [done|].
    match goal with |- context [archive ?a ?b ?c ?d ?e] =>
      destruct (archive_tables a b c d e) as [-> _];
      destruct (archive a b c d e).2 end;
      (split; [simpl; by rewrite lookup_insert_eq|by auto]).
Qed.

(** ** [showFingerprintRegistered] *)

(** C10: [showFingerprintRegistered] does not check that the person exists.
    For an id that matches no person the lookup returns [null] and the
    operation faults on reading [personFingerprints] of it, with a
    [TypeError] and not with the 404 that [findOnePerson] raises for an
    unknown person. *)
Theorem showFingerprintRegistered_unknown_person pid w :
  faulty (PersonFindOne pid) w = false ->
  List.find (fun r => row_id r =? pid) (persons w) = None ->
  showFingerprintRegistered pid w
  = (logged (PersonFindOne pid) w,
     Thrown (TypeError "Cannot read properties of null (reading 'personFingerprints')"))
  /\ (forall code msg,
        (showFingerprintRegistered pid w).2 <> Thrown (RpcException code msg))
  /\ (faulty (PersonQuery (Js.dec pid)) w = false ->
      List.find (fun r => bool_decide (Js.to_number (Js.dec pid) = Some (row_id r))
                          || String.eqb (identityCard r) (Js.dec pid))
                (persons w) = None ->
      (findOnePerson (Js.dec pid) w).2
      = Thrown (RpcException (Some 404)
                  ("Persona con " +:+ Js.dec pid +:+ " no encontrada"))).
Proof.
  intros Hf Hnone.
  assert (E : showFingerprintRegistered pid w
              = (logged (PersonFindOne pid) w,
                 Thrown (TypeError
                   "Cannot read properties of null (reading 'personFingerprints')"))).
  { unfold showFingerprintRegistered, bind, person_findOne.
    rewrite collaborator_ok by done. simpl. by rewrite Hnone. }
  split; [done|]. split.
  - intros code msg. by rewrite E.
  - intros Hq Hn. unfold findOnePerson, bind, person_getOne.
    rewrite collaborator_ok by done. simpl. by rewrite Hn.
Qed.

(** ** [getFingerprintComparison] *)

(** One download: it leaves the files, the tables and the count of closed
    connections as they are; it extends the list by the item of the record
    when the file is there, and throws otherwise. *)
Lemma download_one_spec data fingerprint w :
  let r := download_one data fingerprint w in
  ftpFiles r.1 = ftpFiles w /\ closes r.1 = closes w /\ opens r.1 = opens w
  /\ match r.2 with
     | Returned d =>
         d = data ++ [item_of (ftpFiles w) fingerprint]
         /\ is_Some (ftpFiles w !! path fingerprint)
     | Thrown e =>
         e = JsError ("Failed to download file at path: " +:+ path fingerprint)
     end.
Proof.
  unfold download_one, try_catch, bind, downloadFile, collaborator, throw, ret.
  destruct (faulty (FtpDownload _) w); simpl; [done|].
  unfold item_of. destruct (ftpFiles w !! path fingerprint) eqn:E; simpl; [|done].
  eauto.
Qed.

Lemma downloads_spec l : forall data w,
  let r := for_of download_one l data w in
  ftpFiles r.1 = ftpFiles w /\ closes r.1 = closes w /\ opens r.1 = opens w
  /\ match r.2 with
     | Returned d =>
         d = data ++ map (item_of (ftpFiles w)) l
         /\ Forall (fun fingerprint => is_Some (ftpFiles w !! path fingerprint)) l
     | Thrown e =>
         exists fingerprint,
           fingerprint ∈ l
           /\ e = JsError ("Failed to download file at path: " +:+ path fingerprint)
     end.
Proof.
  induction l as [|x l IH]; intros data w; simpl.
  - by rewrite app_nil_r.
  - unfold bind.
    destruct (download_one_spec data x w) as (Hf & Hc & Ho & Hr).
    destruct (download_one data x w) as [w1 [d|e]]; simpl in *.
    + specialize (IH d w1). simpl in IH.
      destruct IH as (Hf' & Hc' & Ho' & Hr').
      rewrite Hf', Hc', Ho', Hf, Hc, Ho. split; [done|]. split; [done|]. split; [done|].
      destruct (for_of download_one l d w1) as [w2 [d2|e2]]; simpl in *.
      * destruct Hr as [-> Hx], Hr' as [-> Hall]. rewrite Hf in *.
        split; [by rewrite <- app_assoc|by constructor].
      * destruct Hr' as (y & Hy & ->). exists y. split; [by constructor|done].
    + split; [done|]. split; [done|]. split; [done|].
      exists x. split; [constructor|done].
Qed.

(** A record whose file is missing, or whose download always rejects, makes
    the loop throw. *)
Lemma downloads_fail l : forall data w,
  (exists fingerprint,
     fingerprint ∈ l
     /\ (ftpFiles w !! path fingerprint = None
         \/ forall w', faulty (FtpDownload (path fingerprint)) w' = true)) ->
  exists e, (for_of download_one l data w).2 = Thrown e.
Proof.
  induction l as [|x l IH]; intros data w (y & Hy & Hbad).
  - by apply elem_of_nil in Hy.
  - cbn [for_of]. unfold bind.
    destruct (download_one_spec data x w) as (Hf & _ & _ & Hr).
    destruct (download_one data x w) as [w1 [d|e]] eqn:E; cbn [fst snd] in *; [|eauto].
    apply elem_of_cons in Hy as [->|Hy].
    + exfalso. destruct Hbad as [Hnone|Hrej].
      * destruct Hr as [_ [b Hb]]. congruence.
      * revert E. unfold download_one, try_catch, bind, downloadFile, collaborator.
        rewrite Hrej. done.
    + apply IH. exists y. split; [done|]. by rewrite Hf.
Qed.

Lemma comparison_found pid w row :
  faulty (PersonQuery (Js.dec pid)) w = false ->
  List.find (fun r => bool_decide (Js.to_number (Js.dec pid) = Some (row_id r))
                      || String.eqb (identityCard r) (Js.dec pid))
            (persons w) = Some row ->
  let records := personFingerprints (load_person w row) in
  let w0 := logged (PersonQuery (Js.dec pid)) w in
  getFingerprintComparison pid w
  = if (length records =? 0)%nat
    then (w0, Thrown (RpcException (Some 404)
                        ("Person with ID: " +:+ Js.dec pid +:+ " not found")))
    else try_finally
           (await _ <- connectToFtp; for_of download_one records [])
           onDestroy w0.
Proof.
  intros Hq Hrow records w0.
  unfold getFingerprintComparison. unfold bind at 1.
  unfold findOnePerson. unfold bind at 1. unfold person_getOne.
  rewrite collaborator_ok by done. cbv beta iota.
  change (persons (logged (PersonQuery (Js.dec pid)) w)) with (persons w).
  rewrite Hrow. fold w0.
  change (load_person w0 <$> Some row) with (Some (load_person w row)).
  cbv beta iota. unfold ret at 1. cbv beta iota.
  change (personFingerprints (load_person w row)) with records.
  by destruct (length records =? 0)%nat.
Qed.

Lemma comparison_body records w0 :
  try_finally (await _ <- connectToFtp; for_of download_one records []) onDestroy w0
  = if faulty FtpConnect w0
    then (logged FtpDestroy (logged FtpConnect w0), Thrown (Rejected FtpConnect))
    else (logged FtpDestroy (for_of download_one records [] (logged FtpConnect w0)).1,
          (for_of download_one records [] (logged FtpConnect w0)).2).
Proof.
  unfold try_finally, onDestroy, bind, connectToFtp, collaborator.
  destruct (faulty FtpConnect w0); [done|].
  by destruct (for_of download_one records [] (logged FtpConnect w0)).
Qed.

(** C6: [getFingerprintComparison] fails with the 404 exception when the
    person has no fingerprint record.  When the person has records, the
    result is all or nothing: a returned list holds the item of every record,
    with every file present in the archive, and otherwise the operation
    throws (so it throws as soon as the file of one record is missing or the
    download of one record is rejected); and on the success and on the
    failure path alike the connection is closed, once, as the last action. *)
Theorem comparison_all_or_nothing pid w row :
  faulty (PersonQuery (Js.dec pid)) w = false ->
  List.find (fun r => bool_decide (Js.to_number (Js.dec pid) = Some (row_id r))
                      || String.eqb (identityCard r) (Js.dec pid))
            (persons w) = Some row ->
  let records := personFingerprints (load_person w row) in
  let r := getFingerprintComparison pid w in
  (records = [] ->
     r = (logged (PersonQuery (Js.dec pid)) w,
          Thrown (RpcException (Some 404)
                    ("Person with ID: " +:+ Js.dec pid +:+ " not found"))))
  /\ (records <> [] ->
     closes r.1 = S (closes w)
     /\ head (log r.1) = Some FtpDestroy
     /\ match r.2 with
        | Returned data =>
            data = map (item_of (ftpFiles w)) records
            /\ length data = length records
            /\ Forall (fun fingerprint => is_Some (ftpFiles w !! path fingerprint)) records
        | Thrown e =>
            e = Rejected FtpConnect
            \/ exists fingerprint,
                 fingerprint ∈ records
                 /\ e = JsError ("Failed to download file at path: " +:+ path fingerprint)
        end
     /\ ((exists fingerprint,
           fingerprint ∈ records
           /\ (ftpFiles w !! path fingerprint = None
               \/ forall w', faulty (FtpDownload (path fingerprint)) w' = true)) ->
         exists e, r.2 = Thrown e)).
Proof.
  intros Hq Hrow records r. subst r.
  rewrite (comparison_found pid w row Hq Hrow). fold records.
  set (w0 := logged (PersonQuery (Js.dec pid)) w).
  clearbody records. split.
  - intros ->. done.
  - intros Hne.
    replace (length records =? 0)%nat with false by by destruct records.
    rewrite comparison_body.
    destruct (faulty FtpConnect w0) eqn:Hc.
    + simpl. split; [done|]. split; [done|]. split; [by left|]. eauto.
    + set (w1 := logged FtpConnect w0).
      destruct (downloads_spec records [] w1) as (Hf & Hcl & _ & Hr).
      pose proof (downloads_fail records [] w1) as Hfail.
      destruct (for_of download_one records [] w1) as [w2 [d|e]]; simpl in *.
      * change (closes (logged FtpDestroy w2)) with (S (closes w2)).
        rewrite Hcl. split; [done|]. split; [done|].
        destruct Hr as [-> Hall]. split.
        { split; [done|]. split; [by rewrite length_map|done]. }
        intros Hbad. destruct (Hfail Hbad) as [e He]. done.
      * change (closes (logged FtpDestroy w2)) with (S (closes w2)).
        rewrite Hcl. split; [done|]. split; [done|]. split; [by right|]. eauto.
Qed.

(** ** The batch *)

Lemma find_type_id tid (l : list FingerprintType) ft :
  List.find (fun t => ft_id t =? tid) l = Some ft -> ft_id ft = tid.
Proof. intros H. apply find_some in H as [_ H]. by apply Z.eqb_eq. Qed.

(** The archive body opens and closes no connection. *)
Lemma archive_connections pid buffer q pf w :
  opens (archive pid buffer q pf w).1 = opens w
  /\ closes (archive pid buffer q pf w).1 = closes w.
Proof.
  unfold archive, listFiles, removeFile, uploadFile, collaborator, bind, ret.
  repeat (case_match; simplify_eq/=; try done).
Qed.

Lemma upload_step_connections pid person acc fp w :
  opens (upload_step pid person acc fp w).1 = opens w
  /\ closes (upload_step pid person acc fp w).1 = closes w.
Proof.
  rewrite upload_step_cases. cbv zeta. unfold reported.
  repeat (case_match; try done); cbn [fst];
    match goal with |- context [archive ?a ?b ?c ?d ?e] =>
      destruct (archive_connections a b c d e) as [-> ->] end; done.
Qed.

Lemma reduce_connections pid person scans : forall acc w,
  opens (reduce_async (upload_step pid person) scans acc w).1 = opens w
  /\ closes (reduce_async (upload_step pid person) scans acc w).1 = closes w.
Proof.
  induction scans as [|fp scans IH]; intros acc w; simpl; [done|].
  unfold bind.
  destruct (upload_step_connections pid person acc fp w) as [Ho Hc].
  destruct (upload_step pid person acc fp w) as [w1 [acc1|e]]; simpl in *; [|done].
  destruct (IH acc1 w1) as [-> ->]. done.
Qed.

Lemma findOnePerson_cases term w :
  findOnePerson term w
  = (logged (PersonQuery term) w,
     if faulty (PersonQuery term) w then Thrown (Rejected (PersonQuery term))
     else match List.find (fun r => bool_decide (Js.to_number term = Some (row_id r))
                                    || String.eqb (identityCard r) term)
                          (persons w) with
          | Some row => Returned (load_person w row)
          | None => Thrown (RpcException (Some 404)
                              ("Persona con " +:+ term +:+ " no encontrada"))
          end).
Proof.
  unfold findOnePerson, bind, person_getOne, collaborator.
  destruct (faulty (PersonQuery term) w); [done|]. simpl.
  by destruct (List.find _ (persons w)).
Qed.

(** All the ways an invocation can go. *)
Lemma createPersonFingerPrint_cases dto w :
  let pid := personId dto in
  let w1 := logged (PersonQuery (Js.dec pid)) w in
  let w2 := logged FtpConnect w1 in
  createPersonFingerPrint dto w
  = match (findOnePerson (Js.dec pid) w).2 with
    | Thrown e =>
        (w2, Thrown (if faulty FtpConnect w1 && connect_rejects_first w
                     then Rejected FtpConnect else e))
    | Returned person =>
        if faulty FtpConnect w1 then (w2, Thrown (Rejected FtpConnect))
        else
          let r := reduce_async (upload_step pid person) (fingerprints dto)
                     {| success := []; error := [] |} w2 in
          match r.2 with
          | Returned uploadResults =>
              (logged FtpDestroy r.1, Returned (response uploadResults))
          | Thrown e => (r.1, Thrown e)
          end
    end.
Proof.
  intros pid w1 w2.
  unfold createPersonFingerPrint. fold pid. unfold bind at 1. unfold promise_all.
  rewrite findOnePerson_cases. cbv beta iota. fold w1. cbn [snd].
  unfold connectToFtp, collaborator. fold w2.
  match goal with |- context [if faulty (PersonQuery ?t) w then ?a else ?b] =>
    destruct (if faulty (PersonQuery t) w then a else b) as [person|e] end.
  - destruct (faulty FtpConnect w1); cbv beta iota; [done|].
    unfold bind at 1. cbn [fst].
    destruct (reduce_async _ (fingerprints dto) _ w2) as [w3 [res|e]]; done.
  - destruct (faulty FtpConnect w1); [|done]. simpl.
    by destruct (connect_rejects_first w).
Qed.

(** X9: every invocation calls [connectToFtp] exactly once; it calls
    [onDestroy] exactly once when it returns and not at all when it throws;
    and it returns only when [connectToFtp] did not reject.  So whenever the
    connection was opened and the invocation throws, the connection is left
    open. *)
Lemma connection_accounting dto w :
  let r := createPersonFingerPrint dto w in
  let connected :=
    negb (faulty FtpConnect (logged (PersonQuery (Js.dec (personId dto))) w)) in
  opens r.1 = S (opens w)
  /\ closes r.1 = match r.2 with
                  | Returned _ => S (closes w)
                  | Thrown _ => closes w
                  end
  /\ (forall response, r.2 = Returned response -> connected = true).
Proof.
  rewrite createPersonFingerPrint_cases. cbv zeta.
  destruct (findOnePerson (Js.dec (personId dto)) w).2 as [person|e0] eqn:Hfound.
  - destruct (faulty FtpConnect _); [done|].
    match goal with |- context [reduce_async ?f ?l ?a ?w2] =>
      destruct (reduce_connections (personId dto) person l a w2) as [Ho Hc];
      destruct (reduce_async f l a w2) as [w3 [res|e]] end;
      unfold opens, closes in *; simpl in *; rewrite Ho, Hc; by repeat split.
  - done.
Qed.



Lemma picked_lengths b names flags :
  length flags = length names ->
  (length (picked b names flags) + length (picked (negb b) names flags))%nat
  = length names.
Proof.
  revert flags. induction names as [|n names IH]; intros [|f flags]; simpl; try done.
  intros [= H]. specialize (IH flags H).
  destruct f, b; simpl in *; lia.
Qed.










End Service.

(** ** The properties on the scenarios *)

Import Scenario.

Lemma reliable_database : database_up reliable.
Proof. intros o w. by destruct o. Qed.

Lemma reliable_archive : archive_up reliable.
Proof. intros o w. by destruct o. Qed.

Example spec_scenario_fifth_submission :
  let r := upload_step reliable raw 1 (the_person (submitted 62 4 thumb_files))
             empty_results (scan 1 70) (submitted 62 4 thumb_files) in
  r.2 = Returned {| success := ["thumb"]; error := [] |}
  /\ ftpFiles r.1 !! "Person/Fingerprints/1/TH_55.wsq" = None
  /\ ftpFiles r.1 !! "Person/Fingerprints/1/TH_70.wsq" = Some (raw "scan")
  /\ (quality <$> fingerprintTable r.1 !! (1, 1)) = Some 70
  /\ (attempts <$> fingerprintTable r.1 !! (1, 1)) = Some 5.
Proof. vm_compute. done. Qed.

Lemma uploads_reject_database : database_up uploads_reject.
Proof. intros o w. by destruct o. Qed.

(** *** C1 *)

(** C1 on the code: the eviction misses the file of minimum quality.  The
    thumb has been submitted four times and the directory also holds
    [LTH_10.wsq], whose name contains [TH]: the minimum parsed quality among
    the files containing the short name is 10, below the new quality 70, and
    no file carries 70, so the file of minimum quality is to go; it is still
    there afterwards.  The code takes the minimum over the names that contain
    the short name (line 288) and rebuilds the path to remove from the short
    name and the number (line 300): it removes [TH_10.wsq], which names no
    file, and uploads [TH_70.wsq]; if the archive rejects the removal of a
    missing file, it uploads nothing and reports an error. *)
Lemma eviction_spares_minimum_file :
  let w := submitted 60 4 overlapping_files in
  let files := list_dir (initialPath 1) (ftpFiles w) in
  let r := upload_step reliable raw 1 (the_person w) empty_results (scan 1 70) w in
  let r' := upload_step missing_remove_rejects raw 1 (the_person w) empty_results
              (scan 1 70) w in
  min_parsed_quality "TH" files = Some 10
  /\ parsed_number {| file_name := "LTH_10.wsq" |} = Some 10
  /\ quality_exist "TH" 70 files = false
  /\ ftpFiles r.1 !! "Person/Fingerprints/1/LTH_10.wsq" = Some (raw "a")
  /\ ftpFiles r.1 !! "Person/Fingerprints/1/TH_70.wsq" = Some (raw "scan")
  /\ log r.1 = [FtpUpload "Person/Fingerprints/1/TH_70.wsq";
                FtpRemove "Person/Fingerprints/1/TH_10.wsq";
                FtpList "Person/Fingerprints/1/";
                FingerprintSave 1 1; FingerprintFindOne 1 1]
  /\ ftpFiles r'.1 !! "Person/Fingerprints/1/LTH_10.wsq" = Some (raw "a")
  /\ ftpFiles r'.1 !! "Person/Fingerprints/1/TH_70.wsq" = None
  /\ r'.2 = Returned {| success := []; error := ["thumb"] |}.
Proof. vm_compute. done. Qed.

(** The eviction of the specification's scenario: 55 is the minimum, 70 is
    new, [TH_55.wsq] is removed and [TH_70.wsq] uploaded. *)
Lemma eviction_decision_witness :
  let w := submitted 62 4 thumb_files in
  let r := upload_step reliable raw 1 (the_person w) empty_results (scan 1 70) w in
  (fingerprintTable w !! (1, 1) = Some (thumb_record 62 4)
   /\ 3 < attempts (thumb_record 62 4) + 1
   /\ 0 ∉ parsed_qualities "TH" (list_dir (initialPath 1) (ftpFiles w)))
  /\ r.2 = Returned (push_success empty_results "thumb")
  /\ ftpFiles r.1
     = <["Person/Fingerprints/1/TH_70.wsq" := raw "scan"]>
         (delete "Person/Fingerprints/1/TH_55.wsq" thumb_files).
Proof.
  intros w r.
  assert (Hp : fingerprintTable w !! (1, 1) = Some (thumb_record 62 4)) by reflexivity.
  assert (Ha : 3 < attempts (thumb_record 62 4) + 1) by (simpl; lia).
  assert (Hz : 0 ∉ parsed_qualities "TH" (list_dir (initialPath 1) (ftpFiles w)))
    by (apply (bool_decide_unpack _); vm_compute; exact I).
  split; [exact (conj Hp (conj Ha Hz))|].
  destruct (eviction_decision reliable raw 1 (the_person w) empty_results (scan 1 70) w
              (thumb_record 62 4) reliable_database reliable_archive Hp Ha Hz)
    as (Hr & _ & Hf).
  split; [exact Hr|].
  change (min_parsed_quality _ _) with (Some 55) in Hf.
  change (bool_decide _) with false in Hf.
  exact (proj1 Hf).
Defined.

(** *** C2 *)

(** C2 as stated fails at [attempts = 3]: the counter is 4 when the threshold
    is tested, the directory is listed, and since the only file there is
    better than the new scan nothing is uploaded. *)
Lemma third_resubmission_is_not_uploaded :
  let w := submitted 80 3 one_good_file in
  let r := upload_step reliable raw 1 (the_person w) empty_results (scan 1 70) w in
  (attempts <$> fingerprintTable w !! (1, 1)) = Some 3
  /\ log r.1 = [FtpList "Person/Fingerprints/1/"; FingerprintSave 1 1;
                FingerprintFindOne 1 1]
  /\ ftpFiles r.1 !! "Person/Fingerprints/1/TH_70.wsq" = None
  /\ map_to_list (ftpFiles r.1) = [("Person/Fingerprints/1/TH_80.wsq", raw "a")].
Proof. vm_compute. done. Qed.

(** A second submission (the counter goes from 2 to 3) is uploaded without a
    listing. *)
Lemma eviction_threshold_witness :
  let w := submitted 60 2 one_good_file in
  let r := upload_step reliable raw 1 (the_person w) empty_results (scan 1 55) w in
  fingerprintTable w !! (1, 1) = Some (thumb_record 60 2)
  /\ log r.1 = [FtpUpload "Person/Fingerprints/1/TH_55.wsq"; FingerprintSave 1 1;
                FingerprintFindOne 1 1]
  /\ ftpFiles r.1
     = <["Person/Fingerprints/1/TH_55.wsq" := raw "scan"]> one_good_file.
Proof.
  intros w r.
  assert (Hp : fingerprintTable w !! (1, 1) = Some (thumb_record 60 2)) by reflexivity.
  split; [exact Hp|].
  destruct (eviction_threshold reliable raw 1 (the_person w) empty_results (scan 1 55) w
              (thumb_record 60 2) Hp eq_refl eq_refl) as [Hlow _].
  destruct Hlow as [Hlog Hup]; [simpl; lia|].
  split; [exact Hlog|]. exact (proj1 (Hup eq_refl)).
Defined.

(** *** C3 *)

(** C3 on the code: the first submission of the thumb, quality 60.  The
    record is created with the path [TH.wsq] and [attempts = 1], but the one
    file that is created is [TH_60.wsq]; nothing is written at the recorded
    path, and the comparison, which downloads the recorded path, fails. *)
Lemma first_submission_misses_recorded_path :
  let dto := {| personId := 1; fingerprints := [scan 1 60] |} in
  let r := createPersonFingerPrint reliable raw query_first dto fresh in
  (registros <$> (match r.2 with Returned x => Some x | Thrown _ => None end))
    = Some {| success := ["thumb"]; error := [] |}
  /\ (path <$> fingerprintTable r.1 !! (1, 1)) = Some "Person/Fingerprints/1/TH.wsq"
  /\ (attempts <$> fingerprintTable r.1 !! (1, 1)) = Some 1
  /\ map_to_list (ftpFiles r.1) = [("Person/Fingerprints/1/TH_60.wsq", raw "scan")]
  /\ ftpFiles r.1 !! "Person/Fingerprints/1/TH.wsq" = None
  /\ (getFingerprintComparison reliable unraw 1 r.1).2
     = Thrown (JsError
         "Failed to download file at path: Person/Fingerprints/1/TH.wsq").
Proof. vm_compute. done. Qed.

(** *** C4 *)

(** A second submission of lower quality: the counter goes to 2 and the
    quality stays 60. *)
Lemma accept_improved_counts_witness :
  let w := submitted 60 1 one_good_file in
  (fingerprintTable w !! (1, 1) = Some (thumb_record 60 1)
   /\ attempts (thumb_record 60 1) <= 3)
  /\ exists w' acc' pf',
       upload_step reliable raw 1 (the_person w) empty_results (scan 1 55) w
       = (w', Returned acc')
       /\ fingerprintTable w' !! (1, 1) = Some pf'
       /\ attempts pf' = 2 /\ quality pf' = 60.
Proof.
  intros w.
  assert (Hp : fingerprintTable w !! (1, 1) = Some (thumb_record 60 1)) by reflexivity.
  assert (Ha : attempts (thumb_record 60 1) <= 3) by (simpl; lia).
  split; [exact (conj Hp Ha)|].
  destruct (accept_improved_counts reliable raw 1 (the_person w) empty_results
              (scan 1 55) w (thumb_record 60 1) Hp Ha eq_refl eq_refl)
    as (w' & acc' & pf' & Hstep & Htab & Hatt & Hq & _).
  exists w', acc', pf'. exact (conj Hstep (conj Htab (conj Hatt Hq))).
Defined.

(** *** C5 *)

(** C5 on the code: a batch whose only scan names an unknown fingerprint
    type.  The invocation opens the connection, throws the exception of line
    271 out of the reduce, and never reaches [onDestroy]: the connection is
    left open. *)
Lemma unknown_type_leaves_connection_open :
  let dto := {| personId := 1; fingerprints := [scan 99 60] |} in
  let r := createPersonFingerPrint reliable raw query_first dto fresh in
  r.2 = Thrown (RpcException None "Tipo de huella con ID 99 no encontrado")
  /\ log r.1 = [TypeFindOne 99; FingerprintFindOne 1 99; FtpConnect; PersonQuery "1"]
  /\ opens r.1 = 1%nat
  /\ closes r.1 = 0%nat.
Proof. vm_compute. done. Qed.

(** *** C6 *)

(** The recorded file of the one record is missing: the comparison throws
    and the connection is closed. *)
Lemma comparison_all_or_nothing_witness :
  let w := submitted 60 1 one_good_file in
  let r := getFingerprintComparison reliable unraw 1 w in
  personFingerprints (load_person w person1) = [thumb_record 60 1]
  /\ ftpFiles w !! path (thumb_record 60 1) = None
  /\ closes r.1 = 1%nat
  /\ head (log r.1) = Some FtpDestroy
  /\ exists e, r.2 = Thrown e.
Proof.
  intros w r.
  assert (Hrec : personFingerprints (load_person w person1) = [thumb_record 60 1])
    by reflexivity.
  assert (Hnone : ftpFiles w !! path (thumb_record 60 1) = None) by reflexivity.
  split; [exact Hrec|]. split; [exact Hnone|].
  destruct (comparison_all_or_nothing reliable unraw 1 w person1 eq_refl eq_refl)
    as [_ Hsome].
  destruct Hsome as (Hc & Hh & _ & Hfail); [by rewrite Hrec|].
  split; [exact Hc|]. split; [exact Hh|].
  apply Hfail. exists (thumb_record 60 1). split; [|left; exact Hnone].
  rewrite Hrec. constructor.
Defined.

(** *** C7 *)



(** The same batch, evaluated: both uploads are rejected, both names are in
    the error list, in order, and both records are saved. *)
Example rejected_uploads_are_reported :
  let w := submitted 60 1 one_good_file in
  let dto := {| personId := 1; fingerprints := [scan 1 70; scan 2 40] |} in
  let r := createPersonFingerPrint uploads_reject raw query_first dto w in
  r.2 = Returned {| message := "No se registró ninguna huella correctamente.";
                    registros := {| success := []; error := ["thumb"; "left thumb"] |} |}
  /\ (quality <$> fingerprintTable r.1 !! (1, 1)) = Some 70
  /\ (attempts <$> fingerprintTable r.1 !! (1, 1)) = Some 2
  /\ (attempts <$> fingerprintTable r.1 !! (1, 2)) = Some 1
  /\ closes r.1 = 1%nat.
Proof. vm_compute. done. Qed.

(** *** C8 *)

(** The upload is rejected and the scan is reported as an error; the record
    is saved with quality 70 and the counter at 2. *)
Lemma record_saved_whatever_the_archive_witness :
  let w := submitted 60 1 one_good_file in
  let r := upload_step uploads_reject raw 1 (the_person w) empty_results (scan 1 70) w in
  r.2 = Returned (push_error empty_results "thumb")
  /\ fingerprintTable r.1 !! (1, 1)
     = Some (saved w (bumped 70 (clock w) (thumb_record 60 1)))
  /\ (quality <$> fingerprintTable r.1 !! (1, 1)) = Some 70
  /\ (attempts <$> fingerprintTable r.1 !! (1, 1)) = Some 2.
Proof.
  intros w r.
  assert (Hrun : upload_step uploads_reject raw 1 (the_person w) empty_results
                   (scan 1 70) w = (r.1, Returned (push_error empty_results "thumb")))
    by (vm_compute; reflexivity).
  pose proof (record_saved_whatever_the_archive uploads_reject raw 1 (the_person w)
                empty_results (scan 1 70) w r.1 _ Hrun) as H.
  change (fingerprintTable w !! (1, fingerprintTypeId (scan 1 70)))
    with (Some (thumb_record 60 1)) in H.
  destruct H as [Htab _].
  split; [vm_compute; reflexivity|]. split; [exact Htab|].
  change (fingerprintTypeId (scan 1 70)) with 1 in Htab.
  rewrite Htab. split; reflexivity.
Defined.

(** *** C9 *)

(** A scan of quality 50 against files whose smallest number is 55: nothing
    is written and the scan is a success. *)
Lemma declined_eviction_is_success_witness :
  let w := submitted 62 4 thumb_files in
  (fingerprintTable w !! (1, 1) = Some (thumb_record 62 4)
   /\ smallestNumber "TH" (list_dir (initialPath 1) (ftpFiles w)) = Num 55)
  /\ (upload_step reliable raw 1 (the_person w) empty_results (scan 1 50) w).2
     = Returned {| success := ["thumb"]; error := [] |}
  /\ ftpFiles (upload_step reliable raw 1 (the_person w) empty_results (scan 1 50) w).1
     = ftpFiles w.
Proof.
  intros w.
  assert (Hp : fingerprintTable w !! (1, 1) = Some (thumb_record 62 4)) by reflexivity.
  assert (Hs : smallestNumber "TH" (list_dir (initialPath 1) (ftpFiles w)) = Num 55)
    by reflexivity.
  split; [exact (conj Hp Hs)|].
  destruct (declined_eviction_is_success reliable raw 1 (the_person w) empty_results
              (scan 1 50) w (thumb_record 62 4) Hp) as (Hrun & _ & Hfiles & _).
  - simpl. lia.
  - reflexivity.
  - reflexivity.
  - reflexivity.
  - left. exists 55. split; [exact Hs|]. simpl. lia.
  - split; [by rewrite Hrun|exact Hfiles].
Defined.

(** *** C10 *)

(** No person has id 7. *)
Lemma showFingerprintRegistered_unknown_person_witness :
  List.find (fun r => row_id r =? 7) (persons fresh) = None
  /\ (showFingerprintRegistered reliable 7 fresh).2
     = Thrown (TypeError "Cannot read properties of null (reading 'personFingerprints')")
  /\ (findOnePerson reliable (Js.dec 7) fresh).2
     = Thrown (RpcException (Some 404) "Persona con 7 no encontrada").
Proof.
  assert (Hn : List.find (fun r => row_id r =? 7) (persons fresh) = None) by reflexivity.
  split; [exact Hn|].
  destruct (showFingerprintRegistered_unknown_person reliable 7 fresh eq_refl Hn)
    as (Hrun & _ & Hfind).
  split; [by rewrite Hrun|]. exact (Hfind eq_refl eq_refl).
Defined.

(** *** Further evaluations *)

(** The file of minimum quality of the C1 scenario survives under every
    fault model: the only path the step can remove is [TH_10.wsq]. *)
Lemma minimum_file_survives_any_fault faulty from_base64 :
  let w := submitted 60 4 overlapping_files in
  ftpFiles (upload_step faulty from_base64 1 (the_person w) empty_results (scan 1 70) w).1
    !! "Person/Fingerprints/1/LTH_10.wsq"
  = Some (raw "a").
Proof.
  intros w.
  rewrite (upload_step_spares faulty from_base64 1 (the_person w) empty_results
             (scan 1 70) w (thumb_record 60 4)).
  - reflexivity.
  - reflexivity.
  - vm_compute. discriminate.
  - vm_compute. discriminate.
Qed.

(** A file parsed as 0 is dropped by [.filter(Boolean)]: with [TH_0.wsq]
    alone in the directory [smallestNumber] is [Infinity] and a scan of
    quality 5 is not written, though the minimum parsed quality is 0. *)
Example zero_quality_file_is_ignored :
  let files : gmap string Buffer := {[ "Person/Fingerprints/1/TH_0.wsq" := raw "a" ]} in
  let w := submitted 0 4 files in
  let r := upload_step reliable raw 1 (the_person w) empty_results (scan 1 5) w in
  min_parsed_quality "TH" (list_dir (initialPath 1) files) = Some 0
  /\ smallestNumber "TH" (list_dir (initialPath 1) files) = Infinity
  /\ r.2 = Returned {| success := ["thumb"]; error := [] |}
  /\ map_to_list (ftpFiles r.1) = [("Person/Fingerprints/1/TH_0.wsq", raw "a")].
Proof. vm_compute. done. Qed.

(** * Further properties of the code *)

(** ** File names and qualities *)

(** ** The smallest number *)

Lemma reduce_min_spec l :
  match reduce_min l with
  | Num m => m ∈ l /\ forall n, n ∈ l -> m <= n
  | Infinity => l = []
  end.
Proof.
  rewrite reduce_min_minimum. destruct l as [|x l]; simpl; [done|].
  revert x. induction l as [|y l IH]; intros x; simpl.
  - split; [constructor|]. intros n Hn. apply list_elem_of_singleton in Hn. lia.
  - destruct (IH (Z.min x y)) as [Hin Hle]. split.
    + apply elem_of_cons in Hin as [Heq|Hin].
      * rewrite Heq. destruct (Z.min_spec x y) as [[_ ->]|[_ ->]].
        -- constructor.
        -- constructor. constructor.
      * constructor. by constructor.
    + intros n Hn. apply elem_of_cons in Hn as [->|Hn].
      * specialize (Hle (Z.min x y)). etransitivity; [apply Hle; constructor|lia].
      * apply elem_of_cons in Hn as [->|Hn].
        -- specialize (Hle (Z.min x y)). etransitivity; [apply Hle; constructor|lia].
        -- apply Hle. by constructor.
Qed.

Lemma filter_Boolean_elem (l : list (option Z)) n :
  n ∈ filter_Boolean l <-> Some n ∈ l /\ n <> 0.
Proof.
  unfold filter_Boolean. rewrite list_elem_of_omap. split.
  - intros (x & Hx & Hn). destruct x as [v|]; simpl in Hn; [|done].
    destruct (Z.eqb_spec v 0); simpl in Hn; [done|]. by simplify_eq.
  - intros [Hin Hn]. exists (Some n). split; [done|]. simpl.
    by destruct (Z.eqb_spec n 0).
Qed.

Lemma parsed_qualities_elem short files n :
  n ∈ parsed_qualities short files
  <-> Some n ∈ map parsed_number (candidates short files).
Proof.
  unfold parsed_qualities. rewrite list_elem_of_omap, list_elem_of_fmap.
  split; intros (f & H1 & H2); exists f; by split.
Qed.

Lemma take_digits_digits s : Js.all_chars Js.is_digit (Js.take_digits s) = true.
Proof.
  induction s as [|c s IH]; simpl; [done|].
  destruct (Js.is_digit c) eqn:E; simpl; [by rewrite E|done].
Qed.

Lemma digit_val_nonneg c : Js.is_digit c = true -> 0 <= Js.digit_val c.
Proof.
  unfold Js.is_digit, Js.digit_val. intros [H _]%andb_true_iff.
  apply Nat.leb_le in H. lia.
Qed.

Lemma parse_digits_nonneg s : forall acc,
  Js.all_chars Js.is_digit s = true -> 0 <= acc -> 0 <= Js.parse_digits acc s.
Proof.
  induction s as [|c s IH]; intros acc; simpl; [done|].
  intros [Hc Hs]%andb_true_iff Hacc. apply IH; [done|].
  pose proof (digit_val_nonneg c Hc). lia.
Qed.

Lemma match_digits_digits s d :
  Js.match_digits s = Some d -> Js.all_chars Js.is_digit d = true.
Proof.
  induction s as [|c s IH]; simpl; [done|].
  destruct (Js.is_digit c) eqn:E; [|done].
  intros [= <-]. simpl. by rewrite E, take_digits_digits.
Qed.

Lemma parsed_number_nonneg f n : parsed_number f = Some n -> 0 <= n.
Proof.
  unfold parsed_number. destruct (Js.match_digits (file_name f)) as [d|] eqn:E; [|done].
  intros [= <-]. apply parse_digits_nonneg; [by eapply match_digits_digits|done].
Qed.

(** X1: [smallestNumber] is the least parsed quality that is not 0: when it
    is a number it is positive, it is one of the qualities parsed from the
    files whose name contains the short name, and no such quality other than
    0 is below it; it is [Infinity] exactly when every parsed quality is
    0. *)
Theorem smallestNumber_least_positive short files :
  match smallestNumber short files with
  | Num m =>
      0 < m
      /\ m ∈ parsed_qualities short files
      /\ forall n, n ∈ parsed_qualities short files -> n <> 0 -> m <= n
  | Infinity => forall n, n ∈ parsed_qualities short files -> n = 0
  end.
Proof.
  unfold smallestNumber.
  pose proof (reduce_min_spec (filter_Boolean (map parsed_number (candidates short files))))
    as H.
  destruct (reduce_min _) as [m|].
  - destruct H as [Hin Hle]. apply filter_Boolean_elem in Hin as [Hin Hm].
    assert (Hp : m ∈ parsed_qualities short files) by by apply parsed_qualities_elem.
    split; [|split; [done|]].
    + apply list_elem_of_fmap in Hin as (f & Hf & _).
      symmetry in Hf. apply parsed_number_nonneg in Hf. lia.
    + intros n Hn Hn0. apply Hle, filter_Boolean_elem.
      split; [by apply parsed_qualities_elem|done].
  - intros n Hn. destruct (Z.eq_dec n 0) as [|Hn0]; [done|].
    assert (Hin : n ∈ filter_Boolean (map parsed_number (candidates short files))).
    { apply filter_Boolean_elem. split; [by apply parsed_qualities_elem|done]. }
    rewrite H in Hin. by apply elem_of_nil in Hin.
Qed.

Lemma to_uint_digits p :
  NilZero.string_of_uint (Pos.to_uint p) <> EmptyString
  /\ Js.all_chars Js.is_digit (NilZero.string_of_uint (Pos.to_uint p)) = true
  /\ Js.parseInt (NilZero.string_of_uint (Pos.to_uint p)) = Z.pos p.
Proof.
  pose proof (dec_digits (Z.pos p)) as H. pose proof (parseInt_dec (Z.pos p)) as H'.
  unfold Js.dec in *. simpl in *. split; [|split]; [apply H|apply H|apply H']; lia.
Qed.

(** X2: the quality written into a file name is read back from it, without
    its sign, for a quality that is a safe integer (a larger number is not
    written with all its digits). *)
Theorem upload_name_parses_back short q :
  Js.digit_free short = true ->
  Z.abs q <= Js.MAX_SAFE_INTEGER ->
  parsed_number {| file_name := short +:+ "_" +:+ Js.dec q +:+ ".wsq" |} = Some (Z.abs q).
Proof.
  intros Hs _. destruct (Z_lt_le_dec q 0) as [Hneg|Hpos].
  - destruct q as [|p|p]; try lia. unfold parsed_number. simpl file_name.
    destruct (to_uint_digits p) as (Hne & Hd & Hp).
    rewrite match_digits_skip by done.
    change (Js.dec (Z.neg p)) with (String "-" (NilZero.string_of_uint (Pos.to_uint p))).
    change ("_" +:+ String "-" (NilZero.string_of_uint (Pos.to_uint p)) +:+ ".wsq")
      with (String "_" (String "-" (NilZero.string_of_uint (Pos.to_uint p) +:+ ".wsq"))).
    cbn [Js.match_digits]. change (Js.is_digit "_") with false.
    change (Js.is_digit "-") with false. cbv iota.
    rewrite match_digits_run by done. by rewrite Hp.
  - rewrite conventional_name_parses by done. f_equal. lia.
Qed.

Lemma to_number_dec z : Js.to_number (Js.dec z) = Some z.
Proof.
  unfold Js.to_number, Js.dec. rewrite NilZero.isi.
  - simpl. by rewrite DecimalZ.of_to.
  - destruct z; simpl; try done. intros [= H]. by destruct (Unsigned.to_uint_nonnil p).
  - destruct z; simpl; try done. intros [= H]. by destruct (Unsigned.to_uint_nonnil p).
Qed.

Lemma dec_inj p q : Js.dec p = Js.dec q -> p = q.
Proof.
  intros H. pose proof (to_number_dec p) as Hp. rewrite H, to_number_dec in Hp.
  by injection Hp.
Qed.

Lemma dec_slash_free z : Js.slash_free (Js.dec z) = true.
Proof.
  destruct z as [|p|p]; [done| |].
  - destruct (to_uint_digits p) as (_ & Hd & _).
    unfold Js.slash_free. apply (all_chars_impl Js.is_digit); [apply no_digit_no_slash|done].
  - destruct (to_uint_digits p) as (_ & Hd & _).
    change (Js.dec (Z.neg p)) with (String "-" (NilZero.string_of_uint (Pos.to_uint p))).
    unfold Js.slash_free. simpl.
    apply (all_chars_impl Js.is_digit); [apply no_digit_no_slash|done].
Qed.

Lemma strip_prefix_app_both a b c :
  Js.strip_prefix (a +:+ b) (a +:+ c) = Js.strip_prefix b c.
Proof. induction a as [|x a IH]; simpl; [done|]. by rewrite Ascii.eqb_refl. Qed.

Lemma strip_prefix_separator (sep : ascii) d : forall d' x y,
  Js.all_chars (fun c => negb (Ascii.eqb c sep)) d = true ->
  Js.all_chars (fun c => negb (Ascii.eqb c sep)) d' = true ->
  Js.strip_prefix (d +:+ String sep EmptyString) (d' +:+ String sep x) = Some y ->
  d = d'.
Proof.
  induction d as [|c d IH]; intros [|c' d'] x y; simpl; try done.
  - intros _ [Hc _]%andb_true_iff.
    destruct (Ascii.eqb_spec sep c') as [<-|]; [|done].
    by rewrite Ascii.eqb_refl in Hc.
  - intros [Hc _]%andb_true_iff _.
    destruct (Ascii.eqb_spec c sep) as [->|]; [done|done].
  - intros [_ Hd]%andb_true_iff [_ Hd']%andb_true_iff.
    destruct (Ascii.eqb_spec c c') as [->|]; [|done].
    intros H. f_equal. by eapply IH.
Qed.

Lemma append_assoc a b c : (a +:+ b) +:+ c = a +:+ (b +:+ c).
Proof.
  induction a as [|x a IH]; [done|].
  change (String x ((a +:+ b) +:+ c) = String x (a +:+ (b +:+ c))). by f_equal.
Qed.

(** The directories of two persons are apart: no path inside one starts
    with the other. *)
Lemma directories_apart p p' x :
  p <> p' -> Js.strip_prefix (initialPath p) (initialPath p' +:+ x) = None.
Proof.
  intros Hne. unfold initialPath.
  change (("Person/Fingerprints/" +:+ Js.dec p' +:+ "/") +:+ x)
    with ("Person/Fingerprints/" +:+ ((Js.dec p' +:+ "/") +:+ x)).
  rewrite strip_prefix_app_both, append_assoc.
  destruct (Js.strip_prefix _ _) as [y|] eqn:E; [|done].
  exfalso. apply Hne, dec_inj.
  by apply (strip_prefix_separator "/" _ _ x y); [apply dec_slash_free..|].
Qed.

(** ** What a batch changes *)

Section Batch.

Variable faulty : op -> World -> bool.
Variable from_base64 : string -> Buffer.
Variable connect_rejects_first : World -> bool.

Local Abbreviation step := (upload_step faulty from_base64).
Local Abbreviation batch := (createPersonFingerPrint faulty from_base64 connect_rejects_first).

Lemma reduce_preserves (R : World -> World -> Prop) pid person scans :
  (forall w, R w w) ->
  (forall w1 w2 w3, R w1 w2 -> R w2 w3 -> R w1 w3) ->
  (forall acc fp w, R w (step pid person acc fp w).1) ->
  forall acc w, R w (reduce_async (step pid person) scans acc w).1.
Proof.
  intros Hrefl Htrans Hstep. induction scans as [|fp scans IH]; intros acc w; simpl.
  - apply Hrefl.
  - unfold bind. specialize (Hstep acc fp w).
    destruct (step pid person acc fp w) as [w1 [acc1|e]]; simpl in *; [|done].
    eapply Htrans; [exact Hstep|apply IH].
Qed.

Lemma batch_preserves (R : World -> World -> Prop) dto w :
  (forall w, R w w) ->
  (forall w1 w2 w3, R w1 w2 -> R w2 w3 -> R w1 w3) ->
  (forall o w, R w (logged o w)) ->
  (forall person,
     (findOnePerson faulty (Js.dec (personId dto)) w).2 = Returned person ->
     forall acc fp w', R w' (step (personId dto) person acc fp w').1) ->
  R w (batch dto w).1.
Proof.
  intros Hrefl Htrans Hlog Hstep.
  rewrite createPersonFingerPrint_cases. cbv zeta.
  destruct (findOnePerson faulty (Js.dec (personId dto)) w).2 as [person|e] eqn:E.
  - specialize (Hstep person eq_refl).
    destruct (faulty FtpConnect _).
    + cbn [fst]. eapply Htrans; apply Hlog.
    + pose proof (reduce_preserves R (personId dto) person (fingerprints dto)
                    Hrefl Htrans Hstep {| success := []; error := [] |}
                    (logged FtpConnect (logged (PersonQuery (Js.dec (personId dto))) w)))
        as Hred.
      destruct (reduce_async _ _ _ _) as [w3 [res|e]]; cbn [fst snd] in *.
      * eapply Htrans; [|apply Hlog]. eapply Htrans; [|exact Hred].
        eapply Htrans; apply Hlog.
      * eapply Htrans; [|exact Hred]. eapply Htrans; apply Hlog.
  - cbn [fst]. eapply Htrans; apply Hlog.
Qed.

(** *** Files outside the directory of the person *)

Lemma step_in_directory pid person acc fp w f :
  Js.strip_prefix (initialPath pid) f = None ->
  ftpFiles (step pid person acc fp w).1 !! f = ftpFiles w !! f.
Proof.
  intros Hout.
  assert (Hup : forall short q, f <> upload_path pid short q).
  { intros short q ->. unfold upload_path in Hout. by rewrite strip_prefix_app in Hout. }
  assert (Hrm : forall short n, f <> remove_path pid short n).
  { intros short n ->. unfold remove_path in Hout. by rewrite strip_prefix_app in Hout. }
  rewrite upload_step_cases. cbv zeta. unfold reported.
  repeat (case_match; try done); cbn [fst]; by rewrite archive_spares.
Qed.

(** X4: a batch for a person changes no archive file outside the directory
    of that person; in particular it changes no file of any other person. *)
Theorem other_directories_untouched dto w :
  (forall f,
     Js.strip_prefix (initialPath (personId dto)) f = None ->
     ftpFiles (batch dto w).1 !! f = ftpFiles w !! f)
  /\ (forall p file,
        p <> personId dto ->
        ftpFiles (batch dto w).1 !! (initialPath p +:+ file)
        = ftpFiles w !! (initialPath p +:+ file)).
Proof.
  assert (H : forall f,
            Js.strip_prefix (initialPath (personId dto)) f = None ->
            ftpFiles (batch dto w).1 !! f = ftpFiles w !! f).
  { intros f Hout.
    apply (batch_preserves (fun w w' => ftpFiles w' !! f = ftpFiles w !! f)); try done.
    - intros w1 w2 w3 H12 H23. by rewrite H23.
    - intros person _ acc fp w'. by apply step_in_directory. }
  split; [exact H|].
  intros p file Hp. apply H. by apply directories_apart.
Qed.

(** *** Records *)

Lemma grows_refl t : grows t t.
Proof. intros key pf H. exists pf. repeat split; done || lia. Qed.

Lemma grows_trans t1 t2 t3 : grows t1 t2 -> grows t2 t3 -> grows t1 t3.
Proof.
  intros H12 H23 key pf H.
  destruct (H12 key pf H) as (pf2 & H2 & Ha & Hq & Hp & Ht).
  destruct (H23 key pf2 H2) as (pf3 & H3 & Ha' & Hq' & Hp' & Ht').
  exists pf3. repeat split; [done|lia|lia|congruence|congruence].
Qed.

Lemma step_grows pid person acc fp w :
  row_id (person_row person) = pid ->
  grows (fingerprintTable w) (fingerprintTable (step pid person acc fp w).1).
Proof.
  intros Hperson. rewrite upload_step_cases. cbv zeta. unfold reported.
  destruct (faulty (FingerprintFindOne _ _) w); [apply grows_refl|].
  destruct (fingerprintTable w !! (pid, fingerprintTypeId fp)) as [pf|] eqn:Hpf.
  - destruct (faulty (FingerprintSave _ _) _); [apply grows_refl|]. cbn [fst].
    match goal with |- context [archive ?a ?b ?c ?d ?e ?f] =>
      destruct (archive_tables a b c d e f) as [-> _] end.
    intros key pf0 H0. unfold stored. simpl.
    destruct (decide (key = (pid, fingerprintTypeId fp))) as [->|Hne].
    + rewrite lookup_insert_eq. eexists. split; [done|].
      rewrite Hpf in H0. injection H0 as <-.
      destruct (saved_fields w (bumped (dto_quality fp) (clock w) pf))
        as (-> & -> & -> & _ & ->).
      rewrite attempts_bumped, quality_bumped, bumped_type.
      unfold bumped. destruct (_ >? _); simpl; repeat split; lia || done.
    + rewrite lookup_insert_ne by done. by apply grows_refl.
  - destruct (faulty (TypeFindOne _) _); [apply grows_refl|].
    destruct (List.find _ (fingerprintTypes w)) as [ft|] eqn:Hft; [|apply grows_refl].
    destruct (faulty (FingerprintSave _ _) _); [apply grows_refl|]. cbn [fst].
    match goal with |- context [archive ?a ?b ?c ?d ?e ?f] =>
      destruct (archive_tables a b c d e f) as [-> _] end.
    intros key pf0 H0. unfold inserted. simpl.
    rewrite Hperson, (find_type_id _ _ _ Hft).
    rewrite lookup_insert_ne; [by apply grows_refl|].
    intros <-. congruence.
Qed.

Lemma found_by_id pid w person :
  (forall r, r ∈ persons w -> identityCard r = Js.dec pid -> row_id r = pid) ->
  (findOnePerson faulty (Js.dec pid) w).2 = Returned person ->
  row_id (person_row person) = pid.
Proof.
  intros Hcards. rewrite findOnePerson_cases. cbn [snd].
  destruct (faulty _ w); [done|].
  destruct (List.find _ (persons w)) as [row|] eqn:E; [|done].
  intros [= <-]. simpl. apply find_some in E as [Hin Hm].
  apply orb_true_iff in Hm as [Hm|Hm].
  - apply bool_decide_eq_true in Hm. rewrite to_number_dec in Hm. by injection Hm.
  - apply String.eqb_eq in Hm. apply Hcards; [by apply list_elem_of_In|done].
Qed.

(** X5: whatever happens in a batch, no record is lost, and no record's
    counter or quality goes down, nor does its path or type change. *)
Theorem records_only_grow dto w :
  (forall r, r ∈ persons w ->
             identityCard r = Js.dec (personId dto) -> row_id r = personId dto) ->
  grows (fingerprintTable w) (fingerprintTable (batch dto w).1).
Proof.
  intros Hcards.
  apply (batch_preserves
           (fun w w' => grows (fingerprintTable w) (fingerprintTable w'))).
  - intros w0. apply grows_refl.
  - intros w1 w2 w3. apply grows_trans.
  - intros o w0. apply grows_refl.
  - intros person Hfound acc fp w'. apply step_grows. by eapply found_by_id.
Qed.

End Batch.

Section Archive.

Variable faulty : op -> World -> bool.
Variable from_base64 : string -> Buffer.
Variable to_base64 : Buffer -> string.
Variable connect_rejects_first : World -> bool.

Local Abbreviation step := (upload_step faulty from_base64).
Local Abbreviation batch := (createPersonFingerPrint faulty from_base64 connect_rejects_first).
Local Abbreviation comparison := (getFingerprintComparison faulty to_base64).

(** *** The number of files *)

Lemma size_insert_le (m : gmap string Buffer) k v :
  (size (<[k := v]> m) <= S (size m))%nat.
Proof.
  destruct (m !! k) eqn:E.
  - rewrite map_size_insert_Some by done. lia.
  - rewrite map_size_insert_None by done. lia.
Qed.

Lemma size_delete_le (m : gmap string Buffer) k : (size (delete k m) <= size m)%nat.
Proof.
  destruct (m !! k) eqn:E.
  - rewrite map_size_delete_Some by done. lia.
  - by rewrite delete_id.
Qed.

Lemma size_replace (m : gmap string Buffer) k k' v :
  is_Some (m !! k) -> (size (<[k' := v]> (delete k m)) <= size m)%nat.
Proof.
  intros [b Hb]. pose proof (size_insert_le (delete k m) k' v) as H.
  rewrite map_size_delete_Some in H by done.
  assert (0 < size m)%nat; [|lia].
  destruct (decide (size m = 0%nat)) as [E|]; [|lia].
  apply map_size_empty_inv in E. by rewrite E, lookup_empty in Hb.
Qed.

Lemma archive_size pid buffer q pf w :
  (size (ftpFiles (archive faulty pid buffer q pf w).1) <= S (size (ftpFiles w)))%nat.
Proof.
  unfold archive, listFiles, removeFile, uploadFile, collaborator, bind, ret.
  repeat (case_match; simplify_eq/=; try lia); try apply size_insert_le.
  - etransitivity; [apply size_delete_le|lia].
  - etransitivity; [apply size_insert_le|].
    apply le_n_S, size_delete_le.
Qed.

Lemma step_size pid person acc fp w :
  (size (ftpFiles (step pid person acc fp w).1) <= S (size (ftpFiles w)))%nat.
Proof.
  rewrite upload_step_cases. cbv zeta. unfold reported.
  repeat (case_match; try (simpl; lia)); cbn [fst];
    (etransitivity; [apply archive_size|done]).
Qed.

Lemma reduce_size pid person scans : forall acc w,
  (size (ftpFiles (reduce_async (step pid person) scans acc w).1)
   <= size (ftpFiles w) + length scans)%nat.
Proof.
  induction scans as [|fp scans IH]; intros acc w; simpl; [lia|].
  unfold bind. pose proof (step_size pid person acc fp w) as Hs.
  destruct (step pid person acc fp w) as [w1 [acc1|e]]; simpl in *; [|lia].
  specialize (IH acc1 w1). lia.
Qed.

(** X7: a batch adds at most one archive file per scan. *)
Theorem batch_adds_at_most_one_file_per_scan dto w :
  (size (ftpFiles (createPersonFingerPrint faulty from_base64 connect_rejects_first dto w).1)
   <= size (ftpFiles w) + length (fingerprints dto))%nat.
Proof.
  rewrite createPersonFingerPrint_cases. cbv zeta.
  destruct (findOnePerson faulty _ w).2 as [person|e]; [|simpl; lia].
  destruct (faulty FtpConnect _); [simpl; lia|].
  match goal with |- context [reduce_async ?f ?l ?a ?w2] =>
    pose proof (reduce_size (personId dto) person l a w2) as H;
    destruct (reduce_async f l a w2) as [w3 [res|e]] end; simpl in *; lia.
Qed.

(** X8: once the threshold is reached, a submission does not add to the
    number of archive files, provided the file named after the smallest
    number is there. *)
Theorem eviction_does_not_add_files pid person acc fp w pf :
  fingerprintTable w !! (pid, fingerprintTypeId fp) = Some pf ->
  3 < attempts pf + 1 ->
  let short := short_name (fingerprintType pf) in
  let files := list_dir (initialPath pid) (ftpFiles w) in
  is_Some (ftpFiles w !! remove_path pid short (smallestNumber short files)) ->
  (size (ftpFiles (step pid person acc fp w).1) <= size (ftpFiles w))%nat.
Proof.
  intros Hpf Hatt short files Hthere.
  rewrite upload_step_cases. cbv zeta. rewrite Hpf. unfold reported.
  destruct (faulty (FingerprintFindOne _ _) w); [done|].
  destruct (faulty (FingerprintSave _ _) _); [done|]. cbn [fst].
  set (pf1 := bumped (dto_quality fp) (clock w) pf).
  set (w1 := stored _ pf1 w).
  assert (Ha : attempts (saved w pf1) = attempts pf + 1)
    by (rewrite (proj1 (proj2 (saved_fields w pf1))); apply attempts_bumped).
  assert (Ht : fingerprintType (saved w pf1) = fingerprintType pf)
    by (rewrite saved_type; apply bumped_type).
  generalize dependent (saved w pf1). intros pf2 Ha Ht.
  unfold archive. rewrite Ha, Ht, Z.gtb_ltb. fold short.
  destruct (Z.ltb_spec 3 (attempts pf + 1)); [|lia].
  unfold bind at 1. unfold listFiles, collaborator at 1.
  destruct (faulty (FtpList _) w1); [done|]. cbv beta iota.
  change (ftpFiles (logged (FtpList (initialPath pid)) w1)) with (ftpFiles w).
  fold files.
  destruct (_ && _); [|done].
  unfold bind, removeFile, uploadFile, collaborator.
  destruct (faulty (FtpRemove _) _); [done|]. cbv beta iota.
  destruct (faulty (FtpUpload _) _); simpl.
  - apply size_delete_le.
  - by apply size_replace.
Qed.

(** *** Without the person or the connection *)

(** X10: when no person has the id or, as identity card, its decimal, no scan
    is processed.  The call throws the 404 of [findOnePerson], unless the
    connection to the archive rejects as well and first, in which case it
    throws that rejection; whatever the batch, the tables and the files are
    as they were, [connectToFtp] has been called and [onDestroy] has not. *)
Theorem unknown_person_processes_nothing dto w :
  faulty (PersonQuery (Js.dec (personId dto))) w = false ->
  (forall r, r ∈ persons w ->
             row_id r <> personId dto /\ identityCard r <> Js.dec (personId dto)) ->
  let r := createPersonFingerPrint faulty from_base64 connect_rejects_first dto w in
  let not_found :=
    RpcException (Some 404)
      ("Persona con " +:+ Js.dec (personId dto) +:+ " no encontrada") in
  let connect_rejects :=
    faulty FtpConnect (logged (PersonQuery (Js.dec (personId dto))) w) in
  r.2 = Thrown (if connect_rejects && connect_rejects_first w
                then Rejected FtpConnect else not_found)
  /\ (connect_rejects = false -> r.2 = Thrown not_found)
  /\ log r.1 = FtpConnect :: PersonQuery (Js.dec (personId dto)) :: log w
  /\ fingerprintTable r.1 = fingerprintTable w
  /\ ftpFiles r.1 = ftpFiles w.
Proof.
  intros Hq Hnone r not_found connect_rejects. subst r.
  rewrite createPersonFingerPrint_cases. cbv zeta.
  rewrite findOnePerson_cases, Hq. cbn [snd].
  destruct (List.find _ (persons w)) as [row|] eqn:E.
  - exfalso. apply find_some in E as [Hin Hm].
    destruct (Hnone row) as [Hid Hcard]; [by apply list_elem_of_In|].
    apply orb_true_iff in Hm as [Hm|Hm].
    + apply bool_decide_eq_true in Hm. rewrite to_number_dec in Hm. by injection Hm.
    + by apply String.eqb_eq in Hm.
  - fold connect_rejects not_found. cbn [fst snd].
    split; [done|]. split; [|done]. by intros ->.
Qed.

(** X11: an empty batch for a known person opens and closes the connection,
    changes nothing else and reports that no fingerprint was registered. *)
Theorem empty_batch_reports_nothing dto w person :
  fingerprints dto = [] ->
  (findOnePerson faulty (Js.dec (personId dto)) w).2 = Returned person ->
  faulty FtpConnect (logged (PersonQuery (Js.dec (personId dto))) w) = false ->
  let r := batch dto w in
  r.2 = Returned {| message := "No se registró ninguna huella correctamente.";
                    registros := {| success := []; error := [] |} |}
  /\ log r.1 = FtpDestroy :: FtpConnect :: PersonQuery (Js.dec (personId dto)) :: log w
  /\ fingerprintTable r.1 = fingerprintTable w
  /\ ftpFiles r.1 = ftpFiles w.
Proof.
  intros Hempty Hfound Hconn r. subst r.
  rewrite createPersonFingerPrint_cases. cbv zeta.
  by rewrite Hfound, Hconn, Hempty.
Qed.

(** *** The comparison only reads *)

Lemma downloads_frame l : forall data w,
  let r := for_of (download_one faulty to_base64) l data w in
  fingerprintTable r.1 = fingerprintTable w
  /\ persons r.1 = persons w
  /\ fingerprintTypes r.1 = fingerprintTypes w.
Proof.
  induction l as [|x l IH]; intros data w; simpl; [done|].
  unfold bind.
  assert (H1 : fingerprintTable (download_one faulty to_base64 data x w).1
               = fingerprintTable w
               /\ persons (download_one faulty to_base64 data x w).1 = persons w
               /\ fingerprintTypes (download_one faulty to_base64 data x w).1
                  = fingerprintTypes w).
  { unfold download_one, try_catch, bind, downloadFile, collaborator, throw, ret.
    repeat (case_match; simplify_eq/=; try done). }
  destruct (download_one faulty to_base64 data x w) as [w1 [d|e]]; simpl in *; [|done].
  destruct (IH d w1) as (-> & -> & ->). done.
Qed.

Lemma comparison_cases pid w :
  let w0 := logged (PersonQuery (Js.dec pid)) w in
  comparison pid w
  = match (findOnePerson faulty (Js.dec pid) w).2 with
    | Thrown e => (w0, Thrown e)
    | Returned person =>
        if (length (personFingerprints person) =? 0)%nat
        then (w0, Thrown (RpcException (Some 404)
                            ("Person with ID: " +:+ Js.dec pid +:+ " not found")))
        else try_finally
               (await _ <- connectToFtp faulty;
                for_of (download_one faulty to_base64) (personFingerprints person) [])
               onDestroy w0
    end.
Proof.
  intros w0. unfold getFingerprintComparison. unfold bind at 1.
  rewrite findOnePerson_cases. fold w0. cbn [snd].
  match goal with |- context [if faulty (PersonQuery ?t) w then ?a else ?b] =>
    destruct (if faulty (PersonQuery t) w then a else b) as [person|e] end; [|done].
  by destruct (length (personFingerprints person) =? 0)%nat.
Qed.

(** X12: [getFingerprintComparison] changes neither the tables nor the files,
    and closes every connection it asks for. *)
Theorem comparison_only_reads pid w :
  let r := comparison pid w in
  fingerprintTable r.1 = fingerprintTable w
  /\ persons r.1 = persons w
  /\ fingerprintTypes r.1 = fingerprintTypes w
  /\ ftpFiles r.1 = ftpFiles w
  /\ (opens r.1 + closes w = opens w + closes r.1)%nat.
Proof.
  intros r. subst r. rewrite comparison_cases. cbv zeta.
  destruct (findOnePerson faulty (Js.dec pid) w).2 as [person|e]; [|done].
  destruct (length (personFingerprints person) =? 0)%nat; [done|].
  rewrite comparison_body.
  destruct (faulty FtpConnect _).
  - unfold opens, closes. simpl. repeat split; done.
  - match goal with |- context [for_of ?f ?l ?d ?w1] =>
      destruct (downloads_spec faulty to_base64 l d w1) as (Hf & Hc & Ho & _);
      destruct (downloads_frame l d w1) as (Ht & Hp & Hy);
      destruct (for_of f l d w1) as [w2 r] end.
    cbn [fst snd] in *.
    unfold opens, closes in *. simpl in *.
    repeat split; try done; lia.
Qed.

End Archive.

Section Counting.

Variable faulty : op -> World -> bool.
Variable from_base64 : string -> Buffer.
Variable connect_rejects_first : World -> bool.

Local Abbreviation step := (upload_step faulty from_base64).
Local Abbreviation batch := (createPersonFingerPrint faulty from_base64 connect_rejects_first).

Lemma step_counts pid person acc fp w w' acc' :
  row_id (person_row person) = pid ->
  step pid person acc fp w = (w', Returned acc') ->
  forall tid,
    attempts_at w' (pid, tid)
    = attempts_at w (pid, tid) + (if fingerprintTypeId fp =? tid then 1 else 0).
Proof.
  intros Hperson. rewrite upload_step_cases. cbv zeta. unfold reported, attempts_at.
  destruct (faulty (FingerprintFindOne _ _) w); [done|].
  destruct (fingerprintTable w !! (pid, fingerprintTypeId fp)) as [pf|] eqn:Hpf.
  - destruct (faulty (FingerprintSave _ _) _); [done|]. intros [= <- _] tid.
    match goal with |- context [archive ?a ?b ?c ?d ?e ?f] =>
      destruct (archive_tables a b c d e f) as [-> _] end.
    unfold stored. simpl.
    destruct (Z.eqb_spec (fingerprintTypeId fp) tid) as [<-|Hne].
    + rewrite lookup_insert_eq, Hpf. simpl.
      etransitivity; [apply saved_fields|apply attempts_bumped].
    + rewrite lookup_insert_ne by congruence. lia.
  - destruct (faulty (TypeFindOne _) _); [done|].
    destruct (List.find _ (fingerprintTypes w)) as [ft|] eqn:Hft; [|done].
    destruct (faulty (FingerprintSave _ _) _); [done|]. intros [= <- _] tid.
    match goal with |- context [archive ?a ?b ?c ?d ?e ?f] =>
      destruct (archive_tables a b c d e f) as [-> _] end.
    unfold inserted. simpl. rewrite Hperson, (find_type_id _ _ _ Hft).
    destruct (Z.eqb_spec (fingerprintTypeId fp) tid) as [<-|Hne].
    + rewrite lookup_insert_eq, Hpf. reflexivity.
    + rewrite lookup_insert_ne by congruence. lia.
Qed.

Lemma reduce_counts pid person scans : forall acc w w' acc',
  row_id (person_row person) = pid ->
  reduce_async (step pid person) scans acc w = (w', Returned acc') ->
  forall tid, attempts_at w' (pid, tid) = attempts_at w (pid, tid) + scans_of tid scans.
Proof.
  induction scans as [|fp scans IH]; intros acc w w' acc' Hperson; simpl.
  - intros [= <- _] tid. unfold scans_of. simpl. lia.
  - unfold bind. destruct (step pid person acc fp w) as [w1 [acc1|e]] eqn:E; [|done].
    intros Hrest tid.
    rewrite (IH acc1 w1 w' acc' Hperson Hrest tid),
      (step_counts pid person acc fp w w1 acc1 Hperson E tid).
    unfold scans_of. simpl.
    destruct (fingerprintTypeId fp =? tid); simpl length; lia.
Qed.

(** X6: when a batch returns, the counter of every fingerprint type of the
    person has gone up by the number of scans of that type in the batch,
    whatever the archive did with them; a type without a record counts from
    0. *)
Theorem attempts_count_the_scans dto w w' response :
  (forall r, r ∈ persons w ->
             identityCard r = Js.dec (personId dto) -> row_id r = personId dto) ->
  batch dto w = (w', Returned response) ->
  forall tid,
    attempts_at w' (personId dto, tid)
    = attempts_at w (personId dto, tid) + scans_of tid (fingerprints dto).
Proof.
  intros Hcards. rewrite createPersonFingerPrint_cases. cbv zeta.
  destruct (findOnePerson faulty _ w).2 as [person|e] eqn:Hfound; [|done].
  destruct (faulty FtpConnect _); [done|].
  match goal with |- context [reduce_async ?f ?l ?a ?w2] =>
    destruct (reduce_async f l a w2) as [w3 [res|e]] eqn:E end; [|done].
  cbn [fst snd]. intros [= <- _] tid.
  apply (reduce_counts _ _ _ _ _ _ _ (found_by_id faulty _ _ _ Hcards Hfound) E tid).
Qed.

End Counting.

(** ** The lookups *)

Section Lookups.

Variable faulty : op -> World -> bool.
Variable from_base64 : string -> Buffer.

Local Abbreviation step := (upload_step faulty from_base64).

(** X13: [findOnePerson], called with the decimal of an id, throws its 404
    exactly when no person has that id or that decimal as identity card; the
    person it returns is the first one that has either, so it need not be the
    one with the id. *)
Theorem findOnePerson_by_id_or_card pid w :
  faulty (PersonQuery (Js.dec pid)) w = false ->
  let r := (findOnePerson faulty (Js.dec pid) w).2 in
  (r = Thrown (RpcException (Some 404) ("Persona con " +:+ Js.dec pid +:+ " no encontrada"))
   <-> forall row, row ∈ persons w ->
                   row_id row <> pid /\ identityCard row <> Js.dec pid)
  /\ (forall person,
        r = Returned person ->
        person_row person ∈ persons w
        /\ (row_id (person_row person) = pid
            \/ identityCard (person_row person) = Js.dec pid)
        /\ personFingerprints person
           = related_to (row_id (person_row person)) (fingerprintTable w)).
Proof.
  intros Hq r. subst r. rewrite findOnePerson_cases, Hq. cbn [snd].
  set (m := fun r : PersonRow =>
              bool_decide (Js.to_number (Js.dec pid) = Some (row_id r))
              || String.eqb (identityCard r) (Js.dec pid)).
  assert (Hm : forall row, m row = true
                           <-> row_id row = pid \/ identityCard row = Js.dec pid).
  { intros row. unfold m. rewrite orb_true_iff, bool_decide_eq_true, to_number_dec,
      String.eqb_eq. split; (intros [H|H]; [left; congruence|by right]). }
  destruct (List.find m (persons w)) as [row|] eqn:E.
  - apply find_some in E as [Hin Hrow]. apply Hm in Hrow. split.
    + split; [done|]. intros Hnone. exfalso.
      destruct (Hnone row) as [Hid Hcard]; [by apply list_elem_of_In|].
      by destruct Hrow.
    + intros person [= <-]. split; [by apply list_elem_of_In|done].
  - split; [|done]. split; [|done]. intros _ row Hin.
    pose proof (find_none _ _ E row (proj1 (list_elem_of_In _ _) Hin)) as Hrow.
    destruct (decide (row_id row = pid)) as [Hid|Hid].
    + exfalso. assert (m row = true) by (apply Hm; by left). congruence.
    + split; [done|]. intros Hcard.
      assert (m row = true) by (apply Hm; by right). congruence.
Qed.

(** *** The registered fingerprints *)

Lemma related_to_elem (pid : Z) (t : gmap (Z * Z) PersonFingerprint) pf :
  pf ∈ related_to pid t <-> exists tid, t !! (pid, tid) = Some pf.
Proof.
  unfold related_to. rewrite list_elem_of_omap. split.
  - intros ([[p tid] pf'] & Hin & Hsome). simpl in Hsome.
    destruct (Z.eqb_spec p pid) as [->|]; [|done]. injection Hsome as ->.
    exists tid. by apply elem_of_map_to_list.
  - intros (tid & H). exists (pid, tid, pf). split; [by apply elem_of_map_to_list|].
    simpl. by rewrite Z.eqb_refl.
Qed.

Lemma showFingerprintRegistered_found pid w row :
  faulty (PersonFindOne pid) w = false ->
  List.find (fun r => row_id r =? pid) (persons w) = Some row ->
  showFingerprintRegistered faulty pid w
  = (logged (PersonFindOne pid) w,
     Returned (map (fun fingerprint =>
                      (ft_id (fingerprintType fingerprint),
                       name (fingerprintType fingerprint)))
                   (related_to pid (fingerprintTable w)))).
Proof.
  intros Hf Hrow.
  assert (Hid : row_id row = pid).
  { apply find_some in Hrow as [_ H]. by apply Z.eqb_eq. }
  unfold showFingerprintRegistered, bind, person_findOne.
  rewrite collaborator_ok by done. cbv beta iota.
  change (persons (logged (PersonFindOne pid) w)) with (persons w). rewrite Hrow.
  simpl. by rewrite Hid.
Qed.

Lemma listed_elem (pid : Z) (t : gmap (Z * Z) PersonFingerprint) id n :
  (id, n) ∈ map (fun fingerprint =>
                   (ft_id (fingerprintType fingerprint),
                    name (fingerprintType fingerprint)))
                (related_to pid t)
  <-> exists tid pf,
        t !! (pid, tid) = Some pf
        /\ id = ft_id (fingerprintType pf) /\ n = name (fingerprintType pf).
Proof.
  rewrite list_elem_of_fmap. split.
  - intros (pf & [= -> ->] & Hin). apply related_to_elem in Hin as [tid Htid].
    by exists tid, pf.
  - intros (tid & pf & Hpf & -> & ->). exists pf. split; [done|].
    apply related_to_elem. by exists tid.
Qed.

(** X14: for a person that exists, [showFingerprintRegistered] returns the
    id and the name of the type of each of the person's records, and nothing
    else; it changes nothing. *)
Theorem registered_are_the_records pid w row :
  faulty (PersonFindOne pid) w = false ->
  List.find (fun r => row_id r =? pid) (persons w) = Some row ->
  exists l,
    showFingerprintRegistered faulty pid w = (logged (PersonFindOne pid) w, Returned l)
    /\ length l = length (related_to pid (fingerprintTable w))
    /\ forall id n,
         (id, n) ∈ l
         <-> exists tid pf,
               fingerprintTable w !! (pid, tid) = Some pf
               /\ id = ft_id (fingerprintType pf) /\ n = name (fingerprintType pf).
Proof.
  intros Hf Hrow. eexists. split; [by eapply showFingerprintRegistered_found|].
  split; [by rewrite length_map|]. apply listed_elem.
Qed.

(** X15: the type under whose name a scan was reported, in the success or in
    the error list, is listed as registered afterwards. *)
Theorem reported_scan_is_registered pid person acc fp w w' acc' row :
  step pid person acc fp w = (w', Returned acc') ->
  row_id (person_row person) = pid ->
  faulty (PersonFindOne pid) w' = false ->
  List.find (fun r => row_id r =? pid) (persons w) = Some row ->
  exists n l,
    (acc' = push_success acc n \/ acc' = push_error acc n)
    /\ (showFingerprintRegistered faulty pid w').2 = Returned l
    /\ exists id, (id, n) ∈ l.
Proof.
  intros Hstep Hperson Hf Hrow.
  assert (Hpersons : persons w' = persons w /\
            exists n tid pf,
              (acc' = push_success acc n \/ acc' = push_error acc n)
              /\ fingerprintTable w' !! (pid, tid) = Some pf
              /\ n = name (fingerprintType pf)).
  { revert Hstep. rewrite upload_step_cases. cbv zeta. unfold reported.
    destruct (faulty (FingerprintFindOne _ _) w); [done|].
    destruct (fingerprintTable w !! (pid, fingerprintTypeId fp)) as [pf|] eqn:Hpf.
    - destruct (faulty (FingerprintSave _ _) _); [done|].
      intros [= <- <-].
      match goal with |- context [archive ?a ?b ?c ?d ?e ?f] =>
        destruct (archive_tables a b c d e f) as (-> & _ & _ & ->) end.
      split; [done|].
      exists (name (fingerprintType pf)), (fingerprintTypeId fp),
        (saved w (bumped (dto_quality fp) (clock w) pf)).
      split; [destruct (archive _ _ _ _ _ _).2; by auto|]. split.
      + unfold stored. simpl. by rewrite lookup_insert_eq.
      + by rewrite saved_type, bumped_type.
    - destruct (faulty (TypeFindOne _) _); [done|].
      destruct (List.find _ (fingerprintTypes w)) as [ft|] eqn:Hft; [|done].
      destruct (faulty (FingerprintSave _ _) _); [done|].
      intros [= <- <-].
      match goal with |- context [archive ?a ?b ?c ?d ?e ?f] =>
        destruct (archive_tables a b c d e f) as (-> & _ & _ & ->) end.
      split; [done|].
      eexists (name ft), (ft_id ft), _.
      split; [destruct (archive _ _ _ _ _ _).2; by auto|]. split.
      + unfold inserted. simpl. rewrite Hperson. by rewrite lookup_insert_eq.
      + by rewrite saved_type. }
  destruct Hpersons as (Hp & n & tid & pf & Hacc & Hpf & ->).
  rewrite <- Hp in Hrow.
  eexists (name (fingerprintType pf)), _. split; [done|].
  split; [by rewrite (showFingerprintRegistered_found pid w' row Hf Hrow)|].
  exists (ft_id (fingerprintType pf)). apply listed_elem. by exists tid, pf.
Qed.

End Lookups.

(** ** The person operations *)

Section Laws.

Import Persons.

Context {Db P Dto : Type} {repository : Repository Db P Dto}.

Lemma trim_start_no_space s :
  Js.all_chars (fun c => negb (is_space c)) s = true -> trim_start s = s.
Proof.
  destruct s as [|c s]; [done|]. simpl. intros Hc. apply andb_prop in Hc as [Hc _].
  by destruct (is_space c).
Qed.

Lemma trim_end_no_space s :
  Js.all_chars (fun c => negb (is_space c)) s = true -> trim_end s = s.
Proof.
  induction s as [|c s IH]; [done|]. simpl. intros Hc.
  apply andb_prop in Hc as [Hc Hs]. rewrite (IH Hs).
  destruct s; [|done]. by destruct (is_space c).
Qed.

Lemma remove_spaces_no_space s :
  Js.all_chars (fun c => negb (is_space c)) (remove_spaces s) = true.
Proof.
  induction s as [|c s IH]; [done|]. simpl.
  destruct (is_space c) eqn:E; [done|]. simpl. by rewrite E, IH.
Qed.

Lemma remove_spaces_fixpoint s :
  Js.all_chars (fun c => negb (is_space c)) s = true -> remove_spaces s = s.
Proof.
  induction s as [|c s IH]; [done|]. simpl. intros Hc.
  apply andb_prop in Hc as [Hc Hs]. rewrite (IH Hs).
  by destruct (is_space c).
Qed.

Lemma formattedFilter_remove_spaces s : formattedFilter s = remove_spaces s.
Proof.
  unfold formattedFilter, trim.
  rewrite (trim_start_no_space _ (remove_spaces_no_space s)).
  apply trim_end_no_space, remove_spaces_no_space.
Qed.

Lemma take_take_drop_app {A} (xs : list A) : forall n m,
  take n xs ++ take m (drop n xs) = take (n + m) xs.
Proof.
  induction xs as [|x xs IH]; intros [|n] m; simpl; try done.
  - by rewrite take_nil.
  - by rewrite IH.
Qed.

(** X16: [remove] never answers that the person was not found.  Its lookup is
    not awaited, so the test is made on the promise: whatever the lookup
    would find, also nothing, the soft delete is issued, and when that does
    not reject the confirmation is returned. *)
Theorem remove_confirms_unknown_ids id db db' :
  repo_findOneBy id db = inr None ->
  repo_softDelete id db = (db', inr tt) ->
  remove id db = (db', Ok ("This action removes a #" +:+ Js.dec id +:+ " person"))
  /\ forall id' db0 message, (remove id' db0).2 <> Throw (NotFoundException message).
Proof.
  intros _ Hdel. split.
  - unfold remove. cbv zeta. unfold object_truthy. by rewrite Hdel.
  - intros id' db0 message. unfold remove. cbv zeta. unfold object_truthy.
    by destruct (repo_softDelete id' db0) as [db1 [e|[]]].
Qed.

(** X17: what [create] can throw.  Whenever it throws, [save] has rejected,
    and the exception is one of two: a bad request carrying the detail of
    the error when its code is 23505, and otherwise an internal server error
    whose message is fixed, so that it shows nothing of the error. *)
Theorem create_throws dto db db' e :
  create dto db = (db', Throw e) ->
  exists error,
    repo_save (repo_create dto) db = (db', inl error)
    /\ (code error = Some "23505" /\ e = BadRequestException (detail error)
        \/ code error <> Some "23505"
           /\ e = InternalServerErrorException "Unexecpected Error").
Proof.
  unfold create. cbv zeta.
  destruct (repo_save (repo_create dto) db) as [db1 [error|saved]]; [|done].
  intros [= <- <-]. exists error. split; [done|]. unfold handleDBException.
  destruct (decide (code error = Some "23505")) as [Hc|Hc].
  - left. by rewrite bool_decide_eq_true_2.
  - right. by rewrite bool_decide_eq_false_2.
Qed.

(** X18: what [update] can throw.  Whenever it throws, either [preload]
    rejected and its error escapes as it is, or [preload] found nothing and
    the exception is the not-found one naming the id, in both cases with the
    database as it was; or [save] rejected and its error is mapped as in
    [create]. *)
Theorem update_throws id dto db db' e :
  update id dto db = (db', Throw e) ->
  (exists error, repo_preload id dto db = inl error /\ e = Rejection error /\ db' = db)
  \/ (repo_preload id dto db = inr None
      /\ e = NotFoundException ("Person with: " +:+ Js.dec id +:+ " not found")
      /\ db' = db)
  \/ (exists person error,
        repo_preload id dto db = inr (Some person)
        /\ repo_save person db = (db', inl error)
        /\ (code error = Some "23505" /\ e = BadRequestException (detail error)
            \/ code error <> Some "23505"
               /\ e = InternalServerErrorException "Unexecpected Error")).
Proof.
  unfold update.
  destruct (repo_preload id dto db) as [error|[person|]].
  - intros [= <- <-]. left. by exists error.
  - destruct (repo_save person db) as [db1 [error|saved]] eqn:Hsave; [|done].
    intros [= <- <-]. right. right. exists person, error.
    split; [done|]. split; [done|]. unfold handleDBException.
    destruct (decide (code error = Some "23505")) as [Hc|Hc].
    + left. by rewrite bool_decide_eq_true_2.
    + right. by rewrite bool_decide_eq_false_2.
  - intros [= <- <-]. right. by left.
Qed.

(** X19: [update] throws the not-found exception exactly when the repository
    cannot preload the id, and then with the message naming the id and the
    database as it was: no error of the database is reported as a missing
    person. *)
Theorem update_not_found_iff id dto db db' message :
  update id dto db = (db', Throw (NotFoundException message))
  <-> repo_preload id dto db = inr None
      /\ message = "Person with: " +:+ Js.dec id +:+ " not found"
      /\ db' = db.
Proof.
  unfold update. split.
  - destruct (repo_preload id dto db) as [error|[person|]]; [done| |by intros [= <- <-]].
    destruct (repo_save person db) as [db1 [error|saved]]; [|done].
    unfold handleDBException. by destruct (bool_decide _).
  - by intros (-> & -> & ->).
Qed.

(** X20: a rejection of a repository call outside a [try] block is not mapped:
    the error of [preload] in [update], of the query in [findAll] and of the
    soft delete in [remove] reaches the caller as it is, and the database is
    as it was left by the call. *)
Theorem unguarded_rejections_escape id dto page_dto db db' e1 e2 e3 :
  repo_preload id dto db = inl e1 ->
  repo_getManyAndCount (filter_parameter (filter page_dto))
    ((default 1 (page page_dto) - 1) * default 10 (limit page_dto))
    (default 10 (limit page_dto)) db = inl e2 ->
  repo_softDelete id db = (db', inl e3) ->
  update id dto db = (db, Throw (Rejection e1))
  /\ findAll page_dto db = (db, Throw (Rejection e2))
  /\ remove id db = (db', Throw (Rejection e3)).
Proof.
  intros E1 E2 E3. unfold update, findAll, remove. cbv zeta. unfold object_truthy.
  by rewrite E1, E2, E3.
Qed.

(** X21: a page of [findAll].  With the limit and the page of the request, 10
    and 1 when they are absent, both at least 1: the result holds the rows
    the filter selects from position [(page - 1) * limit] on, at most [limit]
    of them, its [i]-th person is the row at position
    [(page - 1) * limit + i], the total counts all the selected rows, and the
    database is as it was. *)
Theorem findAll_page dto db db' pg :
  paginates ->
  1 <= default 1 (page dto) -> 1 <= default 10 (limit dto) ->
  findAll dto db = (db', Ok pg) ->
  let l := Z.to_nat (default 10 (limit dto)) in
  let first := Z.to_nat ((default 1 (page dto) - 1) * default 10 (limit dto)) in
  let rows := repo_matching (filter_parameter (filter dto)) db in
  db' = db
  /\ persons pg = take l (drop first rows)
  /\ total pg = length rows
  /\ length (persons pg) = (l `min` (length rows - first))%nat
  /\ forall i, persons pg !! i = if decide (i < l)%nat then rows !! (first + i)%nat
                                 else None.
Proof.
  intros Hlaw Hp Hl. unfold findAll. cbv zeta.
  destruct (repo_getManyAndCount _ _ _ db) as [e|[ps n]] eqn:E; [done|].
  intros [= <- <-]. simpl.
  assert (Hoff : 0 <= (default 1 (page dto) - 1) * default 10 (limit dto))
    by (apply Z.mul_nonneg_nonneg; lia).
  destruct (Hlaw _ _ _ _ _ _ Hoff Hl E) as [-> ->].
  repeat split.
  - by rewrite length_take, length_drop.
  - intros i. destruct (decide _) as [Hi|Hi].
    + by rewrite lookup_take_lt, lookup_drop.
    + apply lookup_take_ge. lia.
Qed.

(** X22: consecutive pages tile the selection.  For a limit and a page that
    are at least 1, the persons of page [p] followed by those of page [p + 1]
    are the rows from position [(p - 1) * limit] on, at most [2 * limit] of
    them, and the two totals are the same. *)
Theorem findAll_pages_tile l p f db db1 db2 pg1 pg2 :
  paginates ->
  1 <= p -> 1 <= l ->
  findAll {| limit := Some l; page := Some p; filter := f |} db = (db1, Ok pg1) ->
  findAll {| limit := Some l; page := Some (p + 1); filter := f |} db = (db2, Ok pg2) ->
  persons pg1 ++ persons pg2
  = take (Z.to_nat (2 * l))
      (drop (Z.to_nat ((p - 1) * l)) (repo_matching (filter_parameter f) db))
  /\ total pg1 = total pg2.
Proof.
  intros Hlaw Hp Hl. unfold findAll. cbv zeta. simpl.
  destruct (repo_getManyAndCount _ ((p - 1) * l) _ db) as [e|[ps1 n1]] eqn:E1; [done|].
  destruct (repo_getManyAndCount _ ((p + 1 - 1) * l) _ db) as [e|[ps2 n2]] eqn:E2;
    [done|].
  intros [= _ <-] [= _ <-]. simpl.
  assert (Hoff1 : 0 <= (p - 1) * l) by (apply Z.mul_nonneg_nonneg; lia).
  assert (Hoff2 : 0 <= (p + 1 - 1) * l) by (apply Z.mul_nonneg_nonneg; lia).
  destruct (Hlaw _ _ _ _ _ _ Hoff1 Hl E1) as [-> ->].
  destruct (Hlaw _ _ _ _ _ _ Hoff2 Hl E2) as [-> ->].
  split; [|done].
  replace ((p + 1 - 1) * l) with ((p - 1) * l + l) by ring.
  rewrite Z2Nat.inj_add; [|apply Z.mul_nonneg_nonneg; lia|lia].
  rewrite <- drop_drop, take_take_drop_app. f_equal. lia.
Qed.

(** X23: the filter of [findAll] is compared without its white space.  The
    formatted filter holds no white space, the [trim] after the replacement
    changes nothing, and formatting is idempotent. *)
Theorem formattedFilter_has_no_white_space f :
  Js.all_chars (fun c => negb (is_space c)) (formattedFilter f) = true
  /\ formattedFilter f = remove_spaces f
  /\ formattedFilter (formattedFilter f) = formattedFilter f.
Proof.
  rewrite !formattedFilter_remove_spaces. split; [apply remove_spaces_no_space|].
  split; [done|]. apply remove_spaces_fixpoint, remove_spaces_no_space.
Qed.

(** X24: two filters that are not empty and differ in white space only give
    the same answer from [findAll]; a filter made of white space only is not
    an absent filter: it selects with the pattern [%%]. *)
Theorem findAll_ignores_white_space f f' l p db :
  f <> EmptyString -> f' <> EmptyString ->
  remove_spaces f = remove_spaces f' ->
  findAll {| limit := l; page := p; filter := Some f |} db
  = findAll {| limit := l; page := p; filter := Some f' |} db
  /\ (remove_spaces f = EmptyString -> filter_parameter (Some f) = Some "%%").
Proof.
  intros Hf Hf' Heq.
  assert (Hparam : forall g, g <> EmptyString ->
            filter_parameter (Some g) = Some ("%" +:+ remove_spaces g +:+ "%")).
  { intros g Hg. unfold filter_parameter.
    destruct (String.eqb_spec g EmptyString); [done|].
    by rewrite formattedFilter_remove_spaces. }
  split.
  - unfold findAll. cbv zeta. simpl filter. by rewrite (Hparam f Hf), (Hparam f' Hf'), Heq.
  - intros E. by rewrite (Hparam f Hf), E.
Qed.

End Laws.

(** ** Related rows and dependents *)

Section Related.

Import Relations.

Variable Db : Type.
Variable findOne : Z -> list string -> Db -> string + option PersonEntity.

Local Abbreviation verify := (findAndVerifyPersonWithRelations Db findOne).

Lemma registered_as_spec field registration related :
  registered_as field registration related = true
  <-> related !! field = Some (Str registration).
Proof. unfold registered_as. apply bool_decide_eq_true. Qed.

Lemma filter_sublist {A} (p : A -> bool) (l : list A) : List.filter p l `sublist_of` l.
Proof.
  induction l as [|x l IH]; simpl; [constructor|].
  destruct (p x); by constructor.
Qed.

Lemma disjoint_filters_length {A} (p q : A -> bool) (l : list A) :
  (forall x, p x = true -> q x = false) ->
  (length (List.filter p l) + length (List.filter q l) <= length l)%nat.
Proof.
  intros Hpq. induction l as [|x l IH]; simpl; [lia|].
  destruct (p x) eqn:Hp.
  - rewrite (Hpq x Hp). simpl. lia.
  - destruct (q x); simpl; lia.
Qed.

Lemma verify_cases id relation registration field db person rows :
  findOne id [relation] db = inr (Some person) ->
  arrays person !! relation = Some rows ->
  verify id relation registration field db
  = Returned {| columns := columns person;
                arrays := <["personAffiliates" :=
                             List.filter (registered_as field registration) rows]>
                            (arrays person) |}.
Proof. intros Hf Hr. unfold findAndVerifyPersonWithRelations. by rewrite Hf, Hr. Qed.

Lemma verify_returns id relation registration field db p :
  verify id relation registration field db = Returned p ->
  exists person rows,
    findOne id [relation] db = inr (Some person)
    /\ arrays person !! relation = Some rows.
Proof.
  unfold findAndVerifyPersonWithRelations.
  destruct (findOne id [relation] db) as [m|[person|]]; [done| |done].
  destruct (arrays person !! relation) as [rows|] eqn:Hr.
  - intros _. by exists person, rows.
  - by destruct (scalar_truthy _).
Qed.

(** X25: what [findAndVerifyPersonWithRelations] returns.  The entity found,
    with its columns and its other relations as they were, and under
    [personAffiliates] the rows of the relation asked for whose field is the
    registration: those rows and no other, in their order. *)
Theorem related_rows_are_filtered id relation registration field db p :
  verify id relation registration field db = Returned p ->
  exists person rows kept,
    findOne id [relation] db = inr (Some person)
    /\ arrays person !! relation = Some rows
    /\ columns p = columns person
    /\ (forall k, k <> "personAffiliates" -> arrays p !! k = arrays person !! k)
    /\ arrays p !! "personAffiliates" = Some kept
    /\ kept `sublist_of` rows
    /\ forall r, r ∈ kept <-> r ∈ rows /\ r !! field = Some (Str registration).
Proof.
  intros Hrun. destruct (verify_returns _ _ _ _ _ _ Hrun) as (person & rows & Hf & Hr).
  rewrite (verify_cases _ _ registration field _ _ _ Hf Hr) in Hrun.
  injection Hrun as <-.
  exists person, rows, (List.filter (registered_as field registration) rows). simpl.
  split; [done|]. split; [done|]. split; [done|]. split.
  { intros k Hk. by rewrite lookup_insert_ne. }
  split; [by rewrite lookup_insert_eq|]. split; [apply filter_sublist|].
  intros r. rewrite list_elem_of_In, filter_In, <- list_elem_of_In.
  by rewrite registered_as_spec.
Qed.

(** X26: what [findAndVerifyPersonWithRelations] throws.  A rejection of the
    repository never escapes as it is: it becomes an [RpcException] of code
    400 with the message of the error; a person that is not found and a
    relation that is not there give code 404; and a truthy column named as
    the relation gives the [TypeError] of calling [filter] on it. *)
Theorem verify_throws id relation registration field db e :
  verify id relation registration field db = Thrown e ->
  (exists message,
     findOne id [relation] db = inl message /\ e = RpcException (Some 400) message)
  \/ (findOne id [relation] db = inr None
      /\ e = RpcException (Some 404) ("Affiliate with ID: " +:+ Js.dec id +:+ " not found"))
  \/ (exists person,
        findOne id [relation] db = inr (Some person)
        /\ arrays person !! relation = None
        /\ (scalar_truthy (columns person !! relation) = false
            /\ e = RpcException (Some 404) ("campo " +:+ relation +:+ " no existe en person")
            \/ scalar_truthy (columns person !! relation) = true
               /\ e = TypeError "person[relation].filter is not a function")).
Proof.
  unfold findAndVerifyPersonWithRelations.
  destruct (findOne id [relation] db) as [m|[person|]].
  - intros [= <-]. left. by exists m.
  - destruct (arrays person !! relation) as [rows|] eqn:Hr; [done|].
    destruct (scalar_truthy _) eqn:Ht; intros [= <-]; right; right;
      exists person; (split; [done|]); (split; [done|]); [by right|by left].
  - intros [= <-]. right. by left.
Qed.

(** X27: the two registrations the service asks for are apart.  For one
    person and the rows of its relation, the rows
    [findAffiliteRelatedWithPerson] returns are those of type [persons], the
    rows the details are built from (lines 123-128) are those of type
    [affiliates]; no row is in both, a row of another type is in neither,
    and together they are no more than the rows of the relation. *)
Theorem persons_and_affiliates_apart id db person rows p1 p2 rows1 rows2 :
  findOne id ["personAffiliates"] db = inr (Some person) ->
  arrays person !! "personAffiliates" = Some rows ->
  findAffiliteRelatedWithPerson Db findOne id db = Returned p1 ->
  findAndVerifyPersonWithRelations Db findOne id "personAffiliates" "affiliates" "type" db
  = Returned p2 ->
  arrays p1 !! "personAffiliates" = Some rows1 ->
  arrays p2 !! "personAffiliates" = Some rows2 ->
  (forall r, r ∈ rows1 <-> r ∈ rows /\ r !! "type" = Some (Str "persons"))
  /\ (forall r, r ∈ rows2 <-> r ∈ rows /\ r !! "type" = Some (Str "affiliates"))
  /\ (forall r, r ∈ rows1 -> r ∉ rows2)
  /\ (forall r, (r !! "type") <> Some (Str "persons") ->
                (r !! "type") <> Some (Str "affiliates") -> (r ∉ rows1) /\ (r ∉ rows2))
  /\ (length rows1 + length rows2 <= length rows)%nat.
Proof.
  unfold findAffiliteRelatedWithPerson. intros Hf Hr H1 H2 Hrows1 Hrows2.
  rewrite (verify_cases _ _ "persons" "type" _ _ _ Hf Hr) in H1.
  rewrite (verify_cases _ _ "affiliates" "type" _ _ _ Hf Hr) in H2.
  injection H1 as <-. injection H2 as <-. simpl in Hrows1, Hrows2.
  rewrite lookup_insert_eq in Hrows1, Hrows2.
  injection Hrows1 as <-. injection Hrows2 as <-.
  assert (Hin : forall reg r, r ∈ List.filter (registered_as "type" reg) rows
                  <-> r ∈ rows /\ r !! "type" = Some (Str reg)).
  { intros reg r. rewrite list_elem_of_In, filter_In, <- list_elem_of_In.
    by rewrite registered_as_spec. }
  split; [apply Hin|]. split; [apply Hin|]. split; [|split].
  - intros r [_ H1]%Hin [_ H2]%Hin. congruence.
  - intros r Hp Ha. split; intros [_ H]%Hin; congruence.
  - apply disjoint_filters_length. intros r H1%registered_as_spec.
    apply not_true_is_false. intros H2%registered_as_spec. congruence.
Qed.

End Related.

Section Names.

Import Dependents.

Lemma length_append (s t : string) :
  String.length (s +:+ t) = (String.length s + String.length t)%nat.
Proof.
  induction s as [|c s IH]; [done|].
  change (S (String.length (s +:+ t)) = S (String.length s + String.length t)).
  by rewrite IH.
Qed.

Lemma join_length names :
  String.length (Js.join " " names) = separated_length names.
Proof.
  induction names as [|x [|y rest] IH]; [done|done|].
  change (String.length (x +:+ " " +:+ Js.join " " (y :: rest))
          = (String.length x + 1 + separated_length (y :: rest))%nat).
  rewrite !length_append, IH. simpl String.length. lia.
Qed.

Lemma given_names_given names n :
  n ∈ given_names names <-> Some n ∈ names /\ n <> EmptyString.
Proof.
  unfold given_names. rewrite list_elem_of_omap. split.
  - intros ([s|] & Hin & Hs); simpl in Hs; [|done].
    destruct (String.eqb_spec s EmptyString); simpl in Hs; [done|].
    injection Hs as ->. done.
  - intros [Hin Hn]. exists (Some n). split; [done|]. simpl.
    by destruct (String.eqb_spec n EmptyString).
Qed.

(** X28: the full name of a dependent's person is made of the names that are
    given, a name that is [null] or empty leaving no trace: every name kept
    is one of the four and is not empty, and the length of the full name is
    that of the names kept plus one separator between two of them. *)
Theorem full_name_skips_missing_names person info :
  personInfo (Some person) = Some info ->
  exists given,
    full_name info = Js.join " " given
    /\ (forall n, n ∈ given
                  <-> Some n ∈ [firstName person; secondName person;
                                lastName person; mothersLastName person]
                      /\ n <> EmptyString)
    /\ String.length (full_name info) = separated_length given
    /\ info_identityCard info = identityCard person.
Proof.
  intros Hinfo.
  unfold personInfo in Hinfo. apply (inj Some) in Hinfo. subst info.
  exists (given_names [firstName person; secondName person;
                       lastName person; mothersLastName person]).
  cbn [full_name info_identityCard].
  split; [reflexivity|]. split; [|split].
  - intros n. apply given_names_given.
  - apply join_length.
  - reflexivity.
Qed.

End Names.

(** ** The further properties on the scenarios *)

(** The name the service writes for a thumb scan of quality 70. *)
Lemma upload_name_parses_back_witness :
  Js.digit_free "TH" = true
  /\ Z.abs 70 <= Js.MAX_SAFE_INTEGER
  /\ parsed_number {| file_name := "TH_70.wsq" |} = Some 70.
Proof.
  assert (Hq : Z.abs 70 <= Js.MAX_SAFE_INTEGER) by (unfold Js.MAX_SAFE_INTEGER; lia).
  split; [reflexivity|]. split; [exact Hq|].
  exact (upload_name_parses_back "TH" 70 eq_refl Hq).
Defined.

(** The fifth submission of the thumb with a quality whose file is there. *)
Lemma resubmission_never_evicts_witness :
  let w := submitted 62 4 thumb_files in
  let r := upload_step reliable raw 1 (the_person w) empty_results (scan 1 60) w in
  (fingerprintTable w !! (1, 1) = Some (thumb_record 62 4)
   /\ 3 < attempts (thumb_record 62 4) + 1
   /\ ftpFiles w !! upload_path 1 "TH" 60 = Some (raw "c"))
  /\ ftpFiles r.1 = ftpFiles w
  /\ exists pf', fingerprintTable r.1 !! (1, 1) = Some pf' /\ attempts pf' = 5.
Proof.
  intros w.
  assert (Hp : fingerprintTable w !! (1, 1) = Some (thumb_record 62 4)) by reflexivity.
  assert (Ha : 3 < attempts (thumb_record 62 4) + 1) by (simpl; lia).
  assert (Hf : ftpFiles w !! upload_path 1 "TH" 60 = Some (raw "c")) by reflexivity.
  assert (Hq : 0 <= dto_quality (scan 1 60) <= Js.MAX_SAFE_INTEGER)
    by (unfold Js.MAX_SAFE_INTEGER; simpl; lia).
  split; [exact (conj Hp (conj Ha Hf))|].
  exact (resubmission_never_evicts reliable raw 1 (the_person w) empty_results
           (scan 1 60) w (thumb_record 62 4) (raw "c") Hp Ha eq_refl eq_refl eq_refl
           eq_refl Hq Hf).
Defined.

(** A batch of three scans for person 1, two of the thumb and one of the
    left thumb. *)
Lemma records_only_grow_witness :
  let w := submitted 62 4 thumb_files in
  let dto := {| personId := 1; fingerprints := [scan 1 70; scan 2 30; scan 1 50] |} in
  grows (fingerprintTable w) (fingerprintTable (createPersonFingerPrint reliable raw query_first dto w).1).
Proof.
  intros w dto. apply (records_only_grow reliable raw query_first dto w).
  intros r Hr _. apply list_elem_of_singleton in Hr. subst r. reflexivity.
Defined.

Lemma attempts_count_the_scans_witness :
  let w := submitted 62 4 thumb_files in
  let dto := {| personId := 1; fingerprints := [scan 1 70; scan 2 30; scan 1 50] |} in
  let r := createPersonFingerPrint reliable raw query_first dto w in
  attempts_at r.1 (1, 1) = 4 + 2 /\ attempts_at r.1 (1, 2) = 0 + 1.
Proof.
  intros w dto r.
  assert (Hcards : forall p, p ∈ persons w ->
            identityCard p = Js.dec (personId dto) -> row_id p = personId dto).
  { intros p Hp _. apply list_elem_of_singleton in Hp. subst p. reflexivity. }
  subst r. destruct (createPersonFingerPrint reliable raw query_first dto w) as [w' [resp|e]] eqn:E.
  - split.
    + exact (attempts_count_the_scans reliable raw query_first dto w w' resp Hcards E 1).
    + exact (attempts_count_the_scans reliable raw query_first dto w w' resp Hcards E 2).
  - apply (f_equal snd) in E. vm_compute in E. discriminate E.
Defined.

(** The eviction of the specification's scenario leaves four files. *)
Lemma eviction_does_not_add_files_witness :
  let w := submitted 62 4 thumb_files in
  let r := upload_step reliable raw 1 (the_person w) empty_results (scan 1 70) w in
  (fingerprintTable w !! (1, 1) = Some (thumb_record 62 4)
   /\ 3 < attempts (thumb_record 62 4) + 1
   /\ ftpFiles w !! "Person/Fingerprints/1/TH_55.wsq" = Some (raw "a"))
  /\ (size (ftpFiles r.1) <= size (ftpFiles w))%nat.
Proof.
  intros w.
  assert (Hp : fingerprintTable w !! (1, 1) = Some (thumb_record 62 4)) by reflexivity.
  assert (Ha : 3 < attempts (thumb_record 62 4) + 1) by (simpl; lia).
  assert (Hf : ftpFiles w !! "Person/Fingerprints/1/TH_55.wsq" = Some (raw "a"))
    by reflexivity.
  split; [exact (conj Hp (conj Ha Hf))|].
  exact (eviction_does_not_add_files reliable raw 1 (the_person w) empty_results
           (scan 1 70) w (thumb_record 62 4) Hp Ha (ex_intro _ (raw "a") Hf)).
Defined.

(** Nobody has id 7 or the identity card 7: the 404; and when the archive
    cannot be reached and says so first, its rejection. *)
Lemma unknown_person_processes_nothing_witness :
  let dto := {| personId := 7; fingerprints := [scan 1 70] |} in
  let r := createPersonFingerPrint reliable raw query_first dto fresh in
  let r' := createPersonFingerPrint connect_rejects raw connect_first dto fresh in
  (r.2 = Thrown (RpcException (Some 404) "Persona con 7 no encontrada")
   /\ log r.1 = [FtpConnect; PersonQuery "7"]
   /\ fingerprintTable r.1 = fingerprintTable fresh
   /\ ftpFiles r.1 = ftpFiles fresh)
  /\ r'.2 = Thrown (Rejected FtpConnect)
  /\ log r'.1 = [FtpConnect; PersonQuery "7"].
Proof.
  intros dto.
  assert (Hnone : forall p, p ∈ persons fresh ->
            row_id p <> personId dto /\ identityCard p <> Js.dec (personId dto)).
  { intros p Hp. apply list_elem_of_singleton in Hp. subst p. split; discriminate. }
  destruct (unknown_person_processes_nothing reliable raw query_first dto fresh
              eq_refl Hnone) as (_ & H404 & Hlog & Htab & Hfiles).
  destruct (unknown_person_processes_nothing connect_rejects raw connect_first dto fresh
              eq_refl Hnone) as (Hrun' & _ & Hlog' & _).
  split; [exact (conj (H404 eq_refl) (conj Hlog (conj Htab Hfiles)))|].
  exact (conj Hrun' Hlog').
Defined.

Lemma empty_batch_reports_nothing_witness :
  let dto := {| personId := 1; fingerprints := [] |} in
  let r := createPersonFingerPrint reliable raw query_first dto fresh in
  (findOnePerson reliable "1" fresh).2 = Returned (the_person fresh)
  /\ r.2 = Returned {| message := "No se registró ninguna huella correctamente.";
                       registros := {| success := []; error := [] |} |}
  /\ log r.1 = [FtpDestroy; FtpConnect; PersonQuery "1"]
  /\ fingerprintTable r.1 = fingerprintTable fresh
  /\ ftpFiles r.1 = ftpFiles fresh.
Proof.
  intros dto.
  assert (Hf : (findOnePerson reliable (Js.dec (personId dto)) fresh).2
               = Returned (the_person fresh)) by reflexivity.
  split; [exact Hf|].
  exact (empty_batch_reports_nothing reliable raw query_first dto fresh (the_person fresh)
           eq_refl Hf eq_refl).
Defined.

Lemma findOnePerson_by_id_or_card_witness :
  let w := submitted 62 4 thumb_files in
  (findOnePerson reliable "7" w).2
  = Thrown (RpcException (Some 404) "Persona con 7 no encontrada")
  /\ forall person,
       (findOnePerson reliable "1" w).2 = Returned person ->
       person_row person ∈ persons w
       /\ (row_id (person_row person) = 1 \/ identityCard (person_row person) = "1")
       /\ personFingerprints person
          = related_to (row_id (person_row person)) (fingerprintTable w).
Proof.
  intros w. split.
  - apply (findOnePerson_by_id_or_card reliable 7 w eq_refl).
    intros p Hp. apply list_elem_of_singleton in Hp. subst p. split; discriminate.
  - exact (proj2 (findOnePerson_by_id_or_card reliable 1 w eq_refl)).
Defined.

Lemma registered_are_the_records_witness :
  let w := submitted 62 4 thumb_files in
  exists l,
    showFingerprintRegistered reliable 1 w = (logged (PersonFindOne 1) w, Returned l)
    /\ length l = length (related_to 1 (fingerprintTable w))
    /\ forall id n,
         (id, n) ∈ l
         <-> exists tid pf,
               fingerprintTable w !! (1, tid) = Some pf
               /\ id = ft_id (fingerprintType pf) /\ n = name (fingerprintType pf).
Proof.
  intros w.
  exact (registered_are_the_records reliable 1 w person1 eq_refl eq_refl).
Defined.

(** The first scan of the thumb of person 1. *)
Lemma reported_scan_is_registered_witness :
  let r := upload_step reliable raw 1 (the_person fresh) empty_results (scan 1 70) fresh in
  exists n l,
    (r.2 = Returned (push_success empty_results n)
     \/ r.2 = Returned (push_error empty_results n))
    /\ (showFingerprintRegistered reliable 1 r.1).2 = Returned l
    /\ exists id, (id, n) ∈ l.
Proof.
  intros r. subst r.
  destruct (upload_step reliable raw 1 (the_person fresh) empty_results (scan 1 70) fresh)
    as [w' [acc'|e]] eqn:E.
  - destruct (reported_scan_is_registered reliable raw 1 (the_person fresh)
                empty_results (scan 1 70) fresh w' acc' person1 E eq_refl eq_refl eq_refl)
      as (n & l & Hacc & Hl & Hin).
    exists n, l. split; [|exact (conj Hl Hin)].
    destruct Hacc as [->| ->]; [by left|by right].
  - apply (f_equal snd) in E. vm_compute in E. discriminate E.
Defined.

(** *** The person operations on a table in memory *)

Section Registered.

Import Persons Registry.

Lemma table_paginates : paginates (repository := table).
Proof. intros param offset limit db ps n _ _ [= <- <-]. done. Qed.

(** Nobody has id 9: the soft delete removes nothing and [remove] confirms. *)
Lemma remove_confirms_unknown_ids_witness :
  repo_findOneBy 9 three_persons = inr None
  /\ remove 9 three_persons = (three_persons, Ok "This action removes a #9 person")
  /\ forall id' db0 message,
       (remove id' db0).2 <> Throw (NotFoundException message).
Proof.
  split; [reflexivity|].
  exact (remove_confirms_unknown_ids (repository := table) 9 three_persons three_persons
           eq_refl eq_refl).
Defined.

(** The identity card 4501 is taken. *)
Lemma create_throws_witness :
  create "4501" three_persons
  = (three_persons, Throw (BadRequestException "Key (identity_card) already exists."))
  /\ exists error,
       repo_save (repo_create "4501") three_persons = (three_persons, inl error)
       /\ (code error = Some "23505"
           /\ BadRequestException "Key (identity_card) already exists."
              = BadRequestException (detail error)
           \/ code error <> Some "23505"
              /\ BadRequestException "Key (identity_card) already exists."
                 = InternalServerErrorException "Unexecpected Error").
Proof.
  assert (Hrun : create "4501" three_persons
                 = (three_persons,
                    Throw (BadRequestException "Key (identity_card) already exists.")))
    by reflexivity.
  split; [exact Hrun|].
  exact (create_throws (repository := table) "4501" three_persons three_persons _ Hrun).
Defined.

(** Person 2 is given the identity card of person 1. *)
Lemma update_throws_witness :
  let e := BadRequestException "Key (identity_card) already exists." in
  update 2 "4501" three_persons = (three_persons, Throw e)
  /\ ((exists error, repo_preload 2 "4501" three_persons = inl error
                     /\ e = Rejection error /\ three_persons = three_persons)
      \/ (repo_preload 2 "4501" three_persons = inr None
          /\ e = NotFoundException ("Person with: " +:+ Js.dec 2 +:+ " not found")
          /\ three_persons = three_persons)
      \/ (exists person error,
            repo_preload 2 "4501" three_persons = inr (Some person)
            /\ repo_save person three_persons = (three_persons, inl error)
            /\ (code error = Some "23505" /\ e = BadRequestException (detail error)
                \/ code error <> Some "23505"
                   /\ e = InternalServerErrorException "Unexecpected Error"))).
Proof.
  intros e.
  assert (Hrun : update 2 "4501" three_persons = (three_persons, Throw e)) by reflexivity.
  split; [exact Hrun|].
  exact (update_throws (repository := table) 2 "4501" three_persons three_persons e Hrun).
Defined.

(** With the connection down the three calls reject, and the error comes
    back as it is. *)
Lemma unguarded_rejections_escape_witness :
  let dto := {| limit := None; page := None; filter := None |} in
  update (repository := offline) 1 "4501" three_persons
  = (three_persons, Throw (Rejection connection_lost))
  /\ findAll (repository := offline) dto three_persons
     = (three_persons, Throw (Rejection connection_lost))
  /\ remove (repository := offline) 1 three_persons
     = (three_persons, Throw (Rejection connection_lost)).
Proof.
  intros dto.
  exact (unguarded_rejections_escape (repository := offline) 1 "4501" dto three_persons
           three_persons connection_lost connection_lost connection_lost
           eq_refl eq_refl eq_refl).
Defined.

(** The second page of one row of the rows whose identity card holds 45. *)
Lemma findAll_page_witness :
  let dto := {| limit := Some 1; page := Some 2; filter := Some "4 5" |} in
  let pg := {| persons := [ {| row_id := 2; identityCard := "4502" |} ]; total := 2 |} in
  findAll dto three_persons = (three_persons, Ok pg)
  /\ persons pg
     = take 1 (drop 1 (repo_matching (filter_parameter (Some "4 5")) three_persons))
  /\ total pg = length (repo_matching (filter_parameter (Some "4 5")) three_persons).
Proof.
  intros dto pg.
  assert (Hrun : findAll dto three_persons = (three_persons, Ok pg)) by reflexivity.
  assert (Hp : 1 <= default 1 (page dto)) by (simpl; lia).
  assert (Hl : 1 <= default 10 (limit dto)) by (simpl; lia).
  split; [exact Hrun|].
  destruct (findAll_page (repository := table) dto three_persons three_persons pg
              table_paginates Hp Hl Hrun) as (_ & Hps & Htotal & _).
  exact (conj Hps Htotal).
Defined.

(** The first two pages of one row. *)
Lemma findAll_pages_tile_witness :
  let row n card := {| row_id := n; identityCard := card |} in
  let pg1 := {| persons := [row 1 "4501"]; total := 3 |} in
  let pg2 := {| persons := [row 2 "4502"]; total := 3 |} in
  findAll {| limit := Some 1; page := Some 1; filter := None |} three_persons
  = (three_persons, Ok pg1)
  /\ findAll {| limit := Some 1; page := Some 2; filter := None |} three_persons
     = (three_persons, Ok pg2)
  /\ persons pg1 ++ persons pg2 = take 2 three_persons
  /\ total pg1 = total pg2.
Proof.
  intros row pg1 pg2.
  assert (H1 : findAll {| limit := Some 1; page := Some 1; filter := None |} three_persons
               = (three_persons, Ok pg1)) by reflexivity.
  assert (H2 : findAll {| limit := Some 1; page := Some (1 + 1); filter := None |}
                 three_persons
               = (three_persons, Ok pg2)) by reflexivity.
  assert (Hp : 1 <= 1) by lia.
  split; [exact H1|]. split; [exact H2|].
  exact (findAll_pages_tile (repository := table) 1 1 None three_persons three_persons
           three_persons pg1 pg2 table_paginates Hp Hp H1 H2).
Defined.

(** Two spellings of the same filter. *)
Lemma findAll_ignores_white_space_witness :
  remove_spaces "45 01" = remove_spaces " 4501"
  /\ findAll {| limit := None; page := None; filter := Some "45 01" |} three_persons
     = findAll {| limit := None; page := None; filter := Some " 4501" |} three_persons.
Proof.
  split; [reflexivity|].
  assert (H1 : "45 01" <> EmptyString) by discriminate.
  assert (H2 : " 4501" <> EmptyString) by discriminate.
  exact (proj1 (findAll_ignores_white_space (repository := table) "45 01" " 4501"
                  None None three_persons H1 H2 eq_refl)).
Defined.

End Registered.

(** *** Related rows and dependents on examples *)

Section Housed.

Import Relations Household.

(** The two rows of type [persons] of the holder. *)
Lemma related_rows_are_filtered_witness :
  exists p person rows kept,
    findAffiliteRelatedWithPerson _ findOne 1 [holder] = Returned p
    /\ findOne 1 ["personAffiliates"] [holder] = inr (Some person)
    /\ arrays person !! "personAffiliates" = Some rows
    /\ arrays p !! "personAffiliates" = Some kept
    /\ kept `sublist_of` rows
    /\ forall r, r ∈ kept <-> r ∈ rows /\ r !! "type" = Some (Str "persons").
Proof.
  destruct (findAffiliteRelatedWithPerson _ findOne 1 [holder]) as [p|e] eqn:E.
  - destruct (related_rows_are_filtered _ findOne 1 "personAffiliates" "persons" "type"
                [holder] p E)
      as (person & rows & kept & Hf & Hr & _ & _ & Hk & Hsub & Hin).
    exists p, person, rows, kept.
    exact (conj eq_refl (conj Hf (conj Hr (conj Hk (conj Hsub Hin))))).
  - vm_compute in E. discriminate E.
Defined.

(** With the connection down, and for an id nobody has. *)
Lemma verify_throws_witness :
  findAffiliteRelatedWithPerson _ disconnected 1 [holder]
  = Thrown (RpcException (Some 400) "Connection terminated")
  /\ findAffiliteRelatedWithPerson _ findOne 5 [holder]
     = Thrown (RpcException (Some 404) "Affiliate with ID: 5 not found")
  /\ ((exists message,
         disconnected 1 ["personAffiliates"] [holder] = inl message
         /\ RpcException (Some 400) "Connection terminated"
            = RpcException (Some 400) message)
      \/ (disconnected 1 ["personAffiliates"] [holder] = inr None
          /\ RpcException (Some 400) "Connection terminated"
             = RpcException (Some 404) ("Affiliate with ID: " +:+ Js.dec 1 +:+ " not found"))
      \/ (exists person,
            disconnected 1 ["personAffiliates"] [holder] = inr (Some person)
            /\ arrays person !! "personAffiliates" = None
            /\ (scalar_truthy (columns person !! "personAffiliates") = false
                /\ RpcException (Some 400) "Connection terminated"
                   = RpcException (Some 404)
                       ("campo " +:+ "personAffiliates" +:+ " no existe en person")
                \/ scalar_truthy (columns person !! "personAffiliates") = true
                   /\ RpcException (Some 400) "Connection terminated"
                      = TypeError "person[relation].filter is not a function"))).
Proof.
  split; [reflexivity|]. split; [reflexivity|].
  exact (verify_throws _ disconnected 1 "personAffiliates" "persons" "type" [holder]
           (RpcException (Some 400) "Connection terminated") eq_refl).
Defined.

Lemma persons_and_affiliates_apart_witness :
  let rows := [relation_row 10 "affiliates"; relation_row 11 "persons";
               relation_row 12 "persons"; relation_row 13 "spouses"] in
  let rows1 := [relation_row 11 "persons"; relation_row 12 "persons"] in
  let rows2 := [relation_row 10 "affiliates"] in
  (forall r, r ∈ rows1 <-> r ∈ rows /\ r !! "type" = Some (Str "persons"))
  /\ (forall r, r ∈ rows2 <-> r ∈ rows /\ r !! "type" = Some (Str "affiliates"))
  /\ (forall r, r ∈ rows1 -> r ∉ rows2)
  /\ (forall r, (r !! "type") <> Some (Str "persons") ->
                (r !! "type") <> Some (Str "affiliates") -> (r ∉ rows1) /\ (r ∉ rows2))
  /\ (length rows1 + length rows2 <= length rows)%nat.
Proof.
  intros rows rows1 rows2.
  destruct (findOne 1 ["personAffiliates"] [holder]) as [m|[person|]] eqn:Ef;
    [vm_compute in Ef; discriminate Ef| |vm_compute in Ef; discriminate Ef].
  assert (Hr : arrays person !! "personAffiliates" = Some rows).
  { vm_compute in Ef. injection Ef as <-. reflexivity. }
  destruct (findAffiliteRelatedWithPerson _ findOne 1 [holder]) as [p1|e] eqn:E1;
    [|vm_compute in E1; discriminate E1].
  destruct (findAndVerifyPersonWithRelations _ findOne 1 "personAffiliates" "affiliates"
              "type" [holder]) as [p2|e] eqn:E2;
    [|vm_compute in E2; discriminate E2].
  assert (H1 : arrays p1 !! "personAffiliates" = Some rows1).
  { vm_compute in E1. injection E1 as <-. reflexivity. }
  assert (H2 : arrays p2 !! "personAffiliates" = Some rows2).
  { vm_compute in E2. injection E2 as <-. reflexivity. }
  exact (persons_and_affiliates_apart _ findOne 1 [holder] person rows p1 p2 rows1 rows2
           Ef Hr E1 E2 H1 H2).
Defined.

End Housed.

Section Named.

Import Dependents.

(** A person without a second name and with an empty second surname. *)
Lemma full_name_skips_missing_names_witness :
  let person := {| firstName := Some "Ana"; secondName := None;
                   lastName := Some "Rojas"; mothersLastName := Some "";
                   identityCard := Some "4501" |} in
  exists info given,
    personInfo (Some person) = Some info
    /\ full_name info = "Ana Rojas"
    /\ full_name info = Js.join " " given
    /\ String.length (full_name info) = separated_length given.
Proof.
  intros person.
  pose (info := {| full_name := "Ana Rojas"; info_identityCard := Some "4501" |}).
  assert (Hinfo : personInfo (Some person) = Some info) by reflexivity.
  destruct (full_name_skips_missing_names person info Hinfo)
    as (given & Hjoin & _ & Hlen & _).
  exists info, given. exact (conj Hinfo (conj eq_refl (conj Hjoin Hlen))).
Defined.

End Named.

